(** * TAMDL firmware: power sequencing, calibration storage and RFID decoding

    Shallow embedding of the event/timer driven control core of the TAMDL
    data logger: [Control.c] (power outputs, power cycling, configuration
    verification, calibration and its EEPROM block), [RFID.c] (reader power
    management and the byte-wise frame decoder) and the calibration menu
    handler of [DM_PowerOutput.c].

    File-scope C variables become fields of one explicit [State] record that
    every routine takes and returns.  Integers are [Z] with the wrap-around of
    their C type written out, arrays are lists indexed with stdpp's lookup and
    insert, C strings are [string].  Routines that can run into undefined
    behaviour (an array index outside its bounds, a division by zero) return
    an [Outcome]. *)

From Stdlib Require Import ZArith List String Ascii Bool Lia.
From stdpp Require Import base option list.
Import ListNotations.
Open Scope Z_scope.

(** ** Machine integers *)

Definition wrap8 (x : Z) : Z := x mod 256.
Definition wrap16 (x : Z) : Z := x mod 65536.
Definition wrap32 (x : Z) : Z := x mod 4294967296.

(** ** Results of routines that may leave defined behaviour *)

Inductive Fault := DivideByZero | IndexOutOfBounds.

Inductive Outcome (A : Type) :=
| Ok (a : A)
| Undefined (f : Fault).
Arguments Ok {A} a.
Arguments Undefined {A} f.

Definition bind {A B} (x : Outcome A) (k : A -> Outcome B) : Outcome B :=
  match x with
  | Ok a => k a
  | Undefined f => Undefined f
  end.

Notation "'let*' x := c1 'in' c2" := (bind c1 (fun x => c2))
  (at level 10, x name, c1 at level 100, c2 at level 200).

(** ** Enumerations and constants of the headers *)

(** [NONE] is the "not assigned" value of enums and timer handles. *)
Definition NONE : Z := -1.

(** Control.h: [PWR_OUT]. *)
Definition PWR_OUT_NONE : Z := NONE.
Definition PWR_OUT_UA1 : Z := 0.
Definition PWR_OUT_UA2 : Z := 1.
Definition PWR_OUT_BATT : Z := 2.
Definition NUM_PWR_OUT : Z := 3.
Definition PWR_OFF : bool := false.
Definition PWR_ON : bool := true.

(** Control.c: [MEASURE]. *)
Definition MEASURE_NONE : Z := NONE.
Definition MEASURE_UA1 : Z := 0.
Definition MEASURE_UA2 : Z := 1.
Definition NUM_MEASURE : Z := 2.

(** RFID.h: [RFID_TYPE]. *)
Definition RFID_TYPE_NONE : Z := NONE.
Definition RFID_TYPE_SR : Z := 0.
Definition RFID_TYPE_LR : Z := 1.

(** Control.c, VerifyConfiguration(). *)
Definition MIN_VAL_INTERVAL : Z := 10.
Definition MIN_VAL_ON_DURATION : Z := 5.
Definition MIN_VAL_OFF_DURATION : Z := 5.
Definition MIN_SCAN_DURATION : Z := 52.
Definition MAX_SCAN_DURATION : Z := 2200.

(** Control.c: magic word of the EEPROM block. *)
Definition MAGIC_ID : Z := 0x0815.

(** Error flags that the USART delivers above the data bits of RXDATAX
    (device header of the EFM32). *)
Definition USART_RXDATAX_PERR : Z := 0x4000.
Definition USART_RXDATAX_FERR : Z := 0x8000.

(** DisplayMenu.h: [UPD_ID]. *)
Inductive UPD_ID :=
  UPD_ALL | UPD_CONFIGURATION | UPD_SYSCLOCK | UPD_TRANSPONDER | UPD_POWERSTATUS.

(** Keys.h: the key codes the calibration menu distinguishes. *)
Inductive KEYCODE :=
| KEYCODE_NONE
| KEYCODE_SET_RELEASE
| KEYCODE_MENU_ENTER
| KEYCODE_MENU_EXIT
| KEYCODE_OTHER (code : Z).

(** Compile-time switches and constants of the absent [config.h]. *)
Record Build := {
  LOGGING : bool;                          (* #ifdef LOGGING *)
  RFID_TRIGGERED_BY_LIGHT_BARRIER : bool;  (* RFID.h, default 1 *)
  RFID_DISPLAY_UPDATE_WHEN_ABSENT : bool;  (* RFID.h, default 0 *)
  EM1_MOD_RFID : Z;                        (* bit of RFID in g_EM1_ModuleMask *)
  FIRST_POWER_ALARM : Z                    (* first id of the power alarms *)
}.

(** ** Log lines, display updates and timer calls *)

(** One constructor per format string of the modelled routines. *)
Inductive LogMsg :=
| Msg_PowerOutput_Invalid (output : Z) (enable : bool)
| Msg_PowerOutput (output : Z) (enable : bool)
| Msg_BATT_StartMeasuring
| Msg_BATT_MeasuringStopped
| Msg_SwitchingAllOff
| Msg_IntervalInvalidHandle (hdl : Z)
| Msg_Cfg_IntervalTooSmall (i interval : Z)
| Msg_Cfg_OnDurationTooSmall (i duration : Z)
| Msg_Cfg_OffDurationTooSmall (i off : Z)
| Msg_Cfg_ScanTooSmall (scan : Z)
| Msg_Cfg_ScanTooLong (scan : Z)
| Msg_ReadingCalibration
| Msg_CalibrationDefaults
| Msg_CalibrationSaved
| Msg_RFID_PoweredOn
| Msg_RFID_PoweredOff
| Msg_RFID_Deferred
| Msg_TransponderAbsent (id : string)
| Msg_Transponder (id : string)
| Msg_RecvXOR (recv calc : Z) (data : string)
| Msg_RecvCRC (recv calc : Z) (data : string).

Inductive Event :=
| EvLog (m : LogMsg)
| EvLogError (m : LogMsg)
| EvDisplayUpdate (u : UPD_ID)
| EvTimerStart (hdl seconds : Z)
| EvTimerCancel (hdl : Z)
| EvNewID (id : string).          (* l_flgNewID = true *)

Fixpoint count_events (p : Event -> bool) (l : list Event) : nat :=
  match l with
  | [] => 0%nat
  | e :: l' => ((if p e then 1 else 0) + count_events p l')%nat
  end.

Definition is_NewID (e : Event) : bool :=
  match e with EvNewID _ => true | _ => false end.

Definition is_TimerStart (hdl seconds : Z) (e : Event) : bool :=
  match e with
  | EvTimerStart h t => (h =? hdl) && (t =? seconds)
  | _ => false
  end.

Definition is_LogError (e : Event) : bool :=
  match e with EvLogError _ => true | _ => false end.

(** Configuration warnings of VerifyConfiguration() for power output [i]. *)
Definition is_CfgWarning (i : Z) (e : Event) : bool :=
  match e with
  | EvLogError (Msg_Cfg_IntervalTooSmall j _)
  | EvLogError (Msg_Cfg_OnDurationTooSmall j _)
  | EvLogError (Msg_Cfg_OffDurationTooSmall j _) => j =? i
  | _ => false
  end.

(** ** Software timers *)

(** Modelled from the spec: the SoftTimer pool of AlarmClock.c, which is not
    part of the sources.  A slot keeps the callback it was created with and
    its countdown in seconds; a countdown of 0 means the timer is not armed. *)
Inductive Callback :=
| cb_IntervalPowerControl
| cb_MeasureStop
| cb_MeasureStopBATT
| cb_TransponderAbsent
| cb_SwitchRFID_Off
| cb_RFID_DetectTimeout
| cb_Foreign.                     (* timers of modules outside this model *)

Record sTimer := { tmFct : Callback; tmCount : Z }.

(** ** Structures *)

(** RFID.h: [RFID_CONFIG]. *)
Record RFID_CONFIG := { RFID_Type : Z; RFID_PwrOut : Z }.

(** Control.c: [MEASURE_DEF]; the enable pin the structure points to is kept
    in [measPin]. *)
Record MEASURE_DEF := {
  hdlFollowUpTime : Z;
  FollowUpTime : Z;
  ChanU : Z;
  U_MinDiff : Z;
  ChanI : Z;
  I_MinDiff : Z
}.

(** Control.c: [l_PwrOutDef], the measuring facility of each power output. *)
Definition l_PwrOutDef_Measure : list Z := [MEASURE_UA1; MEASURE_UA2; MEASURE_NONE].

(** ** The state of the firmware *)

#[local] Set Primitive Projections.

Record HwState := {
  powerFail : bool;  (* IsPowerFail() of PowerFail.c *)
  timers : list sTimer;  (* pool of AlarmClock.c software timers *)
  trace : list Event;  (* calls to Log, LogError, DisplayUpdate, sTimerStart/Cancel; newest first *)
  pwrPin : list bool;  (* *l_PwrOutDef[i].BitBandAddr *)
  measPin : list bool;  (* *l_MeasureDef[m].BitBandAddr *)
  usartClock : bool;  (* CMU clock of USART1 *)
  usartRxPin : bool;  (* Rx pin PC1 configured as input *)
  g_EM1_ModuleMask : Z;  (* modules that need EM1 *)
  g_flgIRQ : bool;  (* keep main loop running *)
  eeprom : list Z;  (* byte image of the EEPROM emulation block *)
  l_hdlLCD_Off : Z  (* DisplayMenu.c: LCD power-off timer *)
}.

Record RfidVars := {
  g_RFID_Type : Z;
  g_RFID_Power : Z;
  g_RFID_AbsentDetectTimeout : Z;
  g_RFID_PwrOffTimeout : Z;
  g_RFID_DetectTimeout : Z;
  g_FERR_Cnt : Z;
  g_PERR_Cnt : Z;
  g_Transponder : string;
  l_flgRFID_Activate : bool;
  l_pRFID_Cfg : RFID_CONFIG;
  l_flgRFID_On : bool;
  l_flgRFID_IsOn : bool;
  l_hdlRFID_AbsentDetect : Z;
  l_hdlRFID_Off : Z;
  l_flgObjectPresent : bool;
  l_hdlRFID_DetectTimeout : Z;
  l_flgNewRun : bool;
  l_flgNewID : bool;
  l_State : Z;
  xorsum : Z;
  w : list Z;
  crc : Z
}.

Record CtrlVars := {
  g_PwrInterval : list Z;
  g_On_Duration : list Z;
  l_hdlPwrInterval : list Z;
  l_MeasureDef : list MEASURE_DEF;
  l_ScanDuration : Z;
  l_ADC_ActiveChanMask : Z;
  l_ADC_Value : list Z;
  l_prev_value_mV : list Z;
  l_prev_value_mA : list Z;
  l_prev_BATT_mV : Z;
  l_prev_BATT_mA : Z;
  l_BATT_FollowUpTime : Z;
  l_hdlFollowUpTimeBATT : Z;
  l_flgLogBATT : bool;
  l_BATT_MeasureInterval : Z;
  l_flgADC_On : bool;
  l_mV_Divider : list Z;
  l_mA_Divider : list Z
}.

Record MenuVars := {
  g_UA_Calib_mV : list Z;
  g_UA_Calib_mA : list Z;
  l_PwrOut : Z;
  l_flgCalibration : Z
}.

Record State := { hw : HwState; rfid : RfidVars; ctrl : CtrlVars; menu : MenuVars }.

Definition set_timers (v : list sTimer) (s : State) : State :=
  let r := hw s in
  let x :=
  {|
     powerFail := powerFail r; timers := v; trace := trace r; pwrPin :=
     pwrPin r; measPin := measPin r; usartClock := usartClock r; usartRxPin
     := usartRxPin r; g_EM1_ModuleMask := g_EM1_ModuleMask r; g_flgIRQ :=
     g_flgIRQ r; eeprom := eeprom r; l_hdlLCD_Off := l_hdlLCD_Off r |} in
  {| hw := x; rfid := rfid s; ctrl := ctrl s; menu := menu s |}.

Definition set_trace (v : list Event) (s : State) : State :=
  let r := hw s in
  let x :=
  {|
     powerFail := powerFail r; timers := timers r; trace := v; pwrPin :=
     pwrPin r; measPin := measPin r; usartClock := usartClock r; usartRxPin
     := usartRxPin r; g_EM1_ModuleMask := g_EM1_ModuleMask r; g_flgIRQ :=
     g_flgIRQ r; eeprom := eeprom r; l_hdlLCD_Off := l_hdlLCD_Off r |} in
  {| hw := x; rfid := rfid s; ctrl := ctrl s; menu := menu s |}.

Definition set_pwrPin (v : list bool) (s : State) : State :=
  let r := hw s in
  let x :=
  {|
     powerFail := powerFail r; timers := timers r; trace := trace r; pwrPin
     := v; measPin := measPin r; usartClock := usartClock r; usartRxPin :=
     usartRxPin r; g_EM1_ModuleMask := g_EM1_ModuleMask r; g_flgIRQ :=
     g_flgIRQ r; eeprom := eeprom r; l_hdlLCD_Off := l_hdlLCD_Off r |} in
  {| hw := x; rfid := rfid s; ctrl := ctrl s; menu := menu s |}.

Definition set_measPin (v : list bool) (s : State) : State :=
  let r := hw s in
  let x :=
  {|
     powerFail := powerFail r; timers := timers r; trace := trace r; pwrPin
     := pwrPin r; measPin := v; usartClock := usartClock r; usartRxPin :=
     usartRxPin r; g_EM1_ModuleMask := g_EM1_ModuleMask r; g_flgIRQ :=
     g_flgIRQ r; eeprom := eeprom r; l_hdlLCD_Off := l_hdlLCD_Off r |} in
  {| hw := x; rfid := rfid s; ctrl := ctrl s; menu := menu s |}.

Definition set_usartClock (v : bool) (s : State) : State :=
  let r := hw s in
  let x :=
  {|
     powerFail := powerFail r; timers := timers r; trace := trace r; pwrPin
     := pwrPin r; measPin := measPin r; usartClock := v; usartRxPin :=
     usartRxPin r; g_EM1_ModuleMask := g_EM1_ModuleMask r; g_flgIRQ :=
     g_flgIRQ r; eeprom := eeprom r; l_hdlLCD_Off := l_hdlLCD_Off r |} in
  {| hw := x; rfid := rfid s; ctrl := ctrl s; menu := menu s |}.

Definition set_usartRxPin (v : bool) (s : State) : State :=
  let r := hw s in
  let x :=
  {|
     powerFail := powerFail r; timers := timers r; trace := trace r; pwrPin
     := pwrPin r; measPin := measPin r; usartClock := usartClock r;
     usartRxPin := v; g_EM1_ModuleMask := g_EM1_ModuleMask r; g_flgIRQ :=
     g_flgIRQ r; eeprom := eeprom r; l_hdlLCD_Off := l_hdlLCD_Off r |} in
  {| hw := x; rfid := rfid s; ctrl := ctrl s; menu := menu s |}.

Definition set_g_EM1_ModuleMask (v : Z) (s : State) : State :=
  let r := hw s in
  let x :=
  {|
     powerFail := powerFail r; timers := timers r; trace := trace r; pwrPin
     := pwrPin r; measPin := measPin r; usartClock := usartClock r;
     usartRxPin := usartRxPin r; g_EM1_ModuleMask := v; g_flgIRQ := g_flgIRQ
     r; eeprom := eeprom r; l_hdlLCD_Off := l_hdlLCD_Off r |} in
  {| hw := x; rfid := rfid s; ctrl := ctrl s; menu := menu s |}.

Definition set_g_flgIRQ (v : bool) (s : State) : State :=
  let r := hw s in
  let x :=
  {|
     powerFail := powerFail r; timers := timers r; trace := trace r; pwrPin
     := pwrPin r; measPin := measPin r; usartClock := usartClock r;
     usartRxPin := usartRxPin r; g_EM1_ModuleMask := g_EM1_ModuleMask r;
     g_flgIRQ := v; eeprom := eeprom r; l_hdlLCD_Off := l_hdlLCD_Off r |} in
  {| hw := x; rfid := rfid s; ctrl := ctrl s; menu := menu s |}.

Definition set_eeprom (v : list Z) (s : State) : State :=
  let r := hw s in
  let x :=
  {|
     powerFail := powerFail r; timers := timers r; trace := trace r; pwrPin
     := pwrPin r; measPin := measPin r; usartClock := usartClock r;
     usartRxPin := usartRxPin r; g_EM1_ModuleMask := g_EM1_ModuleMask r;
     g_flgIRQ := g_flgIRQ r; eeprom := v; l_hdlLCD_Off := l_hdlLCD_Off r |} in
  {| hw := x; rfid := rfid s; ctrl := ctrl s; menu := menu s |}.

Definition set_g_FERR_Cnt (v : Z) (s : State) : State :=
  let r := rfid s in
  let x :=
  {|
     g_RFID_Type := g_RFID_Type r; g_RFID_Power := g_RFID_Power r;
     g_RFID_AbsentDetectTimeout := g_RFID_AbsentDetectTimeout r;
     g_RFID_PwrOffTimeout := g_RFID_PwrOffTimeout r; g_RFID_DetectTimeout :=
     g_RFID_DetectTimeout r; g_FERR_Cnt := v; g_PERR_Cnt := g_PERR_Cnt r;
     g_Transponder := g_Transponder r; l_flgRFID_Activate :=
     l_flgRFID_Activate r; l_pRFID_Cfg := l_pRFID_Cfg r; l_flgRFID_On :=
     l_flgRFID_On r; l_flgRFID_IsOn := l_flgRFID_IsOn r;
     l_hdlRFID_AbsentDetect := l_hdlRFID_AbsentDetect r; l_hdlRFID_Off :=
     l_hdlRFID_Off r; l_flgObjectPresent := l_flgObjectPresent r;
     l_hdlRFID_DetectTimeout := l_hdlRFID_DetectTimeout r; l_flgNewRun :=
     l_flgNewRun r; l_flgNewID := l_flgNewID r; l_State := l_State r; xorsum
     := xorsum r; w := w r; crc := crc r |} in
  {| hw := hw s; rfid := x; ctrl := ctrl s; menu := menu s |}.

Definition set_g_PERR_Cnt (v : Z) (s : State) : State :=
  let r := rfid s in
  let x :=
  {|
     g_RFID_Type := g_RFID_Type r; g_RFID_Power := g_RFID_Power r;
     g_RFID_AbsentDetectTimeout := g_RFID_AbsentDetectTimeout r;
     g_RFID_PwrOffTimeout := g_RFID_PwrOffTimeout r; g_RFID_DetectTimeout :=
     g_RFID_DetectTimeout r; g_FERR_Cnt := g_FERR_Cnt r; g_PERR_Cnt := v;
     g_Transponder := g_Transponder r; l_flgRFID_Activate :=
     l_flgRFID_Activate r; l_pRFID_Cfg := l_pRFID_Cfg r; l_flgRFID_On :=
     l_flgRFID_On r; l_flgRFID_IsOn := l_flgRFID_IsOn r;
     l_hdlRFID_AbsentDetect := l_hdlRFID_AbsentDetect r; l_hdlRFID_Off :=
     l_hdlRFID_Off r; l_flgObjectPresent := l_flgObjectPresent r;
     l_hdlRFID_DetectTimeout := l_hdlRFID_DetectTimeout r; l_flgNewRun :=
     l_flgNewRun r; l_flgNewID := l_flgNewID r; l_State := l_State r; xorsum
     := xorsum r; w := w r; crc := crc r |} in
  {| hw := hw s; rfid := x; ctrl := ctrl s; menu := menu s |}.

Definition set_g_Transponder (v : string) (s : State) : State :=
  let r := rfid s in
  let x :=
  {|
     g_RFID_Type := g_RFID_Type r; g_RFID_Power := g_RFID_Power r;
     g_RFID_AbsentDetectTimeout := g_RFID_AbsentDetectTimeout r;
     g_RFID_PwrOffTimeout := g_RFID_PwrOffTimeout r; g_RFID_DetectTimeout :=
     g_RFID_DetectTimeout r; g_FERR_Cnt := g_FERR_Cnt r; g_PERR_Cnt :=
     g_PERR_Cnt r; g_Transponder := v; l_flgRFID_Activate :=
     l_flgRFID_Activate r; l_pRFID_Cfg := l_pRFID_Cfg r; l_flgRFID_On :=
     l_flgRFID_On r; l_flgRFID_IsOn := l_flgRFID_IsOn r;
     l_hdlRFID_AbsentDetect := l_hdlRFID_AbsentDetect r; l_hdlRFID_Off :=
     l_hdlRFID_Off r; l_flgObjectPresent := l_flgObjectPresent r;
     l_hdlRFID_DetectTimeout := l_hdlRFID_DetectTimeout r; l_flgNewRun :=
     l_flgNewRun r; l_flgNewID := l_flgNewID r; l_State := l_State r; xorsum
     := xorsum r; w := w r; crc := crc r |} in
  {| hw := hw s; rfid := x; ctrl := ctrl s; menu := menu s |}.

Definition set_l_flgRFID_On (v : bool) (s : State) : State :=
  let r := rfid s in
  let x :=
  {|
     g_RFID_Type := g_RFID_Type r; g_RFID_Power := g_RFID_Power r;
     g_RFID_AbsentDetectTimeout := g_RFID_AbsentDetectTimeout r;
     g_RFID_PwrOffTimeout := g_RFID_PwrOffTimeout r; g_RFID_DetectTimeout :=
     g_RFID_DetectTimeout r; g_FERR_Cnt := g_FERR_Cnt r; g_PERR_Cnt :=
     g_PERR_Cnt r; g_Transponder := g_Transponder r; l_flgRFID_Activate :=
     l_flgRFID_Activate r; l_pRFID_Cfg := l_pRFID_Cfg r; l_flgRFID_On := v;
     l_flgRFID_IsOn := l_flgRFID_IsOn r; l_hdlRFID_AbsentDetect :=
     l_hdlRFID_AbsentDetect r; l_hdlRFID_Off := l_hdlRFID_Off r;
     l_flgObjectPresent := l_flgObjectPresent r; l_hdlRFID_DetectTimeout :=
     l_hdlRFID_DetectTimeout r; l_flgNewRun := l_flgNewRun r; l_flgNewID :=
     l_flgNewID r; l_State := l_State r; xorsum := xorsum r; w := w r; crc
     := crc r |} in
  {| hw := hw s; rfid := x; ctrl := ctrl s; menu := menu s |}.

Definition set_l_flgRFID_IsOn (v : bool) (s : State) : State :=
  let r := rfid s in
  let x :=
  {|
     g_RFID_Type := g_RFID_Type r; g_RFID_Power := g_RFID_Power r;
     g_RFID_AbsentDetectTimeout := g_RFID_AbsentDetectTimeout r;
     g_RFID_PwrOffTimeout := g_RFID_PwrOffTimeout r; g_RFID_DetectTimeout :=
     g_RFID_DetectTimeout r; g_FERR_Cnt := g_FERR_Cnt r; g_PERR_Cnt :=
     g_PERR_Cnt r; g_Transponder := g_Transponder r; l_flgRFID_Activate :=
     l_flgRFID_Activate r; l_pRFID_Cfg := l_pRFID_Cfg r; l_flgRFID_On :=
     l_flgRFID_On r; l_flgRFID_IsOn := v; l_hdlRFID_AbsentDetect :=
     l_hdlRFID_AbsentDetect r; l_hdlRFID_Off := l_hdlRFID_Off r;
     l_flgObjectPresent := l_flgObjectPresent r; l_hdlRFID_DetectTimeout :=
     l_hdlRFID_DetectTimeout r; l_flgNewRun := l_flgNewRun r; l_flgNewID :=
     l_flgNewID r; l_State := l_State r; xorsum := xorsum r; w := w r; crc
     := crc r |} in
  {| hw := hw s; rfid := x; ctrl := ctrl s; menu := menu s |}.

Definition set_l_flgObjectPresent (v : bool) (s : State) : State :=
  let r := rfid s in
  let x :=
  {|
     g_RFID_Type := g_RFID_Type r; g_RFID_Power := g_RFID_Power r;
     g_RFID_AbsentDetectTimeout := g_RFID_AbsentDetectTimeout r;
     g_RFID_PwrOffTimeout := g_RFID_PwrOffTimeout r; g_RFID_DetectTimeout :=
     g_RFID_DetectTimeout r; g_FERR_Cnt := g_FERR_Cnt r; g_PERR_Cnt :=
     g_PERR_Cnt r; g_Transponder := g_Transponder r; l_flgRFID_Activate :=
     l_flgRFID_Activate r; l_pRFID_Cfg := l_pRFID_Cfg r; l_flgRFID_On :=
     l_flgRFID_On r; l_flgRFID_IsOn := l_flgRFID_IsOn r;
     l_hdlRFID_AbsentDetect := l_hdlRFID_AbsentDetect r; l_hdlRFID_Off :=
     l_hdlRFID_Off r; l_flgObjectPresent := v; l_hdlRFID_DetectTimeout :=
     l_hdlRFID_DetectTimeout r; l_flgNewRun := l_flgNewRun r; l_flgNewID :=
     l_flgNewID r; l_State := l_State r; xorsum := xorsum r; w := w r; crc
     := crc r |} in
  {| hw := hw s; rfid := x; ctrl := ctrl s; menu := menu s |}.

Definition set_l_flgNewRun (v : bool) (s : State) : State :=
  let r := rfid s in
  let x :=
  {|
     g_RFID_Type := g_RFID_Type r; g_RFID_Power := g_RFID_Power r;
     g_RFID_AbsentDetectTimeout := g_RFID_AbsentDetectTimeout r;
     g_RFID_PwrOffTimeout := g_RFID_PwrOffTimeout r; g_RFID_DetectTimeout :=
     g_RFID_DetectTimeout r; g_FERR_Cnt := g_FERR_Cnt r; g_PERR_Cnt :=
     g_PERR_Cnt r; g_Transponder := g_Transponder r; l_flgRFID_Activate :=
     l_flgRFID_Activate r; l_pRFID_Cfg := l_pRFID_Cfg r; l_flgRFID_On :=
     l_flgRFID_On r; l_flgRFID_IsOn := l_flgRFID_IsOn r;
     l_hdlRFID_AbsentDetect := l_hdlRFID_AbsentDetect r; l_hdlRFID_Off :=
     l_hdlRFID_Off r; l_flgObjectPresent := l_flgObjectPresent r;
     l_hdlRFID_DetectTimeout := l_hdlRFID_DetectTimeout r; l_flgNewRun := v;
     l_flgNewID := l_flgNewID r; l_State := l_State r; xorsum := xorsum r; w
     := w r; crc := crc r |} in
  {| hw := hw s; rfid := x; ctrl := ctrl s; menu := menu s |}.

Definition set_l_flgNewID (v : bool) (s : State) : State :=
  let r := rfid s in
  let x :=
  {|
     g_RFID_Type := g_RFID_Type r; g_RFID_Power := g_RFID_Power r;
     g_RFID_AbsentDetectTimeout := g_RFID_AbsentDetectTimeout r;
     g_RFID_PwrOffTimeout := g_RFID_PwrOffTimeout r; g_RFID_DetectTimeout :=
     g_RFID_DetectTimeout r; g_FERR_Cnt := g_FERR_Cnt r; g_PERR_Cnt :=
     g_PERR_Cnt r; g_Transponder := g_Transponder r; l_flgRFID_Activate :=
     l_flgRFID_Activate r; l_pRFID_Cfg := l_pRFID_Cfg r; l_flgRFID_On :=
     l_flgRFID_On r; l_flgRFID_IsOn := l_flgRFID_IsOn r;
     l_hdlRFID_AbsentDetect := l_hdlRFID_AbsentDetect r; l_hdlRFID_Off :=
     l_hdlRFID_Off r; l_flgObjectPresent := l_flgObjectPresent r;
     l_hdlRFID_DetectTimeout := l_hdlRFID_DetectTimeout r; l_flgNewRun :=
     l_flgNewRun r; l_flgNewID := v; l_State := l_State r; xorsum := xorsum
     r; w := w r; crc := crc r |} in
  {| hw := hw s; rfid := x; ctrl := ctrl s; menu := menu s |}.

Definition set_l_State (v : Z) (s : State) : State :=
  let r := rfid s in
  let x :=
  {|
     g_RFID_Type := g_RFID_Type r; g_RFID_Power := g_RFID_Power r;
     g_RFID_AbsentDetectTimeout := g_RFID_AbsentDetectTimeout r;
     g_RFID_PwrOffTimeout := g_RFID_PwrOffTimeout r; g_RFID_DetectTimeout :=
     g_RFID_DetectTimeout r; g_FERR_Cnt := g_FERR_Cnt r; g_PERR_Cnt :=
     g_PERR_Cnt r; g_Transponder := g_Transponder r; l_flgRFID_Activate :=
     l_flgRFID_Activate r; l_pRFID_Cfg := l_pRFID_Cfg r; l_flgRFID_On :=
     l_flgRFID_On r; l_flgRFID_IsOn := l_flgRFID_IsOn r;
     l_hdlRFID_AbsentDetect := l_hdlRFID_AbsentDetect r; l_hdlRFID_Off :=
     l_hdlRFID_Off r; l_flgObjectPresent := l_flgObjectPresent r;
     l_hdlRFID_DetectTimeout := l_hdlRFID_DetectTimeout r; l_flgNewRun :=
     l_flgNewRun r; l_flgNewID := l_flgNewID r; l_State := v; xorsum :=
     xorsum r; w := w r; crc := crc r |} in
  {| hw := hw s; rfid := x; ctrl := ctrl s; menu := menu s |}.

Definition set_xorsum (v : Z) (s : State) : State :=
  let r := rfid s in
  let x :=
  {|
     g_RFID_Type := g_RFID_Type r; g_RFID_Power := g_RFID_Power r;
     g_RFID_AbsentDetectTimeout := g_RFID_AbsentDetectTimeout r;
     g_RFID_PwrOffTimeout := g_RFID_PwrOffTimeout r; g_RFID_DetectTimeout :=
     g_RFID_DetectTimeout r; g_FERR_Cnt := g_FERR_Cnt r; g_PERR_Cnt :=
     g_PERR_Cnt r; g_Transponder := g_Transponder r; l_flgRFID_Activate :=
     l_flgRFID_Activate r; l_pRFID_Cfg := l_pRFID_Cfg r; l_flgRFID_On :=
     l_flgRFID_On r; l_flgRFID_IsOn := l_flgRFID_IsOn r;
     l_hdlRFID_AbsentDetect := l_hdlRFID_AbsentDetect r; l_hdlRFID_Off :=
     l_hdlRFID_Off r; l_flgObjectPresent := l_flgObjectPresent r;
     l_hdlRFID_DetectTimeout := l_hdlRFID_DetectTimeout r; l_flgNewRun :=
     l_flgNewRun r; l_flgNewID := l_flgNewID r; l_State := l_State r; xorsum
     := v; w := w r; crc := crc r |} in
  {| hw := hw s; rfid := x; ctrl := ctrl s; menu := menu s |}.

Definition set_w (v : list Z) (s : State) : State :=
  let r := rfid s in
  let x :=
  {|
     g_RFID_Type := g_RFID_Type r; g_RFID_Power := g_RFID_Power r;
     g_RFID_AbsentDetectTimeout := g_RFID_AbsentDetectTimeout r;
     g_RFID_PwrOffTimeout := g_RFID_PwrOffTimeout r; g_RFID_DetectTimeout :=
     g_RFID_DetectTimeout r; g_FERR_Cnt := g_FERR_Cnt r; g_PERR_Cnt :=
     g_PERR_Cnt r; g_Transponder := g_Transponder r; l_flgRFID_Activate :=
     l_flgRFID_Activate r; l_pRFID_Cfg := l_pRFID_Cfg r; l_flgRFID_On :=
     l_flgRFID_On r; l_flgRFID_IsOn := l_flgRFID_IsOn r;
     l_hdlRFID_AbsentDetect := l_hdlRFID_AbsentDetect r; l_hdlRFID_Off :=
     l_hdlRFID_Off r; l_flgObjectPresent := l_flgObjectPresent r;
     l_hdlRFID_DetectTimeout := l_hdlRFID_DetectTimeout r; l_flgNewRun :=
     l_flgNewRun r; l_flgNewID := l_flgNewID r; l_State := l_State r; xorsum
     := xorsum r; w := v; crc := crc r |} in
  {| hw := hw s; rfid := x; ctrl := ctrl s; menu := menu s |}.

Definition set_crc (v : Z) (s : State) : State :=
  let r := rfid s in
  let x :=
  {|
     g_RFID_Type := g_RFID_Type r; g_RFID_Power := g_RFID_Power r;
     g_RFID_AbsentDetectTimeout := g_RFID_AbsentDetectTimeout r;
     g_RFID_PwrOffTimeout := g_RFID_PwrOffTimeout r; g_RFID_DetectTimeout :=
     g_RFID_DetectTimeout r; g_FERR_Cnt := g_FERR_Cnt r; g_PERR_Cnt :=
     g_PERR_Cnt r; g_Transponder := g_Transponder r; l_flgRFID_Activate :=
     l_flgRFID_Activate r; l_pRFID_Cfg := l_pRFID_Cfg r; l_flgRFID_On :=
     l_flgRFID_On r; l_flgRFID_IsOn := l_flgRFID_IsOn r;
     l_hdlRFID_AbsentDetect := l_hdlRFID_AbsentDetect r; l_hdlRFID_Off :=
     l_hdlRFID_Off r; l_flgObjectPresent := l_flgObjectPresent r;
     l_hdlRFID_DetectTimeout := l_hdlRFID_DetectTimeout r; l_flgNewRun :=
     l_flgNewRun r; l_flgNewID := l_flgNewID r; l_State := l_State r; xorsum
     := xorsum r; w := w r; crc := v |} in
  {| hw := hw s; rfid := x; ctrl := ctrl s; menu := menu s |}.

Definition set_g_PwrInterval (v : list Z) (s : State) : State :=
  let r := ctrl s in
  let x :=
  {|
     g_PwrInterval := v; g_On_Duration := g_On_Duration r; l_hdlPwrInterval
     := l_hdlPwrInterval r; l_MeasureDef := l_MeasureDef r; l_ScanDuration
     := l_ScanDuration r; l_ADC_ActiveChanMask := l_ADC_ActiveChanMask r;
     l_ADC_Value := l_ADC_Value r; l_prev_value_mV := l_prev_value_mV r;
     l_prev_value_mA := l_prev_value_mA r; l_prev_BATT_mV := l_prev_BATT_mV
     r; l_prev_BATT_mA := l_prev_BATT_mA r; l_BATT_FollowUpTime :=
     l_BATT_FollowUpTime r; l_hdlFollowUpTimeBATT := l_hdlFollowUpTimeBATT
     r; l_flgLogBATT := l_flgLogBATT r; l_BATT_MeasureInterval :=
     l_BATT_MeasureInterval r; l_flgADC_On := l_flgADC_On r; l_mV_Divider :=
     l_mV_Divider r; l_mA_Divider := l_mA_Divider r |} in
  {| hw := hw s; rfid := rfid s; ctrl := x; menu := menu s |}.

Definition set_g_On_Duration (v : list Z) (s : State) : State :=
  let r := ctrl s in
  let x :=
  {|
     g_PwrInterval := g_PwrInterval r; g_On_Duration := v; l_hdlPwrInterval
     := l_hdlPwrInterval r; l_MeasureDef := l_MeasureDef r; l_ScanDuration
     := l_ScanDuration r; l_ADC_ActiveChanMask := l_ADC_ActiveChanMask r;
     l_ADC_Value := l_ADC_Value r; l_prev_value_mV := l_prev_value_mV r;
     l_prev_value_mA := l_prev_value_mA r; l_prev_BATT_mV := l_prev_BATT_mV
     r; l_prev_BATT_mA := l_prev_BATT_mA r; l_BATT_FollowUpTime :=
     l_BATT_FollowUpTime r; l_hdlFollowUpTimeBATT := l_hdlFollowUpTimeBATT
     r; l_flgLogBATT := l_flgLogBATT r; l_BATT_MeasureInterval :=
     l_BATT_MeasureInterval r; l_flgADC_On := l_flgADC_On r; l_mV_Divider :=
     l_mV_Divider r; l_mA_Divider := l_mA_Divider r |} in
  {| hw := hw s; rfid := rfid s; ctrl := x; menu := menu s |}.

Definition set_l_ScanDuration (v : Z) (s : State) : State :=
  let r := ctrl s in
  let x :=
  {|
     g_PwrInterval := g_PwrInterval r; g_On_Duration := g_On_Duration r;
     l_hdlPwrInterval := l_hdlPwrInterval r; l_MeasureDef := l_MeasureDef r;
     l_ScanDuration := v; l_ADC_ActiveChanMask := l_ADC_ActiveChanMask r;
     l_ADC_Value := l_ADC_Value r; l_prev_value_mV := l_prev_value_mV r;
     l_prev_value_mA := l_prev_value_mA r; l_prev_BATT_mV := l_prev_BATT_mV
     r; l_prev_BATT_mA := l_prev_BATT_mA r; l_BATT_FollowUpTime :=
     l_BATT_FollowUpTime r; l_hdlFollowUpTimeBATT := l_hdlFollowUpTimeBATT
     r; l_flgLogBATT := l_flgLogBATT r; l_BATT_MeasureInterval :=
     l_BATT_MeasureInterval r; l_flgADC_On := l_flgADC_On r; l_mV_Divider :=
     l_mV_Divider r; l_mA_Divider := l_mA_Divider r |} in
  {| hw := hw s; rfid := rfid s; ctrl := x; menu := menu s |}.

Definition set_l_ADC_ActiveChanMask (v : Z) (s : State) : State :=
  let r := ctrl s in
  let x :=
  {|
     g_PwrInterval := g_PwrInterval r; g_On_Duration := g_On_Duration r;
     l_hdlPwrInterval := l_hdlPwrInterval r; l_MeasureDef := l_MeasureDef r;
     l_ScanDuration := l_ScanDuration r; l_ADC_ActiveChanMask := v;
     l_ADC_Value := l_ADC_Value r; l_prev_value_mV := l_prev_value_mV r;
     l_prev_value_mA := l_prev_value_mA r; l_prev_BATT_mV := l_prev_BATT_mV
     r; l_prev_BATT_mA := l_prev_BATT_mA r; l_BATT_FollowUpTime :=
     l_BATT_FollowUpTime r; l_hdlFollowUpTimeBATT := l_hdlFollowUpTimeBATT
     r; l_flgLogBATT := l_flgLogBATT r; l_BATT_MeasureInterval :=
     l_BATT_MeasureInterval r; l_flgADC_On := l_flgADC_On r; l_mV_Divider :=
     l_mV_Divider r; l_mA_Divider := l_mA_Divider r |} in
  {| hw := hw s; rfid := rfid s; ctrl := x; menu := menu s |}.

Definition set_l_prev_value_mV (v : list Z) (s : State) : State :=
  let r := ctrl s in
  let x :=
  {|
     g_PwrInterval := g_PwrInterval r; g_On_Duration := g_On_Duration r;
     l_hdlPwrInterval := l_hdlPwrInterval r; l_MeasureDef := l_MeasureDef r;
     l_ScanDuration := l_ScanDuration r; l_ADC_ActiveChanMask :=
     l_ADC_ActiveChanMask r; l_ADC_Value := l_ADC_Value r; l_prev_value_mV
     := v; l_prev_value_mA := l_prev_value_mA r; l_prev_BATT_mV :=
     l_prev_BATT_mV r; l_prev_BATT_mA := l_prev_BATT_mA r;
     l_BATT_FollowUpTime := l_BATT_FollowUpTime r; l_hdlFollowUpTimeBATT :=
     l_hdlFollowUpTimeBATT r; l_flgLogBATT := l_flgLogBATT r;
     l_BATT_MeasureInterval := l_BATT_MeasureInterval r; l_flgADC_On :=
     l_flgADC_On r; l_mV_Divider := l_mV_Divider r; l_mA_Divider :=
     l_mA_Divider r |} in
  {| hw := hw s; rfid := rfid s; ctrl := x; menu := menu s |}.

Definition set_l_prev_value_mA (v : list Z) (s : State) : State :=
  let r := ctrl s in
  let x :=
  {|
     g_PwrInterval := g_PwrInterval r; g_On_Duration := g_On_Duration r;
     l_hdlPwrInterval := l_hdlPwrInterval r; l_MeasureDef := l_MeasureDef r;
     l_ScanDuration := l_ScanDuration r; l_ADC_ActiveChanMask :=
     l_ADC_ActiveChanMask r; l_ADC_Value := l_ADC_Value r; l_prev_value_mV
     := l_prev_value_mV r; l_prev_value_mA := v; l_prev_BATT_mV :=
     l_prev_BATT_mV r; l_prev_BATT_mA := l_prev_BATT_mA r;
     l_BATT_FollowUpTime := l_BATT_FollowUpTime r; l_hdlFollowUpTimeBATT :=
     l_hdlFollowUpTimeBATT r; l_flgLogBATT := l_flgLogBATT r;
     l_BATT_MeasureInterval := l_BATT_MeasureInterval r; l_flgADC_On :=
     l_flgADC_On r; l_mV_Divider := l_mV_Divider r; l_mA_Divider :=
     l_mA_Divider r |} in
  {| hw := hw s; rfid := rfid s; ctrl := x; menu := menu s |}.

Definition set_l_prev_BATT_mV (v : Z) (s : State) : State :=
  let r := ctrl s in
  let x :=
  {|
     g_PwrInterval := g_PwrInterval r; g_On_Duration := g_On_Duration r;
     l_hdlPwrInterval := l_hdlPwrInterval r; l_MeasureDef := l_MeasureDef r;
     l_ScanDuration := l_ScanDuration r; l_ADC_ActiveChanMask :=
     l_ADC_ActiveChanMask r; l_ADC_Value := l_ADC_Value r; l_prev_value_mV
     := l_prev_value_mV r; l_prev_value_mA := l_prev_value_mA r;
     l_prev_BATT_mV := v; l_prev_BATT_mA := l_prev_BATT_mA r;
     l_BATT_FollowUpTime := l_BATT_FollowUpTime r; l_hdlFollowUpTimeBATT :=
     l_hdlFollowUpTimeBATT r; l_flgLogBATT := l_flgLogBATT r;
     l_BATT_MeasureInterval := l_BATT_MeasureInterval r; l_flgADC_On :=
     l_flgADC_On r; l_mV_Divider := l_mV_Divider r; l_mA_Divider :=
     l_mA_Divider r |} in
  {| hw := hw s; rfid := rfid s; ctrl := x; menu := menu s |}.

Definition set_l_prev_BATT_mA (v : Z) (s : State) : State :=
  let r := ctrl s in
  let x :=
  {|
     g_PwrInterval := g_PwrInterval r; g_On_Duration := g_On_Duration r;
     l_hdlPwrInterval := l_hdlPwrInterval r; l_MeasureDef := l_MeasureDef r;
     l_ScanDuration := l_ScanDuration r; l_ADC_ActiveChanMask :=
     l_ADC_ActiveChanMask r; l_ADC_Value := l_ADC_Value r; l_prev_value_mV
     := l_prev_value_mV r; l_prev_value_mA := l_prev_value_mA r;
     l_prev_BATT_mV := l_prev_BATT_mV r; l_prev_BATT_mA := v;
     l_BATT_FollowUpTime := l_BATT_FollowUpTime r; l_hdlFollowUpTimeBATT :=
     l_hdlFollowUpTimeBATT r; l_flgLogBATT := l_flgLogBATT r;
     l_BATT_MeasureInterval := l_BATT_MeasureInterval r; l_flgADC_On :=
     l_flgADC_On r; l_mV_Divider := l_mV_Divider r; l_mA_Divider :=
     l_mA_Divider r |} in
  {| hw := hw s; rfid := rfid s; ctrl := x; menu := menu s |}.

Definition set_l_flgLogBATT (v : bool) (s : State) : State :=
  let r := ctrl s in
  let x :=
  {|
     g_PwrInterval := g_PwrInterval r; g_On_Duration := g_On_Duration r;
     l_hdlPwrInterval := l_hdlPwrInterval r; l_MeasureDef := l_MeasureDef r;
     l_ScanDuration := l_ScanDuration r; l_ADC_ActiveChanMask :=
     l_ADC_ActiveChanMask r; l_ADC_Value := l_ADC_Value r; l_prev_value_mV
     := l_prev_value_mV r; l_prev_value_mA := l_prev_value_mA r;
     l_prev_BATT_mV := l_prev_BATT_mV r; l_prev_BATT_mA := l_prev_BATT_mA r;
     l_BATT_FollowUpTime := l_BATT_FollowUpTime r; l_hdlFollowUpTimeBATT :=
     l_hdlFollowUpTimeBATT r; l_flgLogBATT := v; l_BATT_MeasureInterval :=
     l_BATT_MeasureInterval r; l_flgADC_On := l_flgADC_On r; l_mV_Divider :=
     l_mV_Divider r; l_mA_Divider := l_mA_Divider r |} in
  {| hw := hw s; rfid := rfid s; ctrl := x; menu := menu s |}.

Definition set_l_BATT_MeasureInterval (v : Z) (s : State) : State :=
  let r := ctrl s in
  let x :=
  {|
     g_PwrInterval := g_PwrInterval r; g_On_Duration := g_On_Duration r;
     l_hdlPwrInterval := l_hdlPwrInterval r; l_MeasureDef := l_MeasureDef r;
     l_ScanDuration := l_ScanDuration r; l_ADC_ActiveChanMask :=
     l_ADC_ActiveChanMask r; l_ADC_Value := l_ADC_Value r; l_prev_value_mV
     := l_prev_value_mV r; l_prev_value_mA := l_prev_value_mA r;
     l_prev_BATT_mV := l_prev_BATT_mV r; l_prev_BATT_mA := l_prev_BATT_mA r;
     l_BATT_FollowUpTime := l_BATT_FollowUpTime r; l_hdlFollowUpTimeBATT :=
     l_hdlFollowUpTimeBATT r; l_flgLogBATT := l_flgLogBATT r;
     l_BATT_MeasureInterval := v; l_flgADC_On := l_flgADC_On r; l_mV_Divider
     := l_mV_Divider r; l_mA_Divider := l_mA_Divider r |} in
  {| hw := hw s; rfid := rfid s; ctrl := x; menu := menu s |}.

Definition set_l_flgADC_On (v : bool) (s : State) : State :=
  let r := ctrl s in
  let x :=
  {|
     g_PwrInterval := g_PwrInterval r; g_On_Duration := g_On_Duration r;
     l_hdlPwrInterval := l_hdlPwrInterval r; l_MeasureDef := l_MeasureDef r;
     l_ScanDuration := l_ScanDuration r; l_ADC_ActiveChanMask :=
     l_ADC_ActiveChanMask r; l_ADC_Value := l_ADC_Value r; l_prev_value_mV
     := l_prev_value_mV r; l_prev_value_mA := l_prev_value_mA r;
     l_prev_BATT_mV := l_prev_BATT_mV r; l_prev_BATT_mA := l_prev_BATT_mA r;
     l_BATT_FollowUpTime := l_BATT_FollowUpTime r; l_hdlFollowUpTimeBATT :=
     l_hdlFollowUpTimeBATT r; l_flgLogBATT := l_flgLogBATT r;
     l_BATT_MeasureInterval := l_BATT_MeasureInterval r; l_flgADC_On := v;
     l_mV_Divider := l_mV_Divider r; l_mA_Divider := l_mA_Divider r |} in
  {| hw := hw s; rfid := rfid s; ctrl := x; menu := menu s |}.

Definition set_l_mV_Divider (v : list Z) (s : State) : State :=
  let r := ctrl s in
  let x :=
  {|
     g_PwrInterval := g_PwrInterval r; g_On_Duration := g_On_Duration r;
     l_hdlPwrInterval := l_hdlPwrInterval r; l_MeasureDef := l_MeasureDef r;
     l_ScanDuration := l_ScanDuration r; l_ADC_ActiveChanMask :=
     l_ADC_ActiveChanMask r; l_ADC_Value := l_ADC_Value r; l_prev_value_mV
     := l_prev_value_mV r; l_prev_value_mA := l_prev_value_mA r;
     l_prev_BATT_mV := l_prev_BATT_mV r; l_prev_BATT_mA := l_prev_BATT_mA r;
     l_BATT_FollowUpTime := l_BATT_FollowUpTime r; l_hdlFollowUpTimeBATT :=
     l_hdlFollowUpTimeBATT r; l_flgLogBATT := l_flgLogBATT r;
     l_BATT_MeasureInterval := l_BATT_MeasureInterval r; l_flgADC_On :=
     l_flgADC_On r; l_mV_Divider := v; l_mA_Divider := l_mA_Divider r |} in
  {| hw := hw s; rfid := rfid s; ctrl := x; menu := menu s |}.

Definition set_l_mA_Divider (v : list Z) (s : State) : State :=
  let r := ctrl s in
  let x :=
  {|
     g_PwrInterval := g_PwrInterval r; g_On_Duration := g_On_Duration r;
     l_hdlPwrInterval := l_hdlPwrInterval r; l_MeasureDef := l_MeasureDef r;
     l_ScanDuration := l_ScanDuration r; l_ADC_ActiveChanMask :=
     l_ADC_ActiveChanMask r; l_ADC_Value := l_ADC_Value r; l_prev_value_mV
     := l_prev_value_mV r; l_prev_value_mA := l_prev_value_mA r;
     l_prev_BATT_mV := l_prev_BATT_mV r; l_prev_BATT_mA := l_prev_BATT_mA r;
     l_BATT_FollowUpTime := l_BATT_FollowUpTime r; l_hdlFollowUpTimeBATT :=
     l_hdlFollowUpTimeBATT r; l_flgLogBATT := l_flgLogBATT r;
     l_BATT_MeasureInterval := l_BATT_MeasureInterval r; l_flgADC_On :=
     l_flgADC_On r; l_mV_Divider := l_mV_Divider r; l_mA_Divider := v |} in
  {| hw := hw s; rfid := rfid s; ctrl := x; menu := menu s |}.

Definition set_l_PwrOut (v : Z) (s : State) : State :=
  let r := menu s in
  let x :=
  {|
     g_UA_Calib_mV := g_UA_Calib_mV r; g_UA_Calib_mA := g_UA_Calib_mA r;
     l_PwrOut := v; l_flgCalibration := l_flgCalibration r |} in
  {| hw := hw s; rfid := rfid s; ctrl := ctrl s; menu := x |}.

Definition set_l_flgCalibration (v : Z) (s : State) : State :=
  let r := menu s in
  let x :=
  {|
     g_UA_Calib_mV := g_UA_Calib_mV r; g_UA_Calib_mA := g_UA_Calib_mA r;
     l_PwrOut := l_PwrOut r; l_flgCalibration := v |} in
  {| hw := hw s; rfid := rfid s; ctrl := ctrl s; menu := x |}.

(** ** Array access *)

(** [a[i]] for an index that the code has checked or that is a constant;
    outside the array the default is returned. *)
Definition nth_Z {A} (d : A) (l : list A) (i : Z) : A :=
  if i <? 0 then d else default d (l !! Z.to_nat i).

(** [a[i] = v]. *)
Definition upd_Z {A} (l : list A) (i : Z) (v : A) : list A :=
  if i <? 0 then l else <[Z.to_nat i := v]> l.

(** [a[i]] where nothing guards the index. *)
Definition read_Z (l : list Z) (i : Z) : Outcome Z :=
  if (0 <=? i) && (i <? Z.of_nat (length l)) then Ok (nth_Z 0 l i)
  else Undefined IndexOutOfBounds.

(** Unsigned 32-bit division. *)
Definition udiv32 (a b : Z) : Outcome Z :=
  if b =? 0 then Undefined DivideByZero else Ok (a / b).

(** [g_Transponder[0] == EOS]. *)
Definition is_EOS (str : string) : bool :=
  match str with EmptyString => true | String _ _ => false end.

(** ** Hexadecimal rendering (RFID_Decode) *)

Definition HexChar : list ascii :=
  ["0"; "1"; "2"; "3"; "4"; "5"; "6"; "7";
   "8"; "9"; "A"; "B"; "C"; "D"; "E"; "F"]%char.

(** [HexChar[(b >> 4) & 0x0F]] and [HexChar[b & 0x0F]]. *)
Definition hex_hi (b : Z) : ascii :=
  nth (Z.to_nat (Z.land (Z.shiftr b 4) 0x0F)) HexChar "0"%char.
Definition hex_lo (b : Z) : ascii :=
  nth (Z.to_nat (Z.land b 0x0F)) HexChar "0"%char.

(** The loop [for (i=0; i < 8; i++)] that fills [newTransponder] from
    [w[8-i]]. *)
Definition hex_id (w : list Z) : string :=
  string_of_list_ascii
    (flat_map (fun i => [hex_hi (nth_Z 0 w (8 - i)); hex_lo (nth_Z 0 w (8 - i))])
              [0; 1; 2; 3; 4; 5; 6; 7]).

(** The loop that renders the first [n] received bytes for an error line. *)
Definition hex_dump (n : nat) (w : list Z) : string :=
  string_of_list_ascii
    (flat_map (fun b => [" "%char; hex_hi b; hex_lo b]) (take n w)).

Section Firmware.

Variable bc : Build.

(** ** External collaborators *)

Definition push_event (e : Event) (s : State) : State :=
  set_trace (e :: trace (hw s)) s.

(** Logging.c *)
Definition Log (m : LogMsg) : State -> State := push_event (EvLog m).
Definition LogError (m : LogMsg) : State -> State := push_event (EvLogError m).

(** Code between [#ifdef LOGGING] and [#endif]. *)
Definition ifdef_LOGGING (f : State -> State) (s : State) : State :=
  if LOGGING bc then f s else s.

(** DisplayMenu.c: the display modules are outside the model, the request
    is recorded. *)
Definition DisplayUpdate (u : UPD_ID) : State -> State :=
  push_event (EvDisplayUpdate u).

(** Modelled from the spec: IsPowerFail() of the absent PowerFail.c reports
    whether the power-fail condition is asserted. *)
Definition IsPowerFail (s : State) : bool := powerFail (hw s).

(** Modelled from the spec: sTimerStart() and sTimerCancel() of the absent
    AlarmClock.c.  Starting arms or re-arms the countdown of the slot,
    cancelling disarms it; a handle outside the pool changes nothing. *)
Definition valid_hdl (hdl : Z) (s : State) : bool :=
  (0 <=? hdl) && (hdl <? Z.of_nat (length (timers (hw s)))).

Definition arm (seconds : Z) (t : sTimer) : sTimer :=
  {| tmFct := tmFct t; tmCount := seconds |}.

Definition sTimerStart (hdl seconds : Z) (s : State) : State :=
  let s := push_event (EvTimerStart hdl seconds) s in
  if valid_hdl hdl s
  then set_timers (alter (arm seconds) (Z.to_nat hdl) (timers (hw s))) s
  else s.

Definition sTimerCancel (hdl : Z) (s : State) : State :=
  let s := push_event (EvTimerCancel hdl) s in
  if valid_hdl hdl s
  then set_timers (alter (arm 0) (Z.to_nat hdl) (timers (hw s))) s
  else s.

(** ** Control.c: power outputs *)

Definition PowerOutput (output : Z) (enable : bool) (s : State) : State :=
  (* No power enable if Power Fail is active *)
  if enable && IsPowerFail s then s
  (* Parameter check *)
  else if output =? PWR_OUT_NONE then s
  else if (output <? 0) || (NUM_PWR_OUT <=? output)
  then ifdef_LOGGING (LogError (Msg_PowerOutput_Invalid output enable)) s
  (* See if Power Output is already in the right state *)
  else if Bool.eqb (nth_Z false (pwrPin (hw s)) output) enable then s
  else
    (* Switch power output on or off *)
    let s := set_pwrPin (upd_Z (pwrPin (hw s)) output enable) s in
    let s := ifdef_LOGGING (Log (Msg_PowerOutput output enable)) s in
    (* Check if there exists an associated measuring facility *)
    let m := nth_Z MEASURE_NONE l_PwrOutDef_Measure output in
    let s :=
      if m =? MEASURE_NONE then s
      else
        let md := nth_Z (Build_MEASURE_DEF NONE 0 0 0 0 0) (l_MeasureDef (ctrl s)) m in
        if enable then
          let s := if negb (hdlFollowUpTime md =? NONE)
                   then sTimerCancel (hdlFollowUpTime md) s else s in
          let s := set_measPin (upd_Z (measPin (hw s)) m true) s in
          let s := set_l_ADC_ActiveChanMask
                     (Z.setbit (Z.setbit (l_ADC_ActiveChanMask (ctrl s)) (ChanU md))
                               (ChanI md)) s in
          let s := set_l_prev_value_mA (upd_Z (l_prev_value_mA (ctrl s)) m 0) s in
          let s := set_l_prev_value_mV (upd_Z (l_prev_value_mV (ctrl s)) m 0) s in
          let s := set_l_flgADC_On true s in
          set_g_flgIRQ true s
        else
          sTimerStart (hdlFollowUpTime md) (FollowUpTime md) s in
    (* Always initialize values for Battery measurement *)
    let s := if enable
             then set_l_prev_BATT_mV 0 (set_l_prev_BATT_mA 0 s) else s in
    (* Also keep measuring another <FollowUpTime> seconds active for BATT *)
    let s :=
      if output =? PWR_OUT_BATT then
        if enable then
          let s := sTimerCancel (l_hdlFollowUpTimeBATT (ctrl s)) s in
          let s := ifdef_LOGGING (Log Msg_BATT_StartMeasuring) s in
          let s := set_l_BATT_MeasureInterval 0 s in
          set_l_flgLogBATT true s
        else
          sTimerStart (l_hdlFollowUpTimeBATT (ctrl s)) (l_BATT_FollowUpTime (ctrl s)) s
      else s in
    (* Update LC-Display if actual Power Status is displayed *)
    DisplayUpdate UPD_POWERSTATUS s.

(** Control.c: IsPowerOutputOn().  [output] is of the enumeration PWR_OUT.
    For a value outside PWR_OUT_NONE .. PWR_OUT_BATT the source trips its
    EFM_ASSERT and reads beyond l_PwrOutDef: the value given here for such
    an output carries no meaning; the results below are about outputs of the
    enumeration, or equate two reads of the same output. *)
Definition IsPowerOutputOn (output : Z) (s : State) : bool :=
  if output =? PWR_OUT_NONE then false
  else nth_Z false (pwrPin (hw s)) output.

Definition ControlPowerFailHandler (s : State) : State :=
  let s := ifdef_LOGGING (Log Msg_SwitchingAllOff) s in
  foldl (fun s i => PowerOutput i PWR_OFF s) s [0; 1; 2].

(** Control.c: ControlUpdateID() *)
Definition ControlUpdateID (transponderID : string) (s : State) : State :=
  ifdef_LOGGING (Log (Msg_Transponder transponderID)) s.

(** ** Control.c: VerifyConfiguration() *)

(** Body of the loop over the power outputs. *)
Definition verify_rail (i : Z) (s : State) : State :=
  let interval := nth_Z 0 (g_PwrInterval (ctrl s)) i in
  let duration := nth_Z 0 (g_On_Duration (ctrl s)) i in
  if interval <=? 0 then s            (* this channel is inactive *)
  else
    let '(s, error) :=
      if interval <? MIN_VAL_INTERVAL
      then (LogError (Msg_Cfg_IntervalTooSmall i interval) s, true)
      else if duration <? MIN_VAL_ON_DURATION
      then (LogError (Msg_Cfg_OnDurationTooSmall i duration) s, true)
      else if interval - duration <? MIN_VAL_OFF_DURATION
      then (LogError (Msg_Cfg_OffDurationTooSmall i (interval - duration)) s, true)
      else (s, false) in
    if error : bool
    then set_g_On_Duration (upd_Z (g_On_Duration (ctrl s)) i (-1))
           (set_g_PwrInterval (upd_Z (g_PwrInterval (ctrl s)) i (-1)) s)
    else s.

Definition VerifyConfiguration (s : State) : State :=
  (* Verify Power Cycle Interval *)
  let s := foldl (fun s i => verify_rail i s) s [0; 1; 2] in
  (* Verify Scan Time *)
  let scan := l_ScanDuration (ctrl s) in
  if scan <? MIN_SCAN_DURATION
  then set_l_ScanDuration MIN_SCAN_DURATION (LogError (Msg_Cfg_ScanTooSmall scan) s)
  else if scan >? MAX_SCAN_DURATION
  then set_l_ScanDuration MAX_SCAN_DURATION (LogError (Msg_Cfg_ScanTooLong scan) s)
  else s.

(** ** RFID.c: reader power management *)

Definition if_LIGHT_BARRIER (f : State -> State) (s : State) : State :=
  if RFID_TRIGGERED_BY_LIGHT_BARRIER bc then f s else s.

Definition RFID_Enable (s : State) : State :=
  let s := if_LIGHT_BARRIER (fun s =>
             let s := set_l_flgObjectPresent true s in
             if negb (l_hdlRFID_Off (rfid s) =? NONE)
             then sTimerCancel (l_hdlRFID_Off (rfid s)) s else s) s in
  (* initiate power-on of the RFID reader *)
  let s := set_l_flgRFID_On true s in
  (* re-trigger "new run" flag *)
  let s := set_l_flgNewRun true s in
  if_LIGHT_BARRIER (fun s =>
    if negb (l_hdlRFID_DetectTimeout (rfid s) =? NONE)
    then sTimerStart (l_hdlRFID_DetectTimeout (rfid s)) (g_RFID_DetectTimeout (rfid s)) s
    else s) s.

(** uartSetup(): clock and Rx pin; the register programming of the USART
    itself is not modelled. *)
Definition uartSetup (s : State) : State :=
  set_usartRxPin true (set_usartClock true s).

Definition RFID_PowerOn (s : State) : State :=
  if l_flgRFID_Activate (rfid s) then
    let s := ifdef_LOGGING (Log Msg_RFID_PoweredOn) s in
    let s := set_g_EM1_ModuleMask
               (Z.setbit (g_EM1_ModuleMask (hw s)) (EM1_MOD_RFID bc)) s in
    let s := uartSetup s in
    let s := PowerOutput (RFID_PwrOut (l_pRFID_Cfg (rfid s))) PWR_ON s in
    set_l_State 0 s
  else s.

Definition RFID_PowerOff (s : State) : State :=
  let s := PowerOutput (RFID_PwrOut (l_pRFID_Cfg (rfid s))) PWR_OFF s in
  let s := set_usartClock false s in
  let s := set_usartRxPin false s in
  let s := set_l_State 0 s in
  let s := set_g_EM1_ModuleMask
             (Z.clearbit (g_EM1_ModuleMask (hw s)) (EM1_MOD_RFID bc)) s in
  ifdef_LOGGING (Log Msg_RFID_PoweredOff) s.

(** The test [g_RFID_AbsentDetectTimeout == 0 || g_Transponder[0] == EOS]. *)
Definition no_reason_to_wait (s : State) : bool :=
  (g_RFID_AbsentDetectTimeout (rfid s) =? 0) || is_EOS (g_Transponder (rfid s)).

Definition cancel_AbsentDetect (s : State) : State :=
  if negb (l_hdlRFID_AbsentDetect (rfid s) =? NONE)
  then sTimerCancel (l_hdlRFID_AbsentDetect (rfid s)) s else s.

Definition RFID_Disable (s : State) : State :=
  let s := if_LIGHT_BARRIER (fun s =>
             let s := set_l_flgObjectPresent false s in
             if negb (l_hdlRFID_DetectTimeout (rfid s) =? NONE)
             then sTimerCancel (l_hdlRFID_DetectTimeout (rfid s)) s else s) s in
  if l_flgRFID_On (rfid s) then
    let s := set_l_flgRFID_On false s in     (* mark reader to be powered off *)
    let s := if_LIGHT_BARRIER (fun s =>
               if negb (l_hdlRFID_Off (rfid s) =? NONE)
               then sTimerCancel (l_hdlRFID_Off (rfid s)) s else s) s in
    if no_reason_to_wait s then
      let s := cancel_AbsentDetect s in
      (* RFID reader should be powered OFF immediately *)
      if l_flgRFID_IsOn (rfid s)
      then set_l_flgRFID_IsOn false (RFID_PowerOff s)
      else s
    else
      ifdef_LOGGING (fun s =>
        if negb (is_EOS (g_Transponder (rfid s)))
        then Log Msg_RFID_Deferred s else s) s
  else s.

Definition RFID_Check (s : State) : State :=
  let s :=
    if l_flgRFID_On (rfid s) then
      (* RFID reader should be powered ON *)
      if negb (l_flgRFID_IsOn (rfid s))
      then set_l_flgRFID_IsOn true (RFID_PowerOn s)
      else s
    else
      (* RFID reader should be powered OFF *)
      if l_flgRFID_IsOn (rfid s) then
        if no_reason_to_wait s
        then set_l_flgRFID_IsOn false (RFID_PowerOff (cancel_AbsentDetect s))
        else s
      else s in
  if l_flgNewID (rfid s) then
    let s := set_l_flgNewID false s in
    let s := ControlUpdateID (g_Transponder (rfid s)) s in
    DisplayUpdate UPD_TRANSPONDER s
  else s.

Definition RFID_PowerFailHandler (s : State) : State :=
  let s := if_LIGHT_BARRIER (fun s =>
             let s := if negb (l_hdlRFID_Off (rfid s) =? NONE)
                      then sTimerCancel (l_hdlRFID_Off (rfid s)) s else s in
             if negb (l_hdlRFID_DetectTimeout (rfid s) =? NONE)
             then sTimerCancel (l_hdlRFID_DetectTimeout (rfid s)) s else s) s in
  let s := set_l_flgRFID_On false s in
  if l_flgRFID_IsOn (rfid s)
  then set_l_flgRFID_IsOn false (RFID_PowerOff s)
  else s.

(** Timer routine of the absence detection. *)
Definition TransponderAbsent (hdl : Z) (s : State) : State :=
  let s := ifdef_LOGGING (Log (Msg_TransponderAbsent (g_Transponder (rfid s)))) s in
  (* clear Transponder Number *)
  let s := set_g_Transponder EmptyString s in
  if RFID_DISPLAY_UPDATE_WHEN_ABSENT bc
  then DisplayUpdate UPD_TRANSPONDER s else s.

(** Timer routines that exist for light barriers only. *)
Definition SwitchRFID_Off (hdl : Z) (s : State) : State :=
  set_g_flgIRQ true (set_l_flgRFID_On false s).

Definition raise_NewID (s : State) : State :=
  set_l_flgNewID true (push_event (EvNewID (g_Transponder (rfid s))) s).

Definition RFID_DetectTimeout (hdl : Z) (s : State) : State :=
  if l_flgObjectPresent (rfid s)
  then raise_NewID (set_g_Transponder "UNKNOWN" s)
  else s.

(** ** RFID.c: RFID_Decode() *)

(** Prefix of a Short Range frame, [v[5]]. *)
Definition v_prefix : list Z := [0x0E; 0x00; 0x11; 0x00; 0x05].

(** [xorsum ^= byte; l_State++;] *)
Definition SR_accumulate (byte : Z) (s : State) : State :=
  let s := set_xorsum (wrap8 (Z.lxor (xorsum (rfid s)) byte)) s in
  set_l_State (wrap8 (l_State (rfid s) + 1)) s.

(** The state machine of the Short Range reader; the flag tells whether an
    ID has been received. *)
Definition decode_SR (byte : Z) (s : State) : State * bool :=
  let st := l_State (rfid s) in
  if (0 <=? st) && (st <=? 4) then
    let s := if st =? 0 then set_xorsum 0 s else s in
    (* Verify prefix *)
    if negb (byte =? nth_Z 0 v_prefix st)
    then (set_l_State 0 s, false)
    else (SR_accumulate byte s, false)
  else if (5 <=? st) && (st <=? 12) then
    (SR_accumulate byte s, false)
  else if st =? 13 then
    let w13 := nth_Z 0 (w (rfid s)) 13 in
    if negb (w13 =? xorsum (rfid s)) then
      let s := LogError (Msg_RecvXOR w13 (xorsum (rfid s))
                                      (hex_dump 14 (w (rfid s)))) s in
      (set_l_State 0 s, false)
    else (s, true)
  else (set_l_State 0 s, false).

(** One byte of the CRC-CCITT (KERMIT) calculation on the 16-bit [crc]. *)
Definition crc_update (crc byte : Z) : Z :=
  let val := crc in
  let val := wrap16 (Z.lxor (Z.shiftr val 4)
                            (Z.land (Z.lxor val (Z.shiftr byte 0)) 0x0F * 4225)) in
  let val := wrap16 (Z.lxor (Z.shiftr val 4)
                            (Z.land (Z.lxor val (Z.shiftr byte 4)) 0x0F * 4225)) in
  val.

Definition LR_crc (byte : Z) (s : State) : State :=
  set_crc (crc_update (crc (rfid s)) byte) s.

Definition LR_next (s : State) : State :=
  set_l_State (wrap8 (l_State (rfid s) + 1)) s.

(** The state machine of the Long Range reader. *)
Definition decode_LR (byte : Z) (s : State) : State * bool :=
  let st := l_State (rfid s) in
  if st =? 0 then
    (* expect prefix 0x54 ('T') *)
    if negb (byte =? 0x54)
    then (set_l_State 0 s, false)
    else (LR_next (LR_crc byte (set_crc 0 s)), false)
  else if st =? 1 then
    (LR_next (LR_crc byte (set_crc 0 s)), false)
  else if (2 <=? st) && (st <=? 8) then
    (LR_next (LR_crc byte s), false)
  else if st =? 9 then
    (LR_next s, false)
  else if st =? 10 then
    (* received complete frame *)
    let val := wrap16 (Z.lor (Z.shiftl (nth_Z 0 (w (rfid s)) 10) 8)
                             (nth_Z 0 (w (rfid s)) 9)) in
    if negb (val =? crc (rfid s)) then
      let s := LogError (Msg_RecvCRC val (crc (rfid s))
                                      (hex_dump 11 (w (rfid s)))) s in
      (set_l_State 0 s, false)
    else (s, true)
  else (set_l_State 0 s, false).

(** [(re-)start timer for RFID timeout detection], light barriers only. *)
Definition restart_DetectTimeout (s : State) : State :=
  if l_flgObjectPresent (rfid s)
     && negb (l_hdlRFID_DetectTimeout (rfid s) =? NONE)
  then sTimerStart (l_hdlRFID_DetectTimeout (rfid s))
                   (g_RFID_DetectTimeout (rfid s)) s
  else s.

(** The generic part at the end of the routine, run when [flgRecvdID] is
    set. *)
Definition ID_received (s : State) : State :=
  let s := set_l_State 0 s in           (* restart state machine *)
  let newTransponder := hex_id (w (rfid s)) in
  let s := if_LIGHT_BARRIER restart_DetectTimeout s in
  (* see if a new run - or Transponder Number has changed *)
  let s :=
    if l_flgNewRun (rfid s)
       || negb (String.eqb newTransponder (g_Transponder (rfid s)))
    then
      let s := set_l_flgNewRun false s in
      let s := set_g_Transponder newTransponder s in
      raise_NewID s
    else s in
  (* ALWAYS (re-)trigger timer if an ID has been received *)
  if 0 <? g_RFID_AbsentDetectTimeout (rfid s)
  then sTimerStart (l_hdlRFID_AbsentDetect (rfid s))
                   (g_RFID_AbsentDetectTimeout (rfid s)) s
  else s.

(** [g_FERR_Cnt++] and [g_PERR_Cnt++] on the error flags of the received
    word. *)
Definition count_errors (byte : Z) (s : State) : State :=
  let s := if negb (Z.land byte USART_RXDATAX_FERR =? 0)
           then set_g_FERR_Cnt (wrap16 (g_FERR_Cnt (rfid s) + 1)) s else s in
  if negb (Z.land byte USART_RXDATAX_PERR =? 0)
  then set_g_PERR_Cnt (wrap16 (g_PERR_Cnt (rfid s) + 1)) s else s.

(** [w[l_State] = (uint8_t)byte]: a store outside the 14 bytes of [w] is
    undefined. *)
Definition store_w (byte : Z) (s : State) : Outcome State :=
  let st := l_State (rfid s) in
  if (0 <=? st) && (st <? Z.of_nat (length (w (rfid s))))
  then Ok (set_w (upd_Z (w (rfid s)) st byte) s)
  else Undefined IndexOutOfBounds.

Definition RFID_Decode (byte : Z) (s : State) : Outcome State :=
  (* count communication errors for debugging purposes *)
  let s := count_errors byte s in
  (* store current byte into receive buffer *)
  let byte := Z.land byte 0xFF in
  let* s := store_w byte s in
  (* handle data according to the respective RFID reader type *)
  let '(s, flgRecvdID) :=
    let type := RFID_Type (l_pRFID_Cfg (rfid s)) in
    if type =? RFID_TYPE_SR then decode_SR byte s
    else if type =? RFID_TYPE_LR then decode_LR byte s
    else (set_l_State 0 s, false) in
  (* see if a transponder ID has been received *)
  Ok (if flgRecvdID : bool then ID_received s else s).

(** The UART interrupt handler calls RFID_Decode() for each received word,
    in the order of arrival. *)
Fixpoint RFID_Decode_stream (bytes : list Z) (s : State) : Outcome State :=
  match bytes with
  | [] => Ok s
  | b :: rest => let* s' := RFID_Decode b s in RFID_Decode_stream rest s'
  end.

(** ** Control.c: alarm and interval routines *)

(** Modelled from the spec: the ids of the power alarms in the absent
    [ALARM_ID] enum: five ON times each for UA1, UA2 and BATT, followed by
    five OFF times each, in the order of [l_CfgVarList]. *)
Definition ALARM_UA1_ON_TIME_1 : Z := FIRST_POWER_ALARM bc.
Definition ALARM_UA2_ON_TIME_1 : Z := FIRST_POWER_ALARM bc + 5.
Definition ALARM_BATT_ON_TIME_1 : Z := FIRST_POWER_ALARM bc + 10.
Definition ALARM_UA1_OFF_TIME_1 : Z := FIRST_POWER_ALARM bc + 15.
Definition ALARM_UA2_OFF_TIME_1 : Z := FIRST_POWER_ALARM bc + 20.
Definition ALARM_BATT_OFF_TIME_1 : Z := FIRST_POWER_ALARM bc + 25.
Definition LAST_POWER_ALARM : Z := FIRST_POWER_ALARM bc + 29.

(** [pwrState] of AlarmPowerControl(). *)
Definition alarm_pwrState (alarmNum : Z) : bool :=
  if alarmNum >=? ALARM_UA1_OFF_TIME_1 then PWR_OFF else PWR_ON.

(** [pwrOut] of AlarmPowerControl(). *)
Definition alarm_pwrOut (alarmNum : Z) : Z :=
  if alarmNum >=? ALARM_BATT_OFF_TIME_1 then PWR_OUT_BATT
  else if alarmNum >=? ALARM_UA2_OFF_TIME_1 then PWR_OUT_UA2
  else if alarmNum >=? ALARM_UA1_OFF_TIME_1 then PWR_OUT_UA1
  else if alarmNum >=? ALARM_BATT_ON_TIME_1 then PWR_OUT_BATT
  else if alarmNum >=? ALARM_UA2_ON_TIME_1 then PWR_OUT_UA2
  else PWR_OUT_UA1.

(** The tail shared by AlarmPowerControl() and IntervalPowerControl(). *)
Definition switch_output (pwrOut : Z) (pwrState : bool) (s : State) : State :=
  let s :=
    (* See if this Power Output is used by the RFID reader *)
    if pwrOut =? g_RFID_Power (rfid s) then
      if Bool.eqb pwrState PWR_ON then RFID_Enable s else RFID_Disable s
    else
      (* Standard Power Output - call PowerOutput() directly *)
      PowerOutput pwrOut pwrState s in
  set_g_flgIRQ true s.


Definition IntervalPowerControl (hdl : Z) (s : State) : State :=
  let hdls := l_hdlPwrInterval (ctrl s) in
  (* Determine Power Output *)
  let pwrOut :=
    if hdl =? nth_Z NONE hdls PWR_OUT_UA1 then Some PWR_OUT_UA1
    else if hdl =? nth_Z NONE hdls PWR_OUT_UA2 then Some PWR_OUT_UA2
    else if hdl =? nth_Z NONE hdls PWR_OUT_BATT then Some PWR_OUT_BATT
    else None in
  match pwrOut with
  | None => LogError (Msg_IntervalInvalidHandle hdl) s   (* abort *)
  | Some pwrOut =>
      let interval := nth_Z 0 (g_PwrInterval (ctrl s)) pwrOut in
      let duration := nth_Z 0 (g_On_Duration (ctrl s)) pwrOut in
      (* Check if Power Cycling is active for this Output *)
      if interval <? MIN_VAL_INTERVAL then s
      else
        (* Determine switching state and change phase *)
        if IsPowerOutputOn pwrOut s then
          (* Power is currently ON - switch it OFF for a while *)
          let s := sTimerStart (nth_Z NONE hdls pwrOut) (interval - duration) s in
          switch_output pwrOut PWR_OFF s
        else
          (* Power is currently OFF - switch it ON for a while *)
          let s := sTimerStart (nth_Z NONE hdls pwrOut) duration s in
          switch_output pwrOut PWR_ON s
  end.

(** ** Control.c: follow-up timers of the measurement *)

Definition MeasureStop (hdl : Z) (s : State) : State :=
  let defs := l_MeasureDef (ctrl s) in
  let dflt := Build_MEASURE_DEF NONE 0 0 0 0 0 in
  (* Find the right measuring facility *)
  let m :=
    if hdlFollowUpTime (nth_Z dflt defs 0) =? hdl then Some 0
    else if hdlFollowUpTime (nth_Z dflt defs 1) =? hdl then Some 1
    else None in
  match m with
  | None => s                       (* timer handle not found - ignore *)
  | Some m =>
      let md := nth_Z dflt defs m in
      (* Remove associated channels from bit mask *)
      let s := set_l_ADC_ActiveChanMask
                 (Z.clearbit (Z.clearbit (l_ADC_ActiveChanMask (ctrl s)) (ChanU md))
                             (ChanI md)) s in
      (* Stop ADC if there are no more channels to read *)
      let s := if l_ADC_ActiveChanMask (ctrl s) =? 0
               then set_g_flgIRQ true (set_l_flgADC_On false s) else s in
      (* Disable measuring facility *)
      set_measPin (upd_Z (measPin (hw s)) m false) s
  end.

Definition MeasureStopBATT (hdl : Z) (s : State) : State :=
  let s := set_l_flgLogBATT false s in
  ifdef_LOGGING (Log Msg_BATT_MeasuringStopped) s.

(** ** Control.c: calibration *)

Definition CalibrateVoltage (output referenceValue_mV : Z) (s : State)
  : Outcome State :=
  let idx := output * 2 in
  let* adc := read_Z (l_ADC_Value (ctrl s)) idx in
  let* q := udiv32 (wrap32 (Z.shiftl adc 16)) referenceValue_mV in
  if (0 <=? output) && (output <? Z.of_nat (length (l_mV_Divider (ctrl s))))
  then Ok (set_l_mV_Divider (upd_Z (l_mV_Divider (ctrl s)) output q) s)
  else Undefined IndexOutOfBounds.

Definition CalibrateCurrent (output referenceValue_mA : Z) (s : State)
  : Outcome State :=
  let idx := output * 2 + 1 in
  let* adc := read_Z (l_ADC_Value (ctrl s)) idx in
  let* q := udiv32 (wrap32 (Z.shiftl adc 16)) referenceValue_mA in
  if (0 <=? output) && (output <? Z.of_nat (length (l_mA_Divider (ctrl s))))
  then Ok (set_l_mA_Divider (upd_Z (l_mA_Divider (ctrl s)) output q) s)
  else Undefined IndexOutOfBounds.

(** ** Control.c: calibration data in the EEPROM emulation *)

(** The ten 16-bit variables in the order they are declared by
    ControlInit(). *)
Definition ee_magic : nat := 0.
Definition ee_ua1mV_h : nat := 1.
Definition ee_ua1mV_l : nat := 2.
Definition ee_ua1mA_h : nat := 3.
Definition ee_ua1mA_l : nat := 4.
Definition ee_ua2mV_h : nat := 5.
Definition ee_ua2mV_l : nat := 6.
Definition ee_ua2mA_h : nat := 7.
Definition ee_ua2mA_l : nat := 8.
Definition ee_chksum : nat := 9.

(** Number of bytes of the block. *)
Definition EE_BLOCK_SIZE : nat := 20.

(** Modelled from the spec: EE_Read() and EE_Write() of the EEPROM emulation
    library, on the fixed-layout block of the stored image: variable [k]
    occupies the bytes [2k] (low) and [2k+1] (high). *)
Definition EE_Read (var : nat) (s : State) : Z :=
  default 0 (eeprom (hw s) !! (2 * var)%nat)
  + 256 * default 0 (eeprom (hw s) !! (2 * var + 1)%nat).

Definition EE_Write (var : nat) (data : Z) (s : State) : State :=
  set_eeprom (<[(2 * var + 1)%nat := data / 256]>
                (<[(2 * var)%nat := data mod 256]> (eeprom (hw s)))) s.

(** [(uint32_t)(data_h << 16) + (uint32_t)data_l] *)
Definition join_halves (data_h data_l : Z) : Z :=
  wrap32 (wrap32 (Z.shiftl data_h 16) + data_l).

(** The defaults set when magic or checksum are wrong. *)
Definition set_default_dividers (s : State) : State :=
  let one := Z.shiftl 1 16 in
  let s := set_l_mA_Divider (upd_Z (l_mA_Divider (ctrl s)) 1 one) s in
  let s := set_l_mV_Divider (upd_Z (l_mV_Divider (ctrl s)) 1 one) s in
  let s := set_l_mA_Divider (upd_Z (l_mA_Divider (ctrl s)) 0 one) s in
  set_l_mV_Divider (upd_Z (l_mV_Divider (ctrl s)) 0 one) s.

Definition ReadCalibrationData (s : State) : State :=
  let s := ifdef_LOGGING (Log Msg_ReadingCalibration) s in
  let data_l := EE_Read ee_magic s in
  let fallback s :=
    set_default_dividers (ifdef_LOGGING (Log Msg_CalibrationDefaults) s) in
  if data_l =? MAGIC_ID then
    (* Verify if whole block is valid *)
    let sum := data_l in
    let data_h := EE_Read ee_ua1mV_h s in
    let sum := wrap16 (sum + data_h) in
    let data_l := EE_Read ee_ua1mV_l s in
    let sum := wrap16 (sum + data_l) in
    let s := set_l_mV_Divider
               (upd_Z (l_mV_Divider (ctrl s)) 0 (join_halves data_h data_l)) s in
    let data_h := EE_Read ee_ua1mA_h s in
    let sum := wrap16 (sum + data_h) in
    let data_l := EE_Read ee_ua1mA_l s in
    let sum := wrap16 (sum + data_l) in
    let s := set_l_mA_Divider
               (upd_Z (l_mA_Divider (ctrl s)) 0 (join_halves data_h data_l)) s in
    let data_h := EE_Read ee_ua2mV_h s in
    let sum := wrap16 (sum + data_h) in
    let data_l := EE_Read ee_ua2mV_l s in
    let sum := wrap16 (sum + data_l) in
    let s := set_l_mV_Divider
               (upd_Z (l_mV_Divider (ctrl s)) 1 (join_halves data_h data_l)) s in
    let data_h := EE_Read ee_ua2mA_h s in
    let sum := wrap16 (sum + data_h) in
    let data_l := EE_Read ee_ua2mA_l s in
    let sum := wrap16 (sum + data_l) in
    let s := set_l_mA_Divider
               (upd_Z (l_mA_Divider (ctrl s)) 1 (join_halves data_h data_l)) s in
    let data_h := EE_Read ee_chksum s in
    (* data_l = MAGIC_ID *)
    if negb (sum =? data_h) then fallback s else s
  else
    fallback s.

Definition WriteCalibrationData (s : State) : State :=
  let mV0 := nth_Z 0 (l_mV_Divider (ctrl s)) 0 in
  let mA0 := nth_Z 0 (l_mA_Divider (ctrl s)) 0 in
  let mV1 := nth_Z 0 (l_mV_Divider (ctrl s)) 1 in
  let mA1 := nth_Z 0 (l_mA_Divider (ctrl s)) 1 in
  (* store adjustments into non-volatile memory *)
  let data := MAGIC_ID in
  let sum := data in
  let s := EE_Write ee_magic data s in
  let data := Z.land (Z.shiftr mV0 16) 0xFFFF in
  let sum := wrap16 (sum + data) in
  let s := EE_Write ee_ua1mV_h data s in
  let data := Z.land mV0 0xFFFF in
  let sum := wrap16 (sum + data) in
  let s := EE_Write ee_ua1mV_l data s in
  let data := Z.land (Z.shiftr mA0 16) 0xFFFF in
  let sum := wrap16 (sum + data) in
  let s := EE_Write ee_ua1mA_h data s in
  let data := Z.land mA0 0xFFFF in
  let sum := wrap16 (sum + data) in
  let s := EE_Write ee_ua1mA_l data s in
  let data := Z.land (Z.shiftr mV1 16) 0xFFFF in
  let sum := wrap16 (sum + data) in
  let s := EE_Write ee_ua2mV_h data s in
  let data := Z.land mV1 0xFFFF in
  let sum := wrap16 (sum + data) in
  let s := EE_Write ee_ua2mV_l data s in
  let data := Z.land (Z.shiftr mA1 16) 0xFFFF in
  let sum := wrap16 (sum + data) in
  let s := EE_Write ee_ua2mA_h data s in
  let data := Z.land mA1 0xFFFF in
  let sum := wrap16 (sum + data) in
  let s := EE_Write ee_ua2mA_l data s in
  let s := EE_Write ee_chksum sum s in
  ifdef_LOGGING (Log Msg_CalibrationSaved) s.

(** ** DisplayMenu.c and DM_PowerOutput.c: the calibration menu *)

Definition DisplayTimerCancel (s : State) : State :=
  if negb (l_hdlLCD_Off (hw s) =? NONE)
  then sTimerCancel (l_hdlLCD_Off (hw s)) s else s.

Definition MenuCalibrateOutput (keycode : KEYCODE) (arg : Z) (s : State)
  : Outcome (KEYCODE * State) :=
  let idx := arg - PWR_OUT_UA1 in
  let s := set_l_PwrOut arg s in       (* save power channel *)
  (* Cancel Timer to keep Display switched on *)
  let s := DisplayTimerCancel s in
  match keycode with
  | KEYCODE_MENU_ENTER =>              (* Switch Power Output ON *)
      Ok (keycode, PowerOutput (l_PwrOut (menu s)) PWR_ON s)
  | KEYCODE_MENU_EXIT =>               (* Switch Power Output OFF *)
      Ok (keycode, PowerOutput (l_PwrOut (menu s)) PWR_OFF s)
  | KEYCODE_SET_RELEASE =>             (* Trigger Calibration *)
      let* ref_mV := read_Z (g_UA_Calib_mV (menu s)) idx in
      if ref_mV =? 0 then Ok (keycode, s)   (* CALIBRATION IS NOT POSSIBLE *)
      else
        (* Calibrate voltage and current measurement for this output *)
        let* s := CalibrateVoltage (l_PwrOut (menu s)) ref_mV s in
        let* ref_mA := read_Z (g_UA_Calib_mA (menu s)) idx in
        let* s := CalibrateCurrent (l_PwrOut (menu s)) ref_mA s in
        let s := set_l_flgCalibration
                   (wrap8 (Z.lor (l_flgCalibration (menu s)) (Z.shiftl 1 idx))) s in
        Ok (KEYCODE_NONE, s)
  | _ => Ok (keycode, s)               (* Forward all other keys *)
  end.

(** ** The tick of the software timers *)

Definition sTimerCallback (f : Callback) (hdl : Z) (s : State) : State :=
  match f with
  | cb_IntervalPowerControl => IntervalPowerControl hdl s
  | cb_MeasureStop => MeasureStop hdl s
  | cb_MeasureStopBATT => MeasureStopBATT hdl s
  | cb_TransponderAbsent => TransponderAbsent hdl s
  | cb_SwitchRFID_Off => SwitchRFID_Off hdl s
  | cb_RFID_DetectTimeout => RFID_DetectTimeout hdl s
  | cb_Foreign => s
  end.

(** Modelled from the spec: the tick that the RTC interrupt of the absent
    AlarmClock.c invokes once per second.  Every armed countdown is
    decremented; a countdown that reaches zero is disarmed and its callback
    invoked synchronously, in the order of the slots of the pool. *)
Definition tick_slot (i : nat) (s : State) : State :=
  match timers (hw s) !! i with
  | Some t =>
      if 0 <? tmCount t then
        let s := set_timers (<[i := arm (tmCount t - 1) t]> (timers (hw s))) s in
        if tmCount t - 1 =? 0
        then sTimerCallback (tmFct t) (Z.of_nat i) s
        else s
      else s
  | None => s
  end.

Definition sTimerTick (s : State) : State :=
  foldl (fun s i => tick_slot i s) s (seq 0 (length (timers (hw s)))).

(** One second of operation: the RTC tick, followed by the pass of the
    service loop of main.c that looks after the RFID reader. *)
Definition second (s : State) : State := RFID_Check (sTimerTick s).

End Firmware.

(** ** Sample configurations and states *)

(** A build for alarm-time operation of the reader, with logging. *)
Definition build_alarm : Build :=
  {| LOGGING := true;
     RFID_TRIGGERED_BY_LIGHT_BARRIER := false;
     RFID_DISPLAY_UPDATE_WHEN_ABSENT := false;
     EM1_MOD_RFID := 0;
     FIRST_POWER_ALARM := 3 |}.

(** The header defaults: light barriers, no logging. *)
Definition build_default : Build :=
  {| LOGGING := false;
     RFID_TRIGGERED_BY_LIGHT_BARRIER := true;
     RFID_DISPLAY_UPDATE_WHEN_ABSENT := false;
     EM1_MOD_RFID := 0;
     FIRST_POWER_ALARM := 0 |}.

(** The timer pool after ControlInit(), MenuInit() and RFID_Init(): follow-up
    timers of UA1, UA2 and BATT, the three interval timers, the two timers
    of the display and the absence timer. *)
Definition pool_idle : list sTimer :=
  [ {| tmFct := cb_MeasureStop; tmCount := 0 |};
    {| tmFct := cb_MeasureStop; tmCount := 0 |};
    {| tmFct := cb_MeasureStopBATT; tmCount := 0 |};
    {| tmFct := cb_IntervalPowerControl; tmCount := 0 |};
    {| tmFct := cb_IntervalPowerControl; tmCount := 0 |};
    {| tmFct := cb_IntervalPowerControl; tmCount := 0 |};
    {| tmFct := cb_Foreign; tmCount := 0 |};
    {| tmFct := cb_Foreign; tmCount := 0 |};
    {| tmFct := cb_TransponderAbsent; tmCount := 0 |} ].

Definition hw_idle : HwState :=
  {| powerFail := false;
     timers := pool_idle;
     trace := [];
     pwrPin := [false; false; false];
     measPin := [false; false];
     usartClock := false;
     usartRxPin := false;
     g_EM1_ModuleMask := 0;
     g_flgIRQ := false;
     eeprom := repeat 0 EE_BLOCK_SIZE;
     l_hdlLCD_Off := 6 |}.

(** Short Range reader on UA2, absence detection after 5 s. *)
Definition rfid_idle : RfidVars :=
  {| g_RFID_Type := RFID_TYPE_SR;
     g_RFID_Power := PWR_OUT_UA2;
     g_RFID_AbsentDetectTimeout := 5;
     g_RFID_PwrOffTimeout := 30;
     g_RFID_DetectTimeout := 10;
     g_FERR_Cnt := 0;
     g_PERR_Cnt := 0;
     g_Transponder := "";
     l_flgRFID_Activate := true;
     l_pRFID_Cfg := {| RFID_Type := RFID_TYPE_SR; RFID_PwrOut := PWR_OUT_UA2 |};
     l_flgRFID_On := false;
     l_flgRFID_IsOn := false;
     l_hdlRFID_AbsentDetect := 8;
     l_hdlRFID_Off := NONE;
     l_flgObjectPresent := false;
     l_hdlRFID_DetectTimeout := NONE;
     l_flgNewRun := false;
     l_flgNewID := false;
     l_State := 0;
     xorsum := 0;
     w := repeat 0 14%nat;
     crc := 0 |}.

(** UA1 cycles 20 s on, 40 s off; the other outputs do not cycle. *)
Definition ctrl_idle : CtrlVars :=
  {| g_PwrInterval := [60; 0; 0];
     g_On_Duration := [20; 0; 0];
     l_hdlPwrInterval := [3; 4; 5];
     l_MeasureDef :=
       [ {| hdlFollowUpTime := 0; FollowUpTime := 60; ChanU := 6;
            U_MinDiff := 100; ChanI := 0; I_MinDiff := 10 |};
         {| hdlFollowUpTime := 1; FollowUpTime := 60; ChanU := 7;
            U_MinDiff := 100; ChanI := 3; I_MinDiff := 10 |} ];
     l_ScanDuration := 1000;
     l_ADC_ActiveChanMask := 0;
     l_ADC_Value := [31000; 1200; 0; 0];
     l_prev_value_mV := [0; 0];
     l_prev_value_mA := [0; 0];
     l_prev_BATT_mV := 0;
     l_prev_BATT_mA := 0;
     l_BATT_FollowUpTime := 60;
     l_hdlFollowUpTimeBATT := 2;
     l_flgLogBATT := false;
     l_BATT_MeasureInterval := 0;
     l_flgADC_On := false;
     l_mV_Divider := [65536; 65536];
     l_mA_Divider := [65536; 65536] |}.

Definition menu_idle : MenuVars :=
  {| g_UA_Calib_mV := [0; 0];
     g_UA_Calib_mA := [0; 0];
     l_PwrOut := 0;
     l_flgCalibration := 0 |}.

Definition s_idle : State :=
  {| hw := hw_idle; rfid := rfid_idle; ctrl := ctrl_idle; menu := menu_idle |}.

(** A well-formed Short Range frame: prefix, payload 01 23 45 67 89 AB CD EF,
    checksum. *)
Definition frame_SR : list Z :=
  [0x0E; 0x00; 0x11; 0x00; 0x05; 0x01; 0x23; 0x45; 0x67; 0x89; 0xAB; 0xCD; 0xEF; 0x1A].

(** The power-fail comparator trips, or releases. *)
Definition with_powerFail (pf : bool) (s : State) : State :=
  {| hw := {| powerFail := pf;
              timers := timers (hw s);
              trace := trace (hw s);
              pwrPin := pwrPin (hw s);
              measPin := measPin (hw s);
              usartClock := usartClock (hw s);
              usartRxPin := usartRxPin (hw s);
              g_EM1_ModuleMask := g_EM1_ModuleMask (hw s);
              g_flgIRQ := g_flgIRQ (hw s);
              eeprom := eeprom (hw s);
              l_hdlLCD_Off := l_hdlLCD_Off (hw s) |};
     rfid := rfid s; ctrl := ctrl s; menu := menu s |}.

(** Power fail while UA1 is on. *)
Definition s_power_fail : State :=
  with_powerFail true (PowerOutput build_alarm PWR_OUT_UA1 PWR_ON s_idle).

(** The reference values CALIBRATE_mV and CALIBRATE_mA of the configuration
    file. *)
Definition with_references (mV mA : list Z) (s : State) : State :=
  {| hw := hw s; rfid := rfid s; ctrl := ctrl s;
     menu := {| g_UA_Calib_mV := mV;
                g_UA_Calib_mA := mA;
                l_PwrOut := l_PwrOut (menu s);
                l_flgCalibration := l_flgCalibration (menu s) |} |}.

(** UA1 with a voltage reference of 5 V and no current reference. *)
Definition s_no_current_reference : State :=
  with_references [5000; 0] [0; 0] s_idle.

(** ** Auxiliary definitions for the proofs *)

(** *** The variables of the decoder *)

(** The variables RFID_Decode() works on while it collects a frame. *)
Record Dec := {
  d_State : Z;
  d_xorsum : Z;
  d_w : list Z;
  d_crc : Z;
  d_FERR : Z;
  d_PERR : Z
}.

Definition with_dec (d : Dec) (s : State) : State :=
  set_l_State (d_State d)
    (set_xorsum (d_xorsum d)
      (set_w (d_w d)
        (set_crc (d_crc d)
          (set_g_FERR_Cnt (d_FERR d) (set_g_PERR_Cnt (d_PERR d) s))))).

Definition dec_of (s : State) : Dec :=
  {| d_State := l_State (rfid s);
     d_xorsum := xorsum (rfid s);
     d_w := w (rfid s);
     d_crc := crc (rfid s);
     d_FERR := g_FERR_Cnt (rfid s);
     d_PERR := g_PERR_Cnt (rfid s) |}.

Definition ferr_after (r f : Z) : Z :=
  if negb (Z.land r USART_RXDATAX_FERR =? 0) then wrap16 (f + 1) else f.
Definition perr_after (r p : Z) : Z :=
  if negb (Z.land r USART_RXDATAX_PERR =? 0) then wrap16 (p + 1) else p.

(** The decoder variables after a word that lets a Short Range frame
    advance. *)
Definition dec_SR_step (r : Z) (d : Dec) : Dec :=
  {| d_State := d_State d + 1;
     d_xorsum := wrap8 (Z.lxor (if d_State d =? 0 then 0 else d_xorsum d)
                               (Z.land r 0xFF));
     d_w := upd_Z (d_w d) (d_State d) (Z.land r 0xFF);
     d_crc := d_crc d;
     d_FERR := ferr_after r (d_FERR d);
     d_PERR := perr_after r (d_PERR d) |}.

(** The same for a Long Range frame. *)
Definition dec_LR_step (r : Z) (d : Dec) : Dec :=
  {| d_State := d_State d + 1;
     d_xorsum := d_xorsum d;
     d_w := upd_Z (d_w d) (d_State d) (Z.land r 0xFF);
     d_crc := if d_State d <=? 1 then crc_update 0 (Z.land r 0xFF)
              else if d_State d <=? 8 then crc_update (d_crc d) (Z.land r 0xFF)
              else d_crc d;
     d_FERR := ferr_after r (d_FERR d);
     d_PERR := perr_after r (d_PERR d) |}.

(** The run of a decoder step over the bytes received. *)
Definition dec_run (step : Z -> Dec -> Dec) (rs : list Z) (d : Dec) : Dec :=
  foldl (fun d r => step r d) d rs.

Definition dec_SR_run (rs : list Z) (d : Dec) : Dec :=
  foldl (fun d r => dec_SR_step r d) d rs.

Definition dec_LR_run (rs : list Z) (d : Dec) : Dec :=
  foldl (fun d r => dec_LR_step r d) d rs.

(** The decoder variables when the last word of a frame has been stored. *)
Definition dec_last (r : Z) (d : Dec) : Dec :=
  {| d_State := d_State d;
     d_xorsum := d_xorsum d;
     d_w := upd_Z (d_w d) (d_State d) (Z.land r 0xFF);
     d_crc := d_crc d;
     d_FERR := ferr_after r (d_FERR d);
     d_PERR := perr_after r (d_PERR d) |}.

(** The CRC word of a Long Range frame as RFID_Decode() reads it from the
    buffer. *)
Definition LR_recv_crc (wv : list Z) : Z :=
  wrap16 (Z.lor (Z.shiftl (nth_Z 0 wv 10) 8) (nth_Z 0 wv 9)).

(** *** Frames *)

(** The data bits of the received words. *)
Definition data_bits (raw : list Z) : list Z := map (fun r => Z.land r 0xFF) raw.

(** A well-formed Short Range frame: the five prefix bytes, eight payload
    bytes and the XOR of the bytes 0 to 12 in byte 13. *)
Definition well_formed_SR (frame : list Z) : Prop :=
  length frame = 14%nat /\
  take 5 frame = v_prefix /\
  frame !! 13%nat = Some (foldl Z.lxor 0 (take 13 frame)).

(** A well-formed Long Range frame: 'T', eight payload bytes and the CRC of
    the payload, low byte first. *)
Definition well_formed_LR (frame : list Z) : Prop :=
  length frame = 11%nat /\
  frame !! 0%nat = Some 0x54 /\
  LR_recv_crc frame = foldl crc_update 0 (take 8 (drop 1 frame)).

(** A frame the configured reader type accepts. *)
Definition valid_frame (type : Z) (frame : list Z) : Prop :=
  (type = RFID_TYPE_SR /\ well_formed_SR frame) \/
  (type = RFID_TYPE_LR /\ well_formed_LR frame).

(** Two hexadecimal digits per byte, upper case. *)
Definition hex_string (bytes : list Z) : string :=
  string_of_list_ascii (flat_map (fun b => [hex_hi b; hex_lo b]) bytes).

(** The bytes 8 down to 1 of a frame. *)
Definition id_bytes (frame : list Z) : list Z :=
  map (fun i => nth_Z 0 frame i) [8; 7; 6; 5; 4; 3; 2; 1].

(** Value of an upper-case hexadecimal digit. *)
Definition hex_value (c : ascii) : option Z :=
  let n := Z.of_nat (nat_of_ascii c) in
  if (48 <=? n) && (n <=? 57) then Some (n - 48)
  else if (65 <=? n) && (n <=? 70) then Some (n - 55)
  else None.

(** Reads a string of upper-case hexadecimal digit pairs back into bytes. *)
Fixpoint parse_hex (str : string) : option (list Z) :=
  match str with
  | EmptyString => Some []
  | String hi (String lo rest) =>
      match hex_value hi, hex_value lo, parse_hex rest with
      | Some h, Some l, Some bs => Some (16 * h + l :: bs)
      | _, _, _ => None
      end
  | String _ EmptyString => None
  end.

(** The countdown of a timer, if the handle is in the pool. *)
Definition countdown (hdl : Z) (s : State) : option Z :=
  if hdl <? 0 then None else tmCount <$> timers (hw s) !! Z.to_nat hdl.

(** The ID is new for RFID_Decode(): a new run is marked or the stored ID
    differs. *)
Definition is_fresh (id : string) (s : State) : bool :=
  l_flgNewRun (rfid s) || negb (String.eqb id (g_Transponder (rfid s))).

(** Most recent event. *)
Definition last_event (s : State) : option Event := head (trace (hw s)).

(** The position of the decoder after a byte, as a function of the reader
    type, the position before and the byte. *)
Definition next_l_State (type k b : Z) : Z :=
  if type =? RFID_TYPE_SR then
    if (0 <=? k) && (k <=? 4) then
      if b =? nth_Z 0 v_prefix k then k + 1 else 0
    else if (5 <=? k) && (k <=? 12) then k + 1
    else 0
  else if type =? RFID_TYPE_LR then
    if k =? 0 then (if b =? 0x54 then 1 else 0)
    else if (1 <=? k) && (k <=? 9) then k + 1
    else 0
  else 0.

(** The events that must restart the state machine: a byte that violates
    the prefix, the last byte of a frame (complete or with a wrong checksum
    or CRC), an unknown reader type. *)
Definition restarts (type k b : Z) : Prop :=
  (type = RFID_TYPE_SR /\
   ((0 <= k <= 4 /\ b <> nth_Z 0 v_prefix k) \/ k = 13)) \/
  (type = RFID_TYPE_LR /\ ((k = 0 /\ b <> 0x54) \/ k = 10)) \/
  (type <> RFID_TYPE_SR /\ type <> RFID_TYPE_LR).

(** A state in which a new scanning run has been marked by RFID_Enable(). *)
Definition s_newrun : State := set_l_flgNewRun true s_idle.

(** *** Alarm times of the configuration *)

(** Control.c: the first thirty entries of [l_CfgVarList], the alarm times;
    CfgData.c maps the entry with index [varIdx] to the alarm
    [ALARM_UA1_ON_TIME_1 + varIdx]. *)
Definition l_CfgVarList_times : list string :=
  [ "UA1_ON_TIME_1"; "UA1_ON_TIME_2"; "UA1_ON_TIME_3"; "UA1_ON_TIME_4";
    "UA1_ON_TIME_5";
    "UA2_ON_TIME_1"; "UA2_ON_TIME_2"; "UA2_ON_TIME_3"; "UA2_ON_TIME_4";
    "UA2_ON_TIME_5";
    "BATT_ON_TIME_1"; "BATT_ON_TIME_2"; "BATT_ON_TIME_3"; "BATT_ON_TIME_4";
    "BATT_ON_TIME_5";
    "UA1_OFF_TIME_1"; "UA1_OFF_TIME_2"; "UA1_OFF_TIME_3"; "UA1_OFF_TIME_4";
    "UA1_OFF_TIME_5";
    "UA2_OFF_TIME_1"; "UA2_OFF_TIME_2"; "UA2_OFF_TIME_3"; "UA2_OFF_TIME_4";
    "UA2_OFF_TIME_5";
    "BATT_OFF_TIME_1"; "BATT_OFF_TIME_2"; "BATT_OFF_TIME_3"; "BATT_OFF_TIME_4";
    "BATT_OFF_TIME_5" ]%string.

(** The power output and the direction that the name of an alarm time
    stands for. *)
Definition time_var_target (name : string) : option (Z * bool) :=
  if String.prefix "UA1_ON_TIME_" name then Some (PWR_OUT_UA1, PWR_ON)
  else if String.prefix "UA2_ON_TIME_" name then Some (PWR_OUT_UA2, PWR_ON)
  else if String.prefix "BATT_ON_TIME_" name then Some (PWR_OUT_BATT, PWR_ON)
  else if String.prefix "UA1_OFF_TIME_" name then Some (PWR_OUT_UA1, PWR_OFF)
  else if String.prefix "UA2_OFF_TIME_" name then Some (PWR_OUT_UA2, PWR_OFF)
  else if String.prefix "BATT_OFF_TIME_" name then Some (PWR_OUT_BATT, PWR_OFF)
  else None.

(** *** Verification of the configuration *)

(** Number of configuration warnings logged for power output [i]. *)
Definition cfg_warnings (i : Z) (s : State) : nat :=
  count_events (is_CfgWarning i) (trace (hw s)).

(** The cycling configuration VerifyConfiguration() leaves alone. *)
Definition cycling_accepted (interval duration : Z) : Prop :=
  interval <= 0 \/
  (MIN_VAL_INTERVAL <= interval /\ MIN_VAL_ON_DURATION <= duration /\
   MIN_VAL_OFF_DURATION <= interval - duration).

Definition with_cycling (intervals durations : list Z) (s : State) : State :=
  set_g_On_Duration durations (set_g_PwrInterval intervals s).

(** UA1 configured with an interval below the minimum. *)
Definition s_short_interval : State := with_cycling [7; 0; 0] [5; 0; 0] s_idle.

(** UA1 carrying the marks of a rejected configuration. *)
Definition s_invalidated : State := with_cycling [-1; 0; 0] [-1; 0; 0] s_idle.

(** *** Power cycling of one output *)









(** [n] seconds of operation. *)
Definition seconds (bc : Build) (n : nat) (s : State) : State :=
  Nat.iter n (second bc) s.



(** *** The RFID reader, up or down *)

(** The reader is marked as powered, the USART is clocked and its Rx pin
    enabled, and the power output of the reader is on. *)
Definition reader_up (s : State) : bool :=
  l_flgRFID_IsOn (rfid s) && usartClock (hw s) && usartRxPin (hw s) &&
  IsPowerOutputOn (RFID_PwrOut (l_pRFID_Cfg (rfid s))) s.

(** All of that is off. *)
Definition reader_down (s : State) : bool :=
  negb (l_flgRFID_IsOn (rfid s)) && negb (usartClock (hw s)) &&
  negb (usartRxPin (hw s)) &&
  negb (IsPowerOutputOn (RFID_PwrOut (l_pRFID_Cfg (rfid s))) s).

(** What decides about the reader, apart from the configuration. *)
Definition reader_part (s : State) :=
  (l_flgRFID_IsOn (rfid s), usartClock (hw s), usartRxPin (hw s),
   pwrPin (hw s), g_Transponder (rfid s), g_RFID_AbsentDetectTimeout (rfid s),
   l_pRFID_Cfg (rfid s)).

(** The reader of [s_idle] enabled and powered by the service loop. *)
Definition s_reader_on : State :=
  RFID_Check build_alarm (RFID_Enable build_alarm s_idle).

(** The same after it has read the transponder of [frame_SR]. *)
Definition s_transponder : State :=
  match RFID_Decode_stream build_alarm frame_SR s_reader_on with
  | Ok s => RFID_Check build_alarm s
  | Undefined _ => s_reader_on
  end.

(** *** The calibration block *)

(** The four dividers: mV and mA of UA1, mV and mA of UA2. *)
Definition dividers (s : State) : Z * Z * Z * Z :=
  (nth_Z 0 (l_mV_Divider (ctrl s)) 0, nth_Z 0 (l_mA_Divider (ctrl s)) 0,
   nth_Z 0 (l_mV_Divider (ctrl s)) 1, nth_Z 0 (l_mA_Divider (ctrl s)) 1).

Definition is_uint32 (x : Z) : bool := (0 <=? x) && (x <? 2 ^ 32).

(** The divider arrays have their two elements, of type uint32_t. *)
Definition dividers_ok (s : State) : bool :=
  (length (l_mV_Divider (ctrl s)) =? 2)%nat &&
  (length (l_mA_Divider (ctrl s)) =? 2)%nat &&
  forallb is_uint32 (l_mV_Divider (ctrl s)) &&
  forallb is_uint32 (l_mA_Divider (ctrl s)).

(** The bytes of a 16-bit variable and of a block of them. *)
Definition word_bytes (x : Z) : list Z := [x mod 256; x / 256].

Definition block_image (ws : list Z) : list Z := flat_map word_bytes ws.

(** The ten variables WriteCalibrationData() stores for the dividers. *)
Definition calibration_words (d : Z * Z * Z * Z) : list Z :=
  let '(mV0, mA0, mV1, mA1) := d in
  let w1 := Z.land (Z.shiftr mV0 16) 0xFFFF in
  let w2 := Z.land mV0 0xFFFF in
  let w3 := Z.land (Z.shiftr mA0 16) 0xFFFF in
  let w4 := Z.land mA0 0xFFFF in
  let w5 := Z.land (Z.shiftr mV1 16) 0xFFFF in
  let w6 := Z.land mV1 0xFFFF in
  let w7 := Z.land (Z.shiftr mA1 16) 0xFFFF in
  let w8 := Z.land mA1 0xFFFF in
  [MAGIC_ID; w1; w2; w3; w4; w5; w6; w7; w8;
   wrap16 (wrap16 (wrap16 (wrap16 (wrap16 (wrap16 (wrap16 (wrap16
     (MAGIC_ID + w1) + w2) + w3) + w4) + w5) + w6) + w7) + w8)].

(** What ReadCalibrationData() makes of ten variables: the dividers, if
    magic and checksum are right. *)
Definition block_dividers (ws : list Z) : option (Z * Z * Z * Z) :=
  match ws with
  | [m; w1; w2; w3; w4; w5; w6; w7; w8; chk] =>
      if (m =? MAGIC_ID) &&
         (wrap16 (wrap16 (wrap16 (wrap16 (wrap16 (wrap16 (wrap16 (wrap16
            (m + w1) + w2) + w3) + w4) + w5) + w6) + w7) + w8) =? chk)
      then Some (join_halves w1 w2, join_halves w3 w4,
                 join_halves w5 w6, join_halves w7 w8)
      else None
  | _ => None
  end.

Definition unity_dividers : Z * Z * Z * Z :=
  (Z.shiftl 1 16, Z.shiftl 1 16, Z.shiftl 1 16, Z.shiftl 1 16).

(** UA1 calibrated with the references 5 V and 100 mA. *)
Definition s_calibrated : State :=
  match MenuCalibrateOutput build_alarm KEYCODE_SET_RELEASE PWR_OUT_UA1
          (with_references [5000; 5000] [100; 100] s_idle) with
  | Ok (_, s) => s
  | Undefined _ => s_idle
  end.

(** * Further routines and properties *)

(** ** RFID.c: state of the reader *)

Definition IsRFID_Active (s : State) : bool := l_flgRFID_Activate (rfid s).

Definition IsRFID_Enabled (s : State) : bool := l_flgRFID_On (rfid s).

(** RFID_TimedDisable() exists in builds for light barriers only. *)
Definition RFID_TimedDisable (s : State) : State :=
  (* no object present, clear flag *)
  let s := set_l_flgObjectPresent false s in
  (* be sure to cancel timeout timer *)
  let s := if negb (l_hdlRFID_DetectTimeout (rfid s) =? NONE)
           then sTimerCancel (l_hdlRFID_DetectTimeout (rfid s)) s else s in
  (* (re-)start timer to switch the RFID reader OFF after time *)
  if negb (l_hdlRFID_Off (rfid s) =? NONE)
  then sTimerStart (l_hdlRFID_Off (rfid s)) (g_RFID_PwrOffTimeout (rfid s)) s
  else s.

(** ** Control.c: measured values *)

(** [(l_ADC_Value[idx] << 16) / l_mV_Divider[output]] *)
Definition PowerVoltage (output : Z) (s : State) : Outcome Z :=
  let idx := output * 2 in
  let* adc := read_Z (l_ADC_Value (ctrl s)) idx in
  let* divider := read_Z (l_mV_Divider (ctrl s)) output in
  udiv32 (wrap32 (Z.shiftl adc 16)) divider.

Definition PowerCurrent (output : Z) (s : State) : Outcome Z :=
  let idx := output * 2 + 1 in
  let* adc := read_Z (l_ADC_Value (ctrl s)) idx in
  let* divider := read_Z (l_mA_Divider (ctrl s)) output in
  udiv32 (wrap32 (Z.shiftl adc 16)) divider.

(** [(value_mV * l_mV_Divider[output]) >> 16] *)
Definition Voltage_To_ADC_Value (output value_mV : Z) (s : State) : Outcome Z :=
  let* divider := read_Z (l_mV_Divider (ctrl s)) output in
  Ok (Z.shiftr (wrap32 (value_mV * divider)) 16).

Definition Current_To_ADC_Value (output value_mA : Z) (s : State) : Outcome Z :=
  let* divider := read_Z (l_mA_Divider (ctrl s)) output in
  Ok (Z.shiftr (wrap32 (value_mA * divider)) 16).

(** ** Auxiliary definitions *)

(** What lies outside the decoder: RFID_Decode() has no business with it. *)
Definition outside_decoder (s : State) :=
  (ctrl s, menu s, pwrPin (hw s), measPin (hw s), usartClock (hw s),
   usartRxPin (hw s), g_EM1_ModuleMask (hw s), eeprom (hw s),
   powerFail (hw s), l_flgRFID_On (rfid s), l_flgRFID_IsOn (rfid s),
   l_pRFID_Cfg (rfid s), length (timers (hw s))).

(** The payload of a Short Range frame that the ID shows, and that of a
    Long Range frame. *)
Definition SR_id_payload (frame : list Z) : list Z := rev (take 4 (drop 5 frame)).

Definition LR_payload (frame : list Z) : list Z := take 8 (drop 1 frame).

(** The reader configuration built by RFID_Init() replaced. *)
Definition with_reader (cfg : RFID_CONFIG) (s : State) : State :=
  {| hw := hw s;
     rfid := {| g_RFID_Type := RFID_Type cfg;
                g_RFID_Power := RFID_PwrOut cfg;
                g_RFID_AbsentDetectTimeout := g_RFID_AbsentDetectTimeout (rfid s);
                g_RFID_PwrOffTimeout := g_RFID_PwrOffTimeout (rfid s);
                g_RFID_DetectTimeout := g_RFID_DetectTimeout (rfid s);
                g_FERR_Cnt := g_FERR_Cnt (rfid s);
                g_PERR_Cnt := g_PERR_Cnt (rfid s);
                g_Transponder := g_Transponder (rfid s);
                l_flgRFID_Activate := l_flgRFID_Activate (rfid s);
                l_pRFID_Cfg := cfg;
                l_flgRFID_On := l_flgRFID_On (rfid s);
                l_flgRFID_IsOn := l_flgRFID_IsOn (rfid s);
                l_hdlRFID_AbsentDetect := l_hdlRFID_AbsentDetect (rfid s);
                l_hdlRFID_Off := l_hdlRFID_Off (rfid s);
                l_flgObjectPresent := l_flgObjectPresent (rfid s);
                l_hdlRFID_DetectTimeout := l_hdlRFID_DetectTimeout (rfid s);
                l_flgNewRun := l_flgNewRun (rfid s);
                l_flgNewID := l_flgNewID (rfid s);
                l_State := l_State (rfid s);
                xorsum := xorsum (rfid s);
                w := w (rfid s);
                crc := crc (rfid s) |};
     ctrl := ctrl s; menu := menu s |}.

(** A Long Range reader on UA2, a new run marked. *)
Definition s_long_range : State :=
  with_reader {| RFID_Type := RFID_TYPE_LR; RFID_PwrOut := PWR_OUT_UA2 |} s_newrun.

(** A reader of no known type. *)
Definition s_no_reader : State :=
  with_reader {| RFID_Type := RFID_TYPE_NONE; RFID_PwrOut := PWR_OUT_NONE |} s_newrun.

(** A Long Range frame: 'T', a payload, its CRC with the low byte first. *)
Definition payload_LR : list Z := [0x10; 0x32; 0x54; 0x76; 0x98; 0xBA; 0xDC; 0xFE].

Definition frame_LR : list Z :=
  let c := foldl crc_update 0 payload_LR in
  0x54 :: payload_LR ++ [Z.land c 0xFF; Z.shiftr c 8].

(** The frames with a wrong last byte, and a Short Range frame with a wrong
    third prefix byte. *)
Definition frame_SR_bad_sum : list Z := take 13 frame_SR ++ [0x1B].

Definition frame_LR_bad_crc : list Z :=
  take 10 frame_LR ++ [Z.lxor (default 0 (frame_LR !! 10%nat)) 1].

(** UA1 and UA2 on, both measured. *)
Definition s_outputs_on : State :=
  PowerOutput build_alarm PWR_OUT_UA2 PWR_ON
    (PowerOutput build_alarm PWR_OUT_UA1 PWR_ON s_idle).

(** A configuration file with an ON duration longer than the interval of
    UA2, and a scan duration below the minimum. *)
Definition s_unverified : State :=
  set_l_ScanDuration 10 (with_cycling [60; 30; 0] [20; 40; 0] s_idle).

(** A build for light barriers, with the timers of the reader in the pool:
    slot 6 switches the reader off, slot 7 is the detection timeout. *)
Definition s_light_barrier : State :=
  {| hw := {| powerFail := false;
              timers := <[6%nat := {| tmFct := cb_SwitchRFID_Off; tmCount := 0 |}]>
                          (<[7%nat := {| tmFct := cb_RFID_DetectTimeout;
                                         tmCount := 10 |}]> pool_idle);
              trace := [];
              pwrPin := pwrPin (hw s_reader_on);
              measPin := measPin (hw s_reader_on);
              usartClock := usartClock (hw s_reader_on);
              usartRxPin := usartRxPin (hw s_reader_on);
              g_EM1_ModuleMask := g_EM1_ModuleMask (hw s_reader_on);
              g_flgIRQ := false;
              eeprom := eeprom (hw s_reader_on);
              l_hdlLCD_Off := NONE |};
     rfid := {| g_RFID_Type := RFID_TYPE_SR;
                g_RFID_Power := PWR_OUT_UA2;
                g_RFID_AbsentDetectTimeout := 5;
                g_RFID_PwrOffTimeout := 30;
                g_RFID_DetectTimeout := 10;
                g_FERR_Cnt := 0;
                g_PERR_Cnt := 0;
                g_Transponder := "";
                l_flgRFID_Activate := true;
                l_pRFID_Cfg := {| RFID_Type := RFID_TYPE_SR;
                                  RFID_PwrOut := PWR_OUT_UA2 |};
                l_flgRFID_On := true;
                l_flgRFID_IsOn := true;
                l_hdlRFID_AbsentDetect := 8;
                l_hdlRFID_Off := 6;
                l_flgObjectPresent := true;
                l_hdlRFID_DetectTimeout := 7;
                l_flgNewRun := true;
                l_flgNewID := false;
                l_State := 0;
                xorsum := 0;
                w := repeat 0 14%nat;
                crc := 0 |};
     ctrl := ctrl s_reader_on; menu := menu s_reader_on |}.

(** UA1 with references of 5 V and 500 mA. *)
Definition s_references : State := with_references [5000; 0] [500; 0] s_idle.

(** The sample of an output, scaled as the calibration scales it. *)
Definition scaled_sample (idx : Z) (s : State) : Z :=
  wrap32 (Z.shiftl (nth_Z 0 (l_ADC_Value (ctrl s)) idx) 16).

(** A light barrier has seen an object, no transponder has answered yet. *)
Definition s_object_present : State :=
  set_l_flgObjectPresent true s_light_barrier.

(** The voltage of UA1 calibrated with the reference 5 V. *)
Definition s_voltage_calibrated : State :=
  match CalibrateVoltage PWR_OUT_UA1 5000 s_idle with
  | Ok s => s
  | Undefined _ => s_idle
  end.

(** The eight payload bytes of a Short Range frame: those after the five
    bytes of the prefix. *)
Definition SR_payload (frame : list Z) : list Z := take 8 (drop 5 frame).

(** * Proofs *)

(** ** Bytes and bit operations *)

Lemma land_255_range (r : Z) : 0 <= Z.land r 0xFF < 256.
Proof.
  change 0xFF with (Z.ones 8). rewrite Z.land_ones by lia.
  apply Z.mod_pos_bound. lia.
Qed.

Lemma lxor_byte_range (x b : Z) :
  0 <= x < 256 -> 0 <= b < 256 -> 0 <= Z.lxor x b < 256.
Proof.
  intros Hx Hb.
  assert (H0 : 0 <= Z.lxor x b) by (apply Z.lxor_nonneg; lia).
  split; [exact H0|].
  destruct (Z.eq_dec (Z.lxor x b) 0) as [->|Hne]; [lia|].
  apply (Z.log2_lt_pow2 _ 8); [lia|].
  pose proof (Z.log2_lxor x b ltac:(lia) ltac:(lia)) as Hl.
  assert (Z.log2 x < 8).
  { destruct (Z.eq_dec x 0) as [->|]; [simpl; lia|]. apply Z.log2_lt_pow2; lia. }
  assert (Z.log2 b < 8).
  { destruct (Z.eq_dec b 0) as [->|]; [simpl; lia|]. apply Z.log2_lt_pow2; lia. }
  lia.
Qed.

Lemma wrap8_small (x : Z) : 0 <= x < 256 -> wrap8 x = x.
Proof. intros. unfold wrap8. apply Z.mod_small. lia. Qed.

Lemma wrap8_lxor (x b : Z) :
  0 <= x < 256 -> 0 <= b < 256 -> wrap8 (Z.lxor x b) = Z.lxor x b.
Proof. intros. apply wrap8_small. apply lxor_byte_range; assumption. Qed.

(** ** Arrays *)

Lemma length_upd_Z {A} (l : list A) (i : Z) (v : A) :
  length (upd_Z l i v) = length l.
Proof. unfold upd_Z. destruct (i <? 0); [reflexivity|]. apply length_insert. Qed.

Lemma nth_upd_Z_eq {A} (d : A) (l : list A) (i : Z) (v : A) :
  0 <= i < Z.of_nat (length l) -> nth_Z d (upd_Z l i v) i = v.
Proof.
  intros H. unfold nth_Z, upd_Z.
  destruct (Z.ltb_spec i 0); [lia|].
  rewrite list_lookup_insert_eq by lia. reflexivity.
Qed.

Lemma nth_upd_Z_ne {A} (d : A) (l : list A) (i j : Z) (v : A) :
  i <> j -> nth_Z d (upd_Z l i v) j = nth_Z d l j.
Proof.
  intros H. unfold nth_Z, upd_Z.
  destruct (Z.ltb_spec j 0); [reflexivity|].
  destruct (Z.ltb_spec i 0); [reflexivity|].
  rewrite list_lookup_insert_ne by lia. reflexivity.
Qed.
Ltac ssimpl :=
  cbn [
    hw rfid ctrl menu powerFail timers trace pwrPin measPin usartClock
    usartRxPin g_EM1_ModuleMask g_flgIRQ eeprom l_hdlLCD_Off g_RFID_Type
    g_RFID_Power g_RFID_AbsentDetectTimeout g_RFID_PwrOffTimeout
    g_RFID_DetectTimeout g_FERR_Cnt g_PERR_Cnt g_Transponder
    l_flgRFID_Activate l_pRFID_Cfg l_flgRFID_On l_flgRFID_IsOn
    l_hdlRFID_AbsentDetect l_hdlRFID_Off l_flgObjectPresent
    l_hdlRFID_DetectTimeout l_flgNewRun l_flgNewID l_State xorsum w crc
    g_PwrInterval g_On_Duration l_hdlPwrInterval l_MeasureDef
    l_ScanDuration l_ADC_ActiveChanMask l_ADC_Value l_prev_value_mV
    l_prev_value_mA l_prev_BATT_mV l_prev_BATT_mA l_BATT_FollowUpTime
    l_hdlFollowUpTimeBATT l_flgLogBATT l_BATT_MeasureInterval l_flgADC_On
    l_mV_Divider l_mA_Divider g_UA_Calib_mV g_UA_Calib_mA l_PwrOut
    l_flgCalibration set_timers set_trace set_pwrPin set_measPin
    set_usartClock set_usartRxPin set_g_EM1_ModuleMask set_g_flgIRQ
    set_eeprom set_g_FERR_Cnt set_g_PERR_Cnt set_g_Transponder
    set_l_flgRFID_On set_l_flgRFID_IsOn set_l_flgObjectPresent
    set_l_flgNewRun set_l_flgNewID set_l_State set_xorsum set_w set_crc
    set_g_PwrInterval set_g_On_Duration set_l_ScanDuration
    set_l_ADC_ActiveChanMask set_l_prev_value_mV set_l_prev_value_mA
    set_l_prev_BATT_mV set_l_prev_BATT_mA set_l_flgLogBATT
    set_l_BATT_MeasureInterval set_l_flgADC_On set_l_mV_Divider
    set_l_mA_Divider set_l_PwrOut set_l_flgCalibration with_dec push_event
    d_State d_xorsum d_w d_crc d_FERR d_PERR bind fst snd RFID_Type
    RFID_PwrOut tmFct tmCount hdlFollowUpTime FollowUpTime ChanU ChanI
    U_MinDiff I_MinDiff ].

Ltac ssimpl_in H :=
  cbn [
    hw rfid ctrl menu powerFail timers trace pwrPin measPin usartClock
    usartRxPin g_EM1_ModuleMask g_flgIRQ eeprom l_hdlLCD_Off g_RFID_Type
    g_RFID_Power g_RFID_AbsentDetectTimeout g_RFID_PwrOffTimeout
    g_RFID_DetectTimeout g_FERR_Cnt g_PERR_Cnt g_Transponder
    l_flgRFID_Activate l_pRFID_Cfg l_flgRFID_On l_flgRFID_IsOn
    l_hdlRFID_AbsentDetect l_hdlRFID_Off l_flgObjectPresent
    l_hdlRFID_DetectTimeout l_flgNewRun l_flgNewID l_State xorsum w crc
    g_PwrInterval g_On_Duration l_hdlPwrInterval l_MeasureDef
    l_ScanDuration l_ADC_ActiveChanMask l_ADC_Value l_prev_value_mV
    l_prev_value_mA l_prev_BATT_mV l_prev_BATT_mA l_BATT_FollowUpTime
    l_hdlFollowUpTimeBATT l_flgLogBATT l_BATT_MeasureInterval l_flgADC_On
    l_mV_Divider l_mA_Divider g_UA_Calib_mV g_UA_Calib_mA l_PwrOut
    l_flgCalibration set_timers set_trace set_pwrPin set_measPin
    set_usartClock set_usartRxPin set_g_EM1_ModuleMask set_g_flgIRQ
    set_eeprom set_g_FERR_Cnt set_g_PERR_Cnt set_g_Transponder
    set_l_flgRFID_On set_l_flgRFID_IsOn set_l_flgObjectPresent
    set_l_flgNewRun set_l_flgNewID set_l_State set_xorsum set_w set_crc
    set_g_PwrInterval set_g_On_Duration set_l_ScanDuration
    set_l_ADC_ActiveChanMask set_l_prev_value_mV set_l_prev_value_mA
    set_l_prev_BATT_mV set_l_prev_BATT_mA set_l_flgLogBATT
    set_l_BATT_MeasureInterval set_l_flgADC_On set_l_mV_Divider
    set_l_mA_Divider set_l_PwrOut set_l_flgCalibration with_dec push_event
    d_State d_xorsum d_w d_crc d_FERR d_PERR bind fst snd RFID_Type
    RFID_PwrOut tmFct tmCount hdlFollowUpTime FollowUpTime ChanU ChanI
    U_MinDiff I_MinDiff ] in H.

(** ** Timers and events: what a call leaves alone *)

Section Frames.
Variable bc : Build.

Lemma sTimerStart_rfid h t s : rfid (sTimerStart h t s) = rfid s.
Proof. unfold sTimerStart. destruct (valid_hdl _ _); reflexivity. Qed.

Lemma sTimerStart_ctrl h t s : ctrl (sTimerStart h t s) = ctrl s.
Proof. unfold sTimerStart. destruct (valid_hdl _ _); reflexivity. Qed.

Lemma sTimerStart_trace h t s :
  trace (hw (sTimerStart h t s)) = EvTimerStart h t :: trace (hw s).
Proof. unfold sTimerStart. destruct (valid_hdl _ _); reflexivity. Qed.

Lemma sTimerStart_countdown h t s :
  valid_hdl h s = true -> countdown h (sTimerStart h t s) = Some t.
Proof.
  intros Hv. unfold sTimerStart, countdown.
  assert (Hv' : valid_hdl h (push_event (EvTimerStart h t) s) = true) by exact Hv.
  rewrite Hv'. unfold valid_hdl in Hv.
  apply andb_true_iff in Hv as [H1 H2].
  apply Z.leb_le in H1. apply Z.ltb_lt in H2.
  destruct (Z.ltb_spec h 0); [lia|]. cbn.
  destruct (lookup_lt_is_Some_2 (timers (hw s)) (Z.to_nat h) ltac:(lia)) as [x Hx].
  rewrite list_lookup_alter_eq, Hx. reflexivity.
Qed.

(** ** RFID_Decode(): single words *)

Lemma with_dec_of (s : State) : with_dec (dec_of s) s = s.
Proof. destruct s as [h r c m]. destruct r. reflexivity. Qed.

Lemma count_errors_with_dec r d s :
  count_errors r (with_dec d s)
  = with_dec {| d_State := d_State d; d_xorsum := d_xorsum d; d_w := d_w d;
                d_crc := d_crc d; d_FERR := ferr_after r (d_FERR d);
                d_PERR := perr_after r (d_PERR d) |} s.
Proof.
  unfold count_errors, ferr_after, perr_after.
  destruct (negb (Z.land r USART_RXDATAX_FERR =? 0));
    destruct (negb (Z.land r USART_RXDATAX_PERR =? 0)); reflexivity.
Qed.

Ltac eval_prefix H :=
  match type of H with
  | context [nth_Z 0 v_prefix ?k] =>
      let v := eval vm_compute in (nth_Z 0 v_prefix k) in
      change (nth_Z 0 v_prefix k) with v in H
  end.

Ltac decoder_cases k Hk :=
  let H := fresh in
  assert (H : k = 0 \/ k = 1 \/ k = 2 \/ k = 3 \/ k = 4 \/ k = 5 \/ k = 6 \/
              k = 7 \/ k = 8 \/ k = 9 \/ k = 10 \/ k = 11 \/ k = 12 \/ k = 13)
    by lia;
  clear Hk;
  repeat (destruct H as [H|H]; [subst k|]); [..|subst k].

(** A word that continues a Short Range frame: a matching prefix byte in the
    states 0 to 4, any byte in the states 5 to 12. *)
Lemma RFID_Decode_SR_advance r d s :
  RFID_Type (l_pRFID_Cfg (rfid s)) = RFID_TYPE_SR ->
  0 <= d_State d <= 12 ->
  length (d_w d) = 14%nat ->
  (d_State d <= 4 -> Z.land r 0xFF = nth_Z 0 v_prefix (d_State d)) ->
  RFID_Decode bc r (with_dec d s) = Ok (with_dec (dec_SR_step r d) s).
Proof.
  intros Ht Hk Hlen Hpre. unfold RFID_Decode.
  rewrite count_errors_with_dec.
  destruct d as [k x wv c f p]. unfold dec_SR_step.
  cbn [d_State d_w d_xorsum d_crc d_FERR d_PERR] in *.
  unfold store_w.
  assert (HL : Z.of_nat (length wv) = 14) by lia.
  assert (Hk' : 0 <= k <= 13) by lia.
  decoder_cases k Hk'; try (exfalso; lia); cbn; rewrite HL; cbn; rewrite Ht;
    cbn; try (specialize (Hpre ltac:(lia)); eval_prefix Hpre; rewrite Hpre);
    reflexivity.
Qed.

(** A word that violates the prefix of a Short Range frame restarts the
    state machine. *)
Lemma RFID_Decode_SR_violation r d s :
  RFID_Type (l_pRFID_Cfg (rfid s)) = RFID_TYPE_SR ->
  0 <= d_State d <= 4 ->
  length (d_w d) = 14%nat ->
  Z.land r 0xFF <> nth_Z 0 v_prefix (d_State d) ->
  exists s', RFID_Decode bc r (with_dec d s) = Ok s' /\ l_State (rfid s') = 0
             /\ length (w (rfid s')) = 14%nat /\ trace (hw s') = trace (hw s)
             /\ l_pRFID_Cfg (rfid s') = l_pRFID_Cfg (rfid s).
Proof.
  intros Ht Hk Hlen Hpre. unfold RFID_Decode.
  rewrite count_errors_with_dec.
  destruct d as [k x wv c f p]. cbn [d_State d_w d_xorsum d_crc d_FERR d_PERR] in *.
  unfold store_w.
  assert (HL : Z.of_nat (length wv) = 14) by lia.
  assert (Hk' : 0 <= k <= 13) by lia.
  decoder_cases k Hk'; try (exfalso; lia); cbn; rewrite HL; cbn; rewrite Ht;
    cbn;
    match goal with
    | |- context [Z.land r 255 =? ?v] =>
        destruct (Z.eqb_spec (Z.land r 255) v) as [E|E];
        [exfalso; apply Hpre; exact E|]
    end;
    eexists;
    (split; [reflexivity|split; [reflexivity|split; [|split; reflexivity]]]);
    ssimpl; rewrite length_insert; exact Hlen.
Qed.

(** decode_SR() in the state 13. *)
Lemma decode_SR_13 b s :
  l_State (rfid s) = 13 ->
  decode_SR b s
  = if negb (nth_Z 0 (w (rfid s)) 13 =? xorsum (rfid s))
    then (set_l_State 0
            (LogError (Msg_RecvXOR (nth_Z 0 (w (rfid s)) 13) (xorsum (rfid s))
                                   (hex_dump 14 (w (rfid s)))) s), false)
    else (s, true).
Proof. intros H. unfold decode_SR. rewrite H. reflexivity. Qed.

(** The last word of a Short Range frame. *)
Lemma RFID_Decode_SR_last r d s :
  RFID_Type (l_pRFID_Cfg (rfid s)) = RFID_TYPE_SR ->
  d_State d = 13 ->
  length (d_w d) = 14%nat ->
  RFID_Decode bc r (with_dec d s)
  = Ok (if Z.land r 0xFF =? d_xorsum d
        then ID_received bc (with_dec (dec_last r d) s)
        else set_l_State 0
               (LogError (Msg_RecvXOR (Z.land r 0xFF) (d_xorsum d)
                            (hex_dump 14 (upd_Z (d_w d) 13 (Z.land r 0xFF))))
                         (with_dec (dec_last r d) s))).
Proof.
  intros Ht Hk Hlen. unfold RFID_Decode.
  rewrite count_errors_with_dec.
  destruct d as [k x wv c f p]. unfold dec_last.
  cbn [d_State d_w d_xorsum d_crc d_FERR d_PERR] in *.
  assert (HL : Z.of_nat (length wv) = 14) by lia.
  subst k. unfold store_w. ssimpl. rewrite HL.
  change ((0 <=? 13) && (13 <? 14)) with true. ssimpl. rewrite Ht.
  change (RFID_TYPE_SR =? RFID_TYPE_SR) with true. cbv iota.
  rewrite decode_SR_13 by reflexivity. ssimpl.
  rewrite nth_upd_Z_eq by lia.
  destruct (Z.land r 255 =? x); reflexivity.
Qed.

(** A word that continues a Long Range frame: 'T' in the state 0, any byte
    in the states 1 to 9. *)
Lemma RFID_Decode_LR_advance r d s :
  RFID_Type (l_pRFID_Cfg (rfid s)) = RFID_TYPE_LR ->
  0 <= d_State d <= 9 ->
  length (d_w d) = 14%nat ->
  (d_State d = 0 -> Z.land r 0xFF = 0x54) ->
  RFID_Decode bc r (with_dec d s) = Ok (with_dec (dec_LR_step r d) s).
Proof.
  intros Ht Hk Hlen Hpre. unfold RFID_Decode.
  rewrite count_errors_with_dec.
  destruct d as [k x wv c f p]. unfold dec_LR_step.
  cbn [d_State d_w d_xorsum d_crc d_FERR d_PERR] in *.
  unfold store_w.
  assert (HL : Z.of_nat (length wv) = 14) by lia.
  assert (Hk' : 0 <= k <= 13) by lia.
  decoder_cases k Hk'; try (exfalso; lia); ssimpl; rewrite HL;
    match goal with
    | |- context [(0 <=? ?a) && (?a <? 14)] =>
        change ((0 <=? a) && (a <? 14)) with true
    end; ssimpl; rewrite Ht;
    change (RFID_TYPE_LR =? RFID_TYPE_SR) with false;
    change (RFID_TYPE_LR =? RFID_TYPE_LR) with true; cbv iota;
    unfold decode_LR; ssimpl;
    try (rewrite (Hpre eq_refl)); reflexivity.
Qed.

(** decode_LR() in the state 10. *)
Lemma decode_LR_10 b s :
  l_State (rfid s) = 10 ->
  decode_LR b s
  = let val := wrap16 (Z.lor (Z.shiftl (nth_Z 0 (w (rfid s)) 10) 8)
                             (nth_Z 0 (w (rfid s)) 9)) in
    if negb (val =? crc (rfid s))
    then (set_l_State 0
            (LogError (Msg_RecvCRC val (crc (rfid s))
                                   (hex_dump 11 (w (rfid s)))) s), false)
    else (s, true).
Proof. intros H. unfold decode_LR. rewrite H. reflexivity. Qed.

(** The last word of a Long Range frame. *)
Lemma RFID_Decode_LR_last r d s :
  RFID_Type (l_pRFID_Cfg (rfid s)) = RFID_TYPE_LR ->
  d_State d = 10 ->
  length (d_w d) = 14%nat ->
  RFID_Decode bc r (with_dec d s)
  = Ok (if LR_recv_crc (d_w (dec_last r d)) =? d_crc d
        then ID_received bc (with_dec (dec_last r d) s)
        else set_l_State 0
               (LogError (Msg_RecvCRC (LR_recv_crc (d_w (dec_last r d))) (d_crc d)
                            (hex_dump 11 (d_w (dec_last r d))))
                         (with_dec (dec_last r d) s))).
Proof.
  intros Ht Hk Hlen. unfold RFID_Decode.
  rewrite count_errors_with_dec.
  destruct d as [k x wv c f p]. unfold dec_last, LR_recv_crc.
  cbn [d_State d_w d_xorsum d_crc d_FERR d_PERR] in *.
  assert (HL : Z.of_nat (length wv) = 14) by lia.
  subst k. unfold store_w. ssimpl. rewrite HL.
  change ((0 <=? 10) && (10 <? 14)) with true. ssimpl. rewrite Ht.
  change (RFID_TYPE_LR =? RFID_TYPE_SR) with false.
  change (RFID_TYPE_LR =? RFID_TYPE_LR) with true. cbv iota.
  rewrite decode_LR_10 by reflexivity. ssimpl. cbv zeta.
  destruct (_ =? c); reflexivity.
Qed.

End Frames.

(** ** RFID_Decode(): a received ID *)

Section Received.
Variable bc : Build.

Lemma sTimerStart_timers_length h t s :
  length (timers (hw (sTimerStart h t s))) = length (timers (hw s)).
Proof.
  unfold sTimerStart. destruct (valid_hdl _ _); [|reflexivity].
  ssimpl. apply length_alter.
Qed.

Lemma sTimerStart_valid_hdl h t h' s :
  valid_hdl h' (sTimerStart h t s) = valid_hdl h' s.
Proof. unfold valid_hdl. rewrite sTimerStart_timers_length. reflexivity. Qed.

Lemma restart_DetectTimeout_rfid s :
  rfid (if_LIGHT_BARRIER bc restart_DetectTimeout s) = rfid s.
Proof.
  unfold if_LIGHT_BARRIER, restart_DetectTimeout.
  destruct (RFID_TRIGGERED_BY_LIGHT_BARRIER bc); [|reflexivity].
  destruct (_ && _); [apply sTimerStart_rfid|reflexivity].
Qed.

Lemma restart_DetectTimeout_NewID s :
  count_events is_NewID (trace (hw (if_LIGHT_BARRIER bc restart_DetectTimeout s)))
  = count_events is_NewID (trace (hw s)).
Proof.
  unfold if_LIGHT_BARRIER, restart_DetectTimeout.
  destruct (RFID_TRIGGERED_BY_LIGHT_BARRIER bc); [|reflexivity].
  destruct (_ && _); [rewrite sTimerStart_trace|]; reflexivity.
Qed.

Lemma restart_DetectTimeout_count p s :
  (count_events p (trace (hw (if_LIGHT_BARRIER bc restart_DetectTimeout s)))
   >= count_events p (trace (hw s)))%nat.
Proof.
  unfold if_LIGHT_BARRIER, restart_DetectTimeout.
  destruct (RFID_TRIGGERED_BY_LIGHT_BARRIER bc); [|lia].
  destruct (_ && _); [rewrite sTimerStart_trace|]; cbn [count_events]; lia.
Qed.

Lemma restart_DetectTimeout_valid_hdl h s :
  valid_hdl h (if_LIGHT_BARRIER bc restart_DetectTimeout s) = valid_hdl h s.
Proof.
  unfold if_LIGHT_BARRIER, restart_DetectTimeout.
  destruct (RFID_TRIGGERED_BY_LIGHT_BARRIER bc); [|reflexivity].
  destruct (_ && _); [apply sTimerStart_valid_hdl|reflexivity].
Qed.

(** What the generic part of RFID_Decode() does with a received ID. *)
Lemma ID_received_spec s :
  let id := hex_id (w (rfid s)) in
  let fresh := is_fresh id s in
  let timeout := g_RFID_AbsentDetectTimeout (rfid s) in
  let hdl := l_hdlRFID_AbsentDetect (rfid s) in
  let s' := ID_received bc s in
  with_dec (dec_of s') s' = s' /\
  l_State (rfid s') = 0 /\
  g_Transponder (rfid s') = (if fresh then id else g_Transponder (rfid s)) /\
  l_flgNewRun (rfid s') = false /\
  l_flgNewID (rfid s') = fresh || l_flgNewID (rfid s) /\
  count_events is_NewID (trace (hw s'))
  = (count_events is_NewID (trace (hw s)) + (if fresh then 1 else 0))%nat /\
  w (rfid s') = w (rfid s) /\
  g_RFID_AbsentDetectTimeout (rfid s') = timeout /\
  l_hdlRFID_AbsentDetect (rfid s') = hdl /\
  l_pRFID_Cfg (rfid s') = l_pRFID_Cfg (rfid s) /\
  (forall h, valid_hdl h s' = valid_hdl h s) /\
  (0 < timeout ->
   last_event s' = Some (EvTimerStart hdl timeout) /\
   (count_events (is_TimerStart hdl timeout) (trace (hw s'))
    > count_events (is_TimerStart hdl timeout) (trace (hw s)))%nat /\
   (valid_hdl hdl s = true -> countdown hdl s' = Some timeout)).
Proof.
  intros id fresh timeout hdl s'.
  split; [apply with_dec_of|].
  subst s'. unfold ID_received.
  set (s1 := if_LIGHT_BARRIER bc restart_DetectTimeout (set_l_State 0 s)).
  assert (R1 : rfid s1 = rfid (set_l_State 0 s))
    by apply restart_DetectTimeout_rfid.
  assert (N1 : count_events is_NewID (trace (hw s1))
               = count_events is_NewID (trace (hw s)))
    by exact (restart_DetectTimeout_NewID (set_l_State 0 s)).
  assert (C1 : forall p, (count_events p (trace (hw s1))
                          >= count_events p (trace (hw s)))%nat)
    by (intros p; exact (restart_DetectTimeout_count p (set_l_State 0 s))).
  assert (V1 : forall h, valid_hdl h s1 = valid_hdl h s)
    by (intros h; exact (restart_DetectTimeout_valid_hdl h (set_l_State 0 s))).
  ssimpl. rewrite R1. ssimpl. fold id. 
  change (l_flgNewRun (rfid s) || negb (String.eqb id (g_Transponder (rfid s))))
    with fresh.
  set (s2 := if fresh then raise_NewID (set_g_Transponder id (set_l_flgNewRun false s1)) else s1).
  assert (R2 : rfid s2 = 
    (if fresh then rfid (raise_NewID (set_g_Transponder id (set_l_flgNewRun false s1))) else rfid s1)).
  { subst s2. destruct fresh; reflexivity. }
  assert (HNR : fresh = false -> l_flgNewRun (rfid s) = false).
  { unfold fresh, is_fresh. intros H. apply orb_false_iff in H. tauto. }
  assert (T2 : g_RFID_AbsentDetectTimeout (rfid s2) = timeout).
  { rewrite R2. destruct fresh; unfold raise_NewID; ssimpl; rewrite R1; reflexivity. }
  assert (H2 : l_hdlRFID_AbsentDetect (rfid s2) = hdl).
  { rewrite R2. destruct fresh; unfold raise_NewID; ssimpl; rewrite R1; reflexivity. }
  assert (V2 : forall h, valid_hdl h s2 = valid_hdl h s).
  { intros h. rewrite <- V1. subst s2. destruct fresh; reflexivity. }
  assert (N2 : count_events is_NewID (trace (hw s2))
               = (count_events is_NewID (trace (hw s)) + (if fresh then 1 else 0))%nat).
  { subst s2. destruct fresh; unfold raise_NewID; ssimpl; [|lia].
    cbn [count_events is_NewID]. lia. }
  assert (C2 : forall p, (count_events p (trace (hw s2))
                          >= count_events p (trace (hw s)))%nat).
  { intros p. specialize (C1 p). subst s2.
    destruct fresh; unfold raise_NewID; ssimpl; cbn [count_events]; lia. }
  rewrite T2, H2.
  assert (Hrest :
    l_State (rfid s2) = 0 /\
    g_Transponder (rfid s2) = (if fresh then id else g_Transponder (rfid s)) /\
    l_flgNewRun (rfid s2) = false /\
    l_flgNewID (rfid s2) = fresh || l_flgNewID (rfid s) /\
    w (rfid s2) = w (rfid s) /\
    l_pRFID_Cfg (rfid s2) = l_pRFID_Cfg (rfid s)).
  { rewrite R2. destruct fresh eqn:Hf; unfold raise_NewID; ssimpl; rewrite R1;
      ssimpl; repeat split; try reflexivity.
    apply HNR. reflexivity. }
  destruct Hrest as (E1 & E2 & E3 & E4 & E5 & E6).
  destruct (Z.ltb_spec 0 timeout) as [Hpos|Hnpos].
  - rewrite !sTimerStart_rfid.
    repeat split; try assumption.
    + rewrite sTimerStart_trace. cbn [count_events is_NewID]. exact N2.
    + intros h. rewrite sTimerStart_valid_hdl. apply V2.
    + unfold last_event. rewrite sTimerStart_trace. reflexivity.
    + rewrite sTimerStart_trace. cbn [count_events is_TimerStart].
      rewrite !Z.eqb_refl. cbn [andb].
      specialize (C2 (is_TimerStart hdl timeout)). lia.
    + intros Hv. apply sTimerStart_countdown. rewrite V2. exact Hv.
  - repeat split; try assumption; lia.
Qed.

End Received.

(** ** RFID_Decode(): streams of words *)

Section Streams.
Variable bc : Build.

Lemma RFID_Decode_stream_app rs1 rs2 s :
  RFID_Decode_stream bc (rs1 ++ rs2) s
  = bind (RFID_Decode_stream bc rs1 s) (RFID_Decode_stream bc rs2).
Proof.
  revert s. induction rs1 as [|r rs1 IH]; intros s; [reflexivity|].
  cbn [app RFID_Decode_stream].
  destruct (RFID_Decode bc r s) as [s'|f]; cbn [bind]; [apply IH|reflexivity].
Qed.

End Streams.

(** Both frame formats store the words at consecutive positions of [w]. *)
Section Run.
Variable step : Z -> Dec -> Dec.
Hypothesis step_State : forall r d, d_State (step r d) = d_State d + 1.
Hypothesis step_w :
  forall r d, d_w (step r d) = upd_Z (d_w d) (d_State d) (Z.land r 0xFF).

Local Abbreviation run := (dec_run step).

Lemma run_cons r rs d : run (r :: rs) d = run rs (step r d).
Proof. reflexivity. Qed.

Lemma run_State rs d : d_State (run rs d) = d_State d + Z.of_nat (length rs).
Proof.
  revert d. induction rs as [|r rs IH]; intros d.
  - cbn [dec_run foldl length]. lia.
  - rewrite run_cons, IH, step_State. cbn [length]. lia.
Qed.

Lemma run_length rs d : length (d_w (run rs d)) = length (d_w d).
Proof.
  revert d. induction rs as [|r rs IH]; intros d; [reflexivity|].
  rewrite run_cons, IH, step_w. apply length_upd_Z.
Qed.

(** Bytes below the position of the decoder are left alone. *)
Lemma run_below rs d (j : nat) :
  (Z.of_nat j < d_State d) -> d_w (run rs d) !! j = d_w d !! j.
Proof.
  revert d. induction rs as [|r rs IH]; intros d Hj; [reflexivity|].
  rewrite run_cons, IH by (rewrite step_State; lia).
  rewrite step_w. unfold upd_Z.
  destruct (Z.ltb_spec (d_State d) 0); [reflexivity|].
  apply list_lookup_insert_ne. lia.
Qed.

Lemma run_stored rs d (i : nat) :
  0 <= d_State d ->
  d_State d + Z.of_nat (length rs) <= Z.of_nat (length (d_w d)) ->
  (i < length rs)%nat ->
  d_w (run rs d) !! (Z.to_nat (d_State d) + i)%nat = data_bits rs !! i.
Proof.
  revert d i. induction rs as [|r rs IH]; intros d i H0 Hlen Hi;
    [cbn [length] in Hi; lia|].
  cbn [length] in Hlen, Hi. rewrite run_cons.
  destruct i as [|i].
  - rewrite run_below by (rewrite step_State; lia).
    rewrite step_w. cbn [data_bits map lookup]. unfold upd_Z.
    destruct (Z.ltb_spec (d_State d) 0); [lia|].
    rewrite Nat.add_0_r. rewrite list_lookup_insert_eq by lia. reflexivity.
  - specialize (IH (step r d) i).
    rewrite step_State, step_w, length_upd_Z in IH.
    replace (Z.to_nat (d_State d) + S i)%nat
      with (Z.to_nat (d_State d + 1) + i)%nat by lia.
    rewrite IH by lia. reflexivity.
Qed.

End Run.

Lemma dec_SR_run_cons r rs d :
  dec_SR_run (r :: rs) d = dec_SR_run rs (dec_SR_step r d).
Proof. reflexivity. Qed.

Lemma dec_SR_run_State rs d :
  d_State (dec_SR_run rs d) = d_State d + Z.of_nat (length rs).
Proof. apply (run_State dec_SR_step). reflexivity. Qed.

Lemma dec_SR_run_length rs d :
  length (d_w (dec_SR_run rs d)) = length (d_w d).
Proof. apply (run_length dec_SR_step). reflexivity. Qed.

Lemma dec_SR_run_stored rs d (i : nat) :
  0 <= d_State d ->
  d_State d + Z.of_nat (length rs) <= Z.of_nat (length (d_w d)) ->
  (i < length rs)%nat ->
  d_w (dec_SR_run rs d) !! (Z.to_nat (d_State d) + i)%nat = data_bits rs !! i.
Proof. apply (run_stored dec_SR_step); reflexivity. Qed.

Lemma dec_LR_run_cons r rs d :
  dec_LR_run (r :: rs) d = dec_LR_run rs (dec_LR_step r d).
Proof. reflexivity. Qed.

Lemma dec_LR_run_State rs d :
  d_State (dec_LR_run rs d) = d_State d + Z.of_nat (length rs).
Proof. apply (run_State dec_LR_step). reflexivity. Qed.

Lemma dec_LR_run_length rs d :
  length (d_w (dec_LR_run rs d)) = length (d_w d).
Proof. apply (run_length dec_LR_step). reflexivity. Qed.

Lemma dec_LR_run_stored rs d (i : nat) :
  0 <= d_State d ->
  d_State d + Z.of_nat (length rs) <= Z.of_nat (length (d_w d)) ->
  (i < length rs)%nat ->
  d_w (dec_LR_run rs d) !! (Z.to_nat (d_State d) + i)%nat = data_bits rs !! i.
Proof. apply (run_stored dec_LR_step); reflexivity. Qed.

Section Streams2.
Variable bc : Build.

(** The checksum collected over the words received so far. *)
Lemma dec_SR_run_xorsum r rs d :
  d_State d = 0 ->
  d_xorsum (dec_SR_run (r :: rs) d) = foldl Z.lxor 0 (data_bits (r :: rs)).
Proof.
  intros H0.
  assert (G : forall rs d, 0 < d_State d -> 0 <= d_xorsum d < 256 ->
            d_xorsum (dec_SR_run rs d) = foldl Z.lxor (d_xorsum d) (data_bits rs)).
  { clear. induction rs as [|r rs IH]; intros d Hk Hx; [reflexivity|].
    rewrite dec_SR_run_cons.
    assert (Hs : d_xorsum (dec_SR_step r d) = Z.lxor (d_xorsum d) (Z.land r 0xFF)).
    { cbn [dec_SR_step d_xorsum].
      destruct (Z.eqb_spec (d_State d) 0); [lia|].
      apply wrap8_lxor; [assumption|apply land_255_range]. }
    rewrite IH.
    - rewrite Hs. reflexivity.
    - cbn [dec_SR_step d_State]. lia.
    - rewrite Hs. apply lxor_byte_range; [assumption|apply land_255_range]. }
  rewrite dec_SR_run_cons.
  assert (Hs : d_xorsum (dec_SR_step r d) = Z.lxor 0 (Z.land r 0xFF)).
  { cbn [dec_SR_step d_xorsum]. rewrite H0. 
    change (0 =? 0) with true. cbv iota.
    apply wrap8_lxor; [lia|apply land_255_range]. }
  rewrite G.
  - rewrite Hs. reflexivity.
  - cbn [dec_SR_step d_State]. lia.
  - rewrite Hs. apply lxor_byte_range; [lia|apply land_255_range].
Qed.

(** Words that continue a Short Range frame, one after the other. *)
Lemma RFID_Decode_stream_SR_advance rs d s :
  RFID_Type (l_pRFID_Cfg (rfid s)) = RFID_TYPE_SR ->
  0 <= d_State d ->
  d_State d + Z.of_nat (length rs) <= 13 ->
  length (d_w d) = 14%nat ->
  (forall (i : nat) r, rs !! i = Some r -> d_State d + Z.of_nat i <= 4 ->
     Z.land r 0xFF = nth_Z 0 v_prefix (d_State d + Z.of_nat i)) ->
  RFID_Decode_stream bc rs (with_dec d s) = Ok (with_dec (dec_SR_run rs d) s).
Proof.
  intros Ht. revert d. induction rs as [|r rs IH]; intros d H0 Hk Hlen Hpre;
    [reflexivity|].
  cbn [length] in Hk. cbn [RFID_Decode_stream].
  rewrite RFID_Decode_SR_advance; try assumption; try lia.
  - cbn [bind]. rewrite dec_SR_run_cons. apply IH.
    + cbn [dec_SR_step d_State]. lia.
    + cbn [dec_SR_step d_State]. lia.
    + cbn [dec_SR_step d_w]. rewrite length_upd_Z. assumption.
    + intros i r' Hi Hle. cbn [dec_SR_step d_State] in *.
      replace (d_State d + 1 + Z.of_nat i) with (d_State d + Z.of_nat (S i)) by lia.
      apply Hpre; [exact Hi|lia].
  - intros Hle. specialize (Hpre 0%nat r eq_refl).
    rewrite Z.add_0_r in Hpre. apply Hpre. lia.
Qed.

(** Words that continue a Long Range frame, one after the other. *)
Lemma RFID_Decode_stream_LR_advance rs d s :
  RFID_Type (l_pRFID_Cfg (rfid s)) = RFID_TYPE_LR ->
  0 <= d_State d ->
  d_State d + Z.of_nat (length rs) <= 10 ->
  length (d_w d) = 14%nat ->
  (d_State d = 0 -> forall r, rs !! 0%nat = Some r -> Z.land r 0xFF = 0x54) ->
  RFID_Decode_stream bc rs (with_dec d s) = Ok (with_dec (dec_LR_run rs d) s).
Proof.
  intros Ht. revert d. induction rs as [|r rs IH]; intros d H0 Hk Hlen Hpre;
    [reflexivity|].
  cbn [length] in Hk. cbn [RFID_Decode_stream].
  rewrite RFID_Decode_LR_advance; try assumption; try lia.
  - cbn [bind]. rewrite dec_LR_run_cons. apply IH.
    + cbn [dec_LR_step d_State]. lia.
    + cbn [dec_LR_step d_State]. lia.
    + cbn [dec_LR_step d_w]. rewrite length_upd_Z. assumption.
    + cbn [dec_LR_step d_State]. lia.
  - intros E. apply (Hpre E r). reflexivity.
Qed.

Lemma dec_LR_step_State r d : d_State (dec_LR_step r d) = d_State d + 1.
Proof. reflexivity. Qed.

Lemma dec_LR_step_crc r d :
  d_crc (dec_LR_step r d)
  = if d_State d <=? 1 then crc_update 0 (Z.land r 0xFF)
    else if d_State d <=? 8 then crc_update (d_crc d) (Z.land r 0xFF)
    else d_crc d.
Proof. reflexivity. Qed.

(** The CRC collected over eight payload bytes that follow the 'T'; the
    bytes at the positions 9 and 10 do not enter it. *)
Lemma dec_LR_run_crc t p1 p2 p3 p4 p5 p6 p7 p8 c9 d :
  d_State d = 0 ->
  d_crc (dec_LR_run [t; p1; p2; p3; p4; p5; p6; p7; p8; c9] d)
  = foldl crc_update 0 (data_bits [p1; p2; p3; p4; p5; p6; p7; p8]).
Proof.
  intros H0. rewrite !dec_LR_run_cons.
  change (dec_LR_run [] ?x) with x.
  cbn [data_bits map foldl].
  repeat (rewrite dec_LR_step_crc, !dec_LR_step_State, H0;
          match goal with
          | |- context [?a <=? 1] =>
              let v := eval vm_compute in (a <=? 1) in change (a <=? 1) with v
          end;
          try match goal with
          | |- context [?a <=? 8] =>
              let v := eval vm_compute in (a <=? 8) in change (a <=? 8) with v
          end; cbv iota).
  reflexivity.
Qed.

End Streams2.

(** ** Hexadecimal IDs *)

Lemma nth_Z_lookup {A} (d : A) (l1 l2 : list A) (k : Z) :
  0 <= k -> l1 !! Z.to_nat k = l2 !! Z.to_nat k -> nth_Z d l1 k = nth_Z d l2 k.
Proof.
  intros Hk H. unfold nth_Z. destruct (Z.ltb_spec k 0); [lia|].
  rewrite H. reflexivity.
Qed.

Lemma hex_id_ext (w1 w2 : list Z) :
  (forall k, 1 <= k <= 8 -> nth_Z 0 w1 k = nth_Z 0 w2 k) -> hex_id w1 = hex_id w2.
Proof.
  intros H. unfold hex_id. cbn [flat_map app].
  change (8 - 0) with 8. change (8 - 1) with 7. change (8 - 2) with 6.
  change (8 - 3) with 5. change (8 - 4) with 4. change (8 - 5) with 3.
  change (8 - 6) with 2. change (8 - 7) with 1.
  rewrite !(H 8), !(H 7), !(H 6), !(H 5), !(H 4), !(H 3), !(H 2), !(H 1) by lia.
  reflexivity.
Qed.

Lemma hex_id_id_bytes (frame : list Z) :
  hex_id frame = hex_string (id_bytes frame).
Proof. reflexivity. Qed.

Lemma hex_value_HexChar (n : Z) :
  0 <= n < 16 -> hex_value (nth (Z.to_nat n) HexChar "0"%char) = Some n.
Proof.
  intros H.
  assert (Hc : exists k : nat, (k < 16)%nat /\ n = Z.of_nat k)
    by (exists (Z.to_nat n); lia).
  destruct Hc as (k & Hk & ->). rewrite Nat2Z.id.
  do 16 (destruct k as [|k]; [reflexivity|]). lia.
Qed.

Lemma land_15_range (x : Z) : 0 <= Z.land x 0x0F < 16.
Proof.
  change 0x0F with (Z.ones 4). rewrite Z.land_ones by lia.
  apply Z.mod_pos_bound. lia.
Qed.

Lemma hex_digits_value (b : Z) :
  0 <= b < 256 ->
  hex_value (hex_hi b) = Some (b / 16) /\ hex_value (hex_lo b) = Some (b mod 16).
Proof.
  intros Hb. unfold hex_hi, hex_lo.
  rewrite !hex_value_HexChar by apply land_15_range.
  change 0x0F with (Z.ones 4). rewrite !Z.land_ones by lia.
  rewrite Z.shiftr_div_pow2 by lia. change (2 ^ 4) with 16.
  rewrite (Z.mod_small (b / 16)); [split; reflexivity|].
  split; [apply Z.div_pos; lia|apply Z.div_lt_upper_bound; lia].
Qed.

(** Reading the rendered string back gives the bytes: the rendering is the
    upper-case hexadecimal notation of the bytes. *)
Lemma parse_hex_hex_string (bytes : list Z) :
  Forall (fun b => 0 <= b < 256) bytes ->
  parse_hex (hex_string bytes) = Some bytes.
Proof.
  induction 1 as [|b bs Hb _ IH]; [reflexivity|].
  unfold hex_string in *. cbn [flat_map app string_of_list_ascii parse_hex].
  destruct (hex_digits_value b Hb) as [-> ->]. rewrite IH.
  rewrite <- Z.div_mod by lia. reflexivity.
Qed.

Lemma length_hex_string (bytes : list Z) :
  String.length (hex_string bytes) = (2 * length bytes)%nat.
Proof.
  induction bytes as [|b bs IH]; [reflexivity|].
  unfold hex_string in *. cbn [flat_map app string_of_list_ascii String.length length].
  rewrite IH. lia.
Qed.

Lemma data_bits_range (raw : list Z) (k : Z) :
  0 <= nth_Z 0 (data_bits raw) k < 256.
Proof.
  unfold nth_Z. destruct (k <? 0); [lia|].
  unfold data_bits. rewrite list_lookup_fmap.
  destruct (raw !! Z.to_nat k); cbn; [apply land_255_range|lia].
Qed.

Lemma id_bytes_range (raw : list Z) :
  Forall (fun b => 0 <= b < 256) (id_bytes (data_bits raw)).
Proof.
  unfold id_bytes. cbn [map].
  repeat (apply Forall_cons; split; [apply data_bits_range|]).
  apply Forall_nil. exact I.
Qed.

(** ** RFID_Decode(): a complete Short Range frame *)

Section ShortRange.
Variable bc : Build.

Lemma length_14_inv {A} (l : list A) :
  length l = 14%nat ->
  exists a0 a1 a2 a3 a4 a5 a6 a7 a8 a9 a10 a11 a12 a13,
    l = [a0; a1; a2; a3; a4; a5; a6; a7; a8; a9; a10; a11; a12; a13].
Proof.
  intros H.
  do 14 (destruct l as [|? l]; [discriminate H|]).
  destruct l; [|discriminate H].
  repeat eexists.
Qed.

(** From the idle state of the decoder a well-formed frame ends in the
    generic part of the routine, with the bytes of the frame in [w]. *)
Lemma SR_frame_received (raw : list Z) (s : State) :
  RFID_Type (l_pRFID_Cfg (rfid s)) = RFID_TYPE_SR ->
  l_State (rfid s) = 0 ->
  length (w (rfid s)) = 14%nat ->
  well_formed_SR (data_bits raw) ->
  exists d,
    RFID_Decode_stream bc raw s = Ok (ID_received bc (with_dec d s)) /\
    length (d_w d) = 14%nat /\
    hex_id (d_w d) = hex_string (id_bytes (data_bits raw)).
Proof.
  intros Ht H0 Hlen (Hl & Hpre & Hsum).
  unfold data_bits in Hl. rewrite length_map in Hl.
  destruct (length_14_inv raw Hl)
    as (r0 & r1 & r2 & r3 & r4 & r5 & r6 & r7 & r8 & r9 & r10 & r11 & r12 & r13 & ->).
  set (rs := [r0; r1; r2; r3; r4; r5; r6; r7; r8; r9; r10; r11; r12]).
  change [r0; r1; r2; r3; r4; r5; r6; r7; r8; r9; r10; r11; r12; r13]
    with (rs ++ [r13]) in *.
  set (d0 := dec_of s).
  assert (Hd0 : d_State d0 = 0) by exact H0.
  assert (Hw0 : length (d_w d0) = 14%nat) by exact Hlen.
  replace (RFID_Decode_stream bc (rs ++ [r13]) s)
    with (RFID_Decode_stream bc (rs ++ [r13]) (with_dec d0 s))
    by (unfold d0; rewrite with_dec_of; reflexivity).
  rewrite RFID_Decode_stream_app.
  rewrite (RFID_Decode_stream_SR_advance bc rs d0 s Ht); try assumption; try lia.
  2:{ rewrite Hd0. cbn [length rs]. lia. }
  2:{ intros i r Hi Hle. rewrite Hd0 in *. rewrite Z.add_0_l in *.
      cbn [take data_bits map app rs] in Hpre.
      injection Hpre as E0 E1 E2 E3 E4.
      destruct i as [|[|[|[|[|i]]]]]; try lia;
        cbn [rs lookup] in Hi; injection Hi as <-; assumption. }
  cbn [bind RFID_Decode_stream].
  set (d13 := dec_SR_run rs d0).
  assert (Hs13 : d_State d13 = 13).
  { unfold d13. rewrite dec_SR_run_State, Hd0. reflexivity. }
  assert (Hw13 : length (d_w d13) = 14%nat).
  { unfold d13. rewrite dec_SR_run_length. exact Hw0. }
  assert (Hx13 : d_xorsum d13 = Z.land r13 0xFF).
  { unfold d13, rs. rewrite dec_SR_run_xorsum by exact Hd0.
    cbn [data_bits map app lookup take] in Hsum.
    injection Hsum as Hsum. rewrite Hsum. reflexivity. }
  rewrite RFID_Decode_SR_last by assumption.
  rewrite Hx13, Z.eqb_refl. cbn [bind].
  exists (dec_last r13 d13). split; [reflexivity|].
  split; [cbn [dec_last d_w]; rewrite length_upd_Z; exact Hw13|].
  rewrite <- hex_id_id_bytes. apply hex_id_ext. intros k Hk.
  apply nth_Z_lookup; [lia|].
  cbn [dec_last d_w]. rewrite Hs13. unfold upd_Z.
  change (13 <? 0) with false. cbv iota.
  rewrite list_lookup_insert_ne by lia.
  pose proof (dec_SR_run_stored rs d0 (Z.to_nat k)) as Hst.
  rewrite Hd0 in Hst. change (Z.to_nat 0 + Z.to_nat k)%nat with (Z.to_nat k) in Hst.
  fold d13 in Hst. rewrite Hst.
  - unfold data_bits. rewrite !list_lookup_fmap.
    rewrite lookup_app_l by (cbn [length rs]; lia). reflexivity.
  - lia.
  - rewrite Hw0. cbn [length rs]. lia.
  - cbn [length rs]. lia.
Qed.

End ShortRange.

(** ** RFID_Decode(): a complete Long Range frame *)

Section LongRange.
Variable bc : Build.

Lemma length_11_inv {A} (l : list A) :
  length l = 11%nat ->
  exists a0 a1 a2 a3 a4 a5 a6 a7 a8 a9 a10,
    l = [a0; a1; a2; a3; a4; a5; a6; a7; a8; a9; a10].
Proof.
  intros H.
  do 11 (destruct l as [|? l]; [discriminate H|]).
  destruct l; [|discriminate H].
  repeat eexists.
Qed.

Lemma LR_frame_received (raw : list Z) (s : State) :
  RFID_Type (l_pRFID_Cfg (rfid s)) = RFID_TYPE_LR ->
  l_State (rfid s) = 0 ->
  length (w (rfid s)) = 14%nat ->
  well_formed_LR (data_bits raw) ->
  exists d,
    RFID_Decode_stream bc raw s = Ok (ID_received bc (with_dec d s)) /\
    length (d_w d) = 14%nat /\
    hex_id (d_w d) = hex_string (id_bytes (data_bits raw)).
Proof.
  intros Ht H0 Hlen (Hl & Hpre & Hsum).
  unfold data_bits in Hl. rewrite length_map in Hl.
  destruct (length_11_inv raw Hl)
    as (r0 & r1 & r2 & r3 & r4 & r5 & r6 & r7 & r8 & r9 & r10 & ->).
  set (rs := [r0; r1; r2; r3; r4; r5; r6; r7; r8; r9]).
  change [r0; r1; r2; r3; r4; r5; r6; r7; r8; r9; r10] with (rs ++ [r10]) in *.
  set (d0 := dec_of s).
  assert (Hd0 : d_State d0 = 0) by exact H0.
  assert (Hw0 : length (d_w d0) = 14%nat) by exact Hlen.
  replace (RFID_Decode_stream bc (rs ++ [r10]) s)
    with (RFID_Decode_stream bc (rs ++ [r10]) (with_dec d0 s))
    by (unfold d0; rewrite with_dec_of; reflexivity).
  rewrite RFID_Decode_stream_app.
  rewrite (RFID_Decode_stream_LR_advance bc rs d0 s Ht); try assumption; try lia.
  2:{ rewrite Hd0. cbn [length rs]. lia. }
  2:{ intros _ r Hr. cbn [rs lookup] in Hr. injection Hr as <-.
      cbn [data_bits map app rs lookup] in Hpre. injection Hpre as Hpre.
      exact Hpre. }
  cbn [bind RFID_Decode_stream].
  set (d10 := dec_LR_run rs d0).
  assert (Hs10 : d_State d10 = 10).
  { unfold d10. rewrite dec_LR_run_State, Hd0. reflexivity. }
  assert (Hw10 : length (d_w d10) = 14%nat).
  { unfold d10. rewrite dec_LR_run_length. exact Hw0. }
  assert (Hst : forall i : nat, (i < 10)%nat ->
            d_w d10 !! i = data_bits (rs ++ [r10]) !! i).
  { intros i Hi.
    pose proof (dec_LR_run_stored rs d0 i) as Hst.
    rewrite Hd0 in Hst. change (Z.to_nat 0 + i)%nat with i in Hst.
    fold d10 in Hst. rewrite Hst.
    - unfold data_bits. rewrite !list_lookup_fmap.
      rewrite lookup_app_l by (cbn [length rs]; lia). reflexivity.
    - lia.
    - rewrite Hw0. cbn [length rs]. lia.
    - cbn [length rs]. lia. }
  assert (Hfin : forall k, 0 <= k <= 10 ->
            nth_Z 0 (d_w (dec_last r10 d10)) k = nth_Z 0 (data_bits (rs ++ [r10])) k).
  { intros k Hk. apply nth_Z_lookup; [lia|].
    cbn [dec_last d_w]. rewrite Hs10. unfold upd_Z.
    change (10 <? 0) with false. cbv iota.
    destruct (Z.eq_dec k 10) as [->|Hne].
    - rewrite list_lookup_insert_eq by (rewrite Hw10; cbn; lia). reflexivity.
    - rewrite list_lookup_insert_ne by lia. apply Hst. lia. }
  assert (Hc10 : d_crc d10 = LR_recv_crc (d_w (dec_last r10 d10))).
  { unfold LR_recv_crc. rewrite !Hfin by lia.
    unfold d10, rs. rewrite dec_LR_run_crc by exact Hd0.
    symmetry. exact Hsum. }
  rewrite RFID_Decode_LR_last by assumption.
  rewrite Hc10, Z.eqb_refl. cbn [bind].
  exists (dec_last r10 d10). split; [reflexivity|].
  split; [cbn [dec_last d_w]; rewrite length_upd_Z; exact Hw10|].
  rewrite <- hex_id_id_bytes. apply hex_id_ext. intros k Hk.
  apply Hfin. lia.
Qed.

End LongRange.

Section Decoder.
Variable bc : Build.

(** The remaining ways to restart the state machine: a Long Range frame that
    does not start with 'T', a position behind a Long Range frame, an
    unknown reader type. *)
Lemma RFID_Decode_restart r d s :
  let type := RFID_Type (l_pRFID_Cfg (rfid s)) in
  0 <= d_State d <= 13 ->
  length (d_w d) = 14%nat ->
  (type = RFID_TYPE_LR /\
   ((d_State d = 0 /\ Z.land r 0xFF <> 0x54) \/ 11 <= d_State d))
  \/ (type <> RFID_TYPE_SR /\ type <> RFID_TYPE_LR) ->
  exists s', RFID_Decode bc r (with_dec d s) = Ok s' /\ l_State (rfid s') = 0
             /\ length (w (rfid s')) = 14%nat /\ trace (hw s') = trace (hw s)
             /\ l_pRFID_Cfg (rfid s') = l_pRFID_Cfg (rfid s).
Proof.
  intros type Hk Hlen Hc. unfold RFID_Decode.
  rewrite count_errors_with_dec.
  destruct d as [k x wv c f p].
  cbn [d_State d_w d_xorsum d_crc d_FERR d_PERR] in *.
  unfold store_w. ssimpl.
  assert (HL : Z.of_nat (length wv) = 14) by lia. rewrite HL.
  replace ((0 <=? k) && (k <? 14)) with true
    by (symmetry; apply andb_true_iff; split; [apply Z.leb_le|apply Z.ltb_lt]; lia).
  ssimpl. fold type.
  destruct Hc as [[Ht Hc]|[Hn1 Hn2]].
  - rewrite Ht.
    change (RFID_TYPE_LR =? RFID_TYPE_SR) with false.
    change (RFID_TYPE_LR =? RFID_TYPE_LR) with true. cbv iota.
    unfold decode_LR. ssimpl.
    destruct Hc as [[-> Hb]|Hge].
    + change (0 =? 0) with true. cbv iota.
      apply Z.eqb_neq in Hb. rewrite Hb. cbn [negb].
      eexists; split; [reflexivity|]; ssimpl; rewrite ?length_upd_Z; repeat split; auto.
    + assert (H : k = 11 \/ k = 12 \/ k = 13) by lia.
      destruct H as [->|[->| ->]];
        (eexists; split; [reflexivity|]; ssimpl; rewrite ?length_upd_Z; repeat split; auto).
  - apply Z.eqb_neq in Hn1, Hn2. rewrite Hn1, Hn2.
    eexists; split; [reflexivity|]; ssimpl; rewrite ?length_upd_Z; repeat split; auto.
Qed.

(** RFID_Decode() never leaves defined behaviour from a position inside the
    buffer, and the next position is a function of reader type, position and
    byte. *)
Lemma RFID_Decode_next_State r s :
  0 <= l_State (rfid s) <= 13 ->
  length (w (rfid s)) = 14%nat ->
  exists s',
    RFID_Decode bc r s = Ok s' /\
    l_State (rfid s')
    = next_l_State (RFID_Type (l_pRFID_Cfg (rfid s))) (l_State (rfid s))
                   (Z.land r 0xFF) /\
    length (w (rfid s')) = 14%nat /\
    l_pRFID_Cfg (rfid s') = l_pRFID_Cfg (rfid s).
Proof.
  intros Hk Hlen.
  rewrite <- (with_dec_of s).
  set (d := dec_of s).
  assert (Hkd : 0 <= d_State d <= 13) by exact Hk.
  assert (Hld : length (d_w d) = 14%nat) by exact Hlen.
  change (l_State (rfid (with_dec d s))) with (d_State d).
  change (l_pRFID_Cfg (rfid (with_dec d s))) with (l_pRFID_Cfg (rfid s)).
  clearbody d. clear Hk Hlen.
  set (type := RFID_Type (l_pRFID_Cfg (rfid s))).
  set (b := Z.land r 0xFF).
  assert (Hrecv : forall d',
            length (d_w d') = 14%nat ->
            l_State (rfid (ID_received bc (with_dec d' s))) = 0 /\
            length (w (rfid (ID_received bc (with_dec d' s)))) = 14%nat /\
            l_pRFID_Cfg (rfid (ID_received bc (with_dec d' s)))
            = l_pRFID_Cfg (rfid s)).
  { intros d' Hl'.
    destruct (ID_received_spec bc (with_dec d' s))
      as (_ & E0 & _ & _ & _ & _ & Ew & _ & _ & Ec & _).
    rewrite E0, Ew, Ec. repeat split. exact Hl'. }
  assert (Hlast : length (d_w (dec_last r d)) = 14%nat)
    by (cbn [dec_last d_w]; rewrite length_upd_Z; exact Hld).
  unfold next_l_State.
  destruct (Z.eqb_spec type RFID_TYPE_SR) as [Hsr|Hnsr].
  - (* Short Range *)
    destruct (Z.leb_spec (d_State d) 4) as [Hpre|Hpay].
    + replace ((0 <=? d_State d) && true) with true
        by (symmetry; apply andb_true_iff; split; [apply Z.leb_le; lia|reflexivity]).
      destruct (Z.eqb_spec b (nth_Z 0 v_prefix (d_State d))) as [Hm|Hm].
      * rewrite RFID_Decode_SR_advance by (try assumption; try lia; auto).
        eexists. split; [reflexivity|]. ssimpl.
        cbn [dec_SR_step d_State d_w]. rewrite length_upd_Z. auto.
      * destruct (RFID_Decode_SR_violation bc r d s Hsr ltac:(lia) Hld Hm)
          as (s' & E & E0 & El & _ & Ec).
        exists s'. auto.
    + rewrite andb_false_r.
      destruct (Z.leb_spec (d_State d) 12) as [Hle|Hgt].
      * replace (5 <=? d_State d) with true by (symmetry; apply Z.leb_le; lia).
        cbn [andb].
        rewrite RFID_Decode_SR_advance by (try assumption; try lia).
        eexists. split; [reflexivity|]. ssimpl.
        cbn [dec_SR_step d_State d_w]. rewrite length_upd_Z. auto.
      * rewrite andb_false_r.
        rewrite RFID_Decode_SR_last by (try assumption; lia).
        eexists. split; [reflexivity|].
        destruct (_ =? d_xorsum d); [apply Hrecv; exact Hlast|].
        ssimpl. auto.
  - destruct (Z.eqb_spec type RFID_TYPE_LR) as [Hlr|Hnlr].
    + (* Long Range *)
      destruct (Z.eqb_spec (d_State d) 0) as [H0|Hn0].
      * destruct (Z.eqb_spec b 0x54) as [Hm|Hm].
        -- rewrite RFID_Decode_LR_advance by (try assumption; try lia; auto).
           eexists. split; [reflexivity|]. ssimpl.
           cbn [dec_LR_step d_State d_w]. rewrite length_upd_Z, H0. auto.
        -- destruct (RFID_Decode_restart r d s Hkd Hld) as (s' & E & E0 & El & _ & Ec);
             [left; split; [exact Hlr|left; split; assumption]|].
           exists s'. auto.
      * destruct (Z.leb_spec (d_State d) 9) as [Hle|Hgt].
        -- replace (1 <=? d_State d) with true by (symmetry; apply Z.leb_le; lia).
           cbn [andb].
           rewrite RFID_Decode_LR_advance by (try assumption; try lia).
           eexists. split; [reflexivity|]. ssimpl.
           cbn [dec_LR_step d_State d_w]. rewrite length_upd_Z. auto.
        -- rewrite andb_false_r.
           destruct (Z.eq_dec (d_State d) 10) as [H10|Hn10].
           ++ rewrite RFID_Decode_LR_last by assumption.
              eexists. split; [reflexivity|].
              destruct (_ =? d_crc d); [apply Hrecv; exact Hlast|].
              ssimpl. auto.
           ++ destruct (RFID_Decode_restart r d s Hkd Hld)
                as (s' & E & E0 & El & _ & Ec);
                [left; split; [exact Hlr|right; lia]|].
              exists s'. auto.
    + destruct (RFID_Decode_restart r d s Hkd Hld) as (s' & E & E0 & El & _ & Ec);
        [right; split; assumption|].
      exists s'. auto.
Qed.

End Decoder.

(** ** The decoder: theorems *)

Lemma next_l_State_bounds type k b :
  0 <= k <= 13 -> 0 <= next_l_State type k b <= 13.
Proof.
  intros Hk. unfold next_l_State.
  repeat match goal with
         | |- context [if ?c then _ else _] => destruct c eqn:?
         end; lia.
Qed.

Lemma next_l_State_restarts type k b :
  restarts type k b -> next_l_State type k b = 0.
Proof.
  unfold restarts, next_l_State.
  intros [[-> [[Hk Hb]| ->]]|[[-> [[-> Hb]| ->]]|[H1 H2]]].
  - change (RFID_TYPE_SR =? RFID_TYPE_SR) with true. cbv iota.
    replace ((0 <=? k) && (k <=? 4)) with true
      by (symmetry; apply andb_true_iff; split; apply Z.leb_le; lia).
    apply Z.eqb_neq in Hb. rewrite Hb. reflexivity.
  - reflexivity.
  - change (RFID_TYPE_LR =? RFID_TYPE_SR) with false.
    change (RFID_TYPE_LR =? RFID_TYPE_LR) with true. cbv iota.
    change (0 =? 0) with true. cbv iota.
    apply Z.eqb_neq in Hb. rewrite Hb. reflexivity.
  - reflexivity.
  - apply Z.eqb_neq in H1, H2. rewrite H1, H2. reflexivity.
Qed.

Section DecoderTheorems.
Variable bc : Build.

(** Every prefix of a stream of words is decoded without leaving the
    buffer. *)
Lemma RFID_Decode_stream_bounds (raw : list Z) (s : State) :
  0 <= l_State (rfid s) <= 13 ->
  length (w (rfid s)) = 14%nat ->
  exists s', RFID_Decode_stream bc raw s = Ok s' /\
             0 <= l_State (rfid s') <= 13 /\ length (w (rfid s')) = 14%nat /\
             l_pRFID_Cfg (rfid s') = l_pRFID_Cfg (rfid s).
Proof.
  revert s. induction raw as [|r raw IH]; intros s Hk Hlen.
  - exists s. auto.
  - destruct (RFID_Decode_next_State bc r s Hk Hlen) as (s1 & E & E1 & El & Ec).
    destruct (IH s1) as (s2 & E' & Hk2 & Hl2 & Ec2).
    + rewrite E1. apply next_l_State_bounds. exact Hk.
    + exact El.
    + exists s2. cbn [RFID_Decode_stream]. rewrite E. cbn [bind].
      rewrite Ec2, Ec. auto.
Qed.

(** C10: whatever words arrive and whatever reader type is configured, the
    index [l_State] is between 0 and 13 whenever a byte is stored into the
    14 bytes of [w], so that RFID_Decode() never stores out of bounds; a
    prefix violation, the end of a frame (complete or with a wrong checksum or
    CRC) and an unknown reader type reset [l_State] to 0. *)
Theorem C10_decoder_index_stays_in_buffer (raw : list Z) (s : State) :
  0 <= l_State (rfid s) <= 13 ->
  length (w (rfid s)) = 14%nat ->
  (forall pre post, raw = pre ++ post ->
     exists s', RFID_Decode_stream bc pre s = Ok s' /\
                0 <= l_State (rfid s') <= 13 /\
                length (w (rfid s')) = 14%nat) /\
  (forall r, exists s',
     RFID_Decode bc r s = Ok s' /\
     0 <= l_State (rfid s') <= 13 /\
     (restarts (RFID_Type (l_pRFID_Cfg (rfid s))) (l_State (rfid s))
               (Z.land r 0xFF) ->
      l_State (rfid s') = 0)).
Proof.
  intros Hk Hlen. split.
  - intros pre post _.
    destruct (RFID_Decode_stream_bounds pre s Hk Hlen) as (s' & E & Hk' & Hl' & _).
    exists s'. auto.
  - intros r.
    destruct (RFID_Decode_next_State bc r s Hk Hlen) as (s' & E & E1 & _).
    exists s'. split; [exact E|]. rewrite E1. split.
    + apply next_l_State_bounds. exact Hk.
    + apply next_l_State_restarts.
Qed.

(** A frame that the configured reader accepts, received in the idle state
    of the decoder, ends in the generic part of the routine. *)
Lemma frame_received (raw : list Z) (s : State) :
  valid_frame (RFID_Type (l_pRFID_Cfg (rfid s))) (data_bits raw) ->
  l_State (rfid s) = 0 ->
  length (w (rfid s)) = 14%nat ->
  exists d,
    RFID_Decode_stream bc raw s = Ok (ID_received bc (with_dec d s)) /\
    length (d_w d) = 14%nat /\
    hex_id (d_w d) = hex_string (id_bytes (data_bits raw)).
Proof.
  intros [[Ht Hwf]|[Ht Hwf]] H0 Hlen.
  - apply SR_frame_received; assumption.
  - apply LR_frame_received; assumption.
Qed.

(** The effect of one accepted frame. *)
Lemma frame_effect (raw : list Z) (s : State) :
  let id := hex_string (id_bytes (data_bits raw)) in
  let timeout := g_RFID_AbsentDetectTimeout (rfid s) in
  let hdl := l_hdlRFID_AbsentDetect (rfid s) in
  valid_frame (RFID_Type (l_pRFID_Cfg (rfid s))) (data_bits raw) ->
  l_State (rfid s) = 0 ->
  length (w (rfid s)) = 14%nat ->
  exists s',
    RFID_Decode_stream bc raw s = Ok s' /\
    l_State (rfid s') = 0 /\
    length (w (rfid s')) = 14%nat /\
    l_pRFID_Cfg (rfid s') = l_pRFID_Cfg (rfid s) /\
    g_RFID_AbsentDetectTimeout (rfid s') = timeout /\
    l_hdlRFID_AbsentDetect (rfid s') = hdl /\
    (forall h, valid_hdl h s' = valid_hdl h s) /\
    g_Transponder (rfid s') = (if is_fresh id s then id else g_Transponder (rfid s)) /\
    l_flgNewRun (rfid s') = false /\
    l_flgNewID (rfid s') = is_fresh id s || l_flgNewID (rfid s) /\
    count_events is_NewID (trace (hw s'))
    = (count_events is_NewID (trace (hw s)) + (if is_fresh id s then 1 else 0))%nat /\
    (0 < timeout ->
     last_event s' = Some (EvTimerStart hdl timeout) /\
     (count_events (is_TimerStart hdl timeout) (trace (hw s'))
      > count_events (is_TimerStart hdl timeout) (trace (hw s)))%nat /\
     (valid_hdl hdl s = true -> countdown hdl s' = Some timeout)).
Proof.
  intros id timeout hdl Hv H0 Hlen.
  destruct (frame_received raw s Hv H0 Hlen) as (d & E & Hl & Hid).
  exists (ID_received bc (with_dec d s)). split; [exact E|].
  destruct (ID_received_spec bc (with_dec d s))
    as (_ & E0 & Et & En & Ei & Ec & Ew & Eto & Eh & Ecfg & Ev & Etm).
  ssimpl_in Et. ssimpl_in Ei. ssimpl_in Ec. ssimpl_in Ew. ssimpl_in Eto.
  ssimpl_in Eh. ssimpl_in Ecfg. ssimpl_in Etm.
  rewrite Hid in Et, Ei, Ec.
  change (is_fresh (hex_string (id_bytes (data_bits raw))) (with_dec d s))
    with (is_fresh id s) in Et, Ei, Ec.
  repeat split; try assumption.
  - rewrite Ew. exact Hl.
  - apply Etm. assumption.
  - apply Etm. assumption.
  - apply Etm; assumption.
Qed.

End DecoderTheorems.

Section FrameTheorems.
Variable bc : Build.

(** X26: a well-formed Short Range frame, received from decoder state 0 with
    a new scanning run marked, raises exactly one new-ID notification, stores
    in [g_Transponder] the 16 upper-case hexadecimal digits of the buffer
    bytes w[8] down to w[1] (of the frame, not of its payload: w[4] down to
    w[1] are bytes of the prefix), and leaves the decoder in state 0. *)
Theorem short_range_frame_decoded (raw : list Z) (s : State) :
  l_State (rfid s) = 0 ->
  l_flgNewRun (rfid s) = true ->
  RFID_Type (l_pRFID_Cfg (rfid s)) = RFID_TYPE_SR ->
  length (w (rfid s)) = 14%nat ->
  well_formed_SR (data_bits raw) ->
  exists s',
    RFID_Decode_stream bc raw s = Ok s' /\
    count_events is_NewID (trace (hw s'))
    = S (count_events is_NewID (trace (hw s))) /\
    l_flgNewID (rfid s') = true /\
    g_Transponder (rfid s') = hex_string (id_bytes (data_bits raw)) /\
    String.length (g_Transponder (rfid s')) = 16%nat /\
    parse_hex (g_Transponder (rfid s')) = Some (id_bytes (data_bits raw)) /\
    l_State (rfid s') = 0.
Proof.
  intros H0 Hrun Ht Hlen Hwf.
  destruct (frame_effect bc raw s) as
    (s' & E & E0 & _ & _ & _ & _ & _ & Eid & _ & Enew & Ecnt & _);
    [left; split; assumption|assumption|assumption|].
  assert (Hf : is_fresh (hex_string (id_bytes (data_bits raw))) s = true)
    by (unfold is_fresh; rewrite Hrun; reflexivity).
  rewrite Hf in Eid, Enew, Ecnt.
  exists s'. rewrite Eid.
  split; [exact E|]. split; [rewrite Ecnt; lia|]. split; [exact Enew|].
  split; [reflexivity|]. split; [rewrite length_hex_string; reflexivity|].
  split; [|exact E0].
  apply parse_hex_hex_string. apply id_bytes_range.
Qed.

(** The number of notifications two consecutive copies of a frame raise. *)
Lemma repeated_frame_effect (raw : list Z) (s : State) :
  let id := hex_string (id_bytes (data_bits raw)) in
  let timeout := g_RFID_AbsentDetectTimeout (rfid s) in
  let hdl := l_hdlRFID_AbsentDetect (rfid s) in
  valid_frame (RFID_Type (l_pRFID_Cfg (rfid s))) (data_bits raw) ->
  l_State (rfid s) = 0 ->
  length (w (rfid s)) = 14%nat ->
  exists s1 s2,
    RFID_Decode_stream bc raw s = Ok s1 /\
    RFID_Decode_stream bc raw s1 = Ok s2 /\
    count_events is_NewID (trace (hw s1))
    = (count_events is_NewID (trace (hw s)) + (if is_fresh id s then 1 else 0))%nat /\
    count_events is_NewID (trace (hw s2)) = count_events is_NewID (trace (hw s1)) /\
    g_Transponder (rfid s1) = id /\
    g_Transponder (rfid s2) = id /\
    (0 < timeout ->
     last_event s1 = Some (EvTimerStart hdl timeout) /\
     last_event s2 = Some (EvTimerStart hdl timeout) /\
     (count_events (is_TimerStart hdl timeout) (trace (hw s2))
      >= count_events (is_TimerStart hdl timeout) (trace (hw s)) + 2)%nat /\
     (valid_hdl hdl s = true ->
      countdown hdl s1 = Some timeout /\ countdown hdl s2 = Some timeout)).
Proof.
  intros id timeout hdl Hv H0 Hlen.
  destruct (frame_effect bc raw s Hv H0 Hlen) as
    (s1 & E1 & E10 & E1l & E1c & E1t & E1h & E1v & E1id & E1run & _ & E1cnt & E1tm).
  fold id timeout hdl in E1t, E1h, E1id, E1cnt, E1tm.
  assert (Hid1 : g_Transponder (rfid s1) = id).
  { rewrite E1id. unfold is_fresh.
    destruct (l_flgNewRun (rfid s)); [reflexivity|]. cbn [orb].
    destruct (String.eqb_spec id (g_Transponder (rfid s))) as [e|n];
      [symmetry; exact e|reflexivity]. }
  assert (Hv1 : valid_frame (RFID_Type (l_pRFID_Cfg (rfid s1))) (data_bits raw))
    by (rewrite E1c; exact Hv).
  destruct (frame_effect bc raw s1 Hv1 E10 E1l) as
    (s2 & E2 & _ & _ & _ & _ & _ & E2v & E2id & _ & _ & E2cnt & E2tm).
  fold id in E2id, E2cnt. rewrite E1t, E1h in E2tm.
  assert (Hstale : is_fresh id s1 = false).
  { unfold is_fresh. rewrite E1run, Hid1, String.eqb_refl. reflexivity. }
  rewrite Hstale in E2id, E2cnt.
  exists s1, s2. repeat split; try assumption.
  - rewrite E2cnt. lia.
  - rewrite E2id. exact Hid1.
  - apply E1tm. assumption.
  - apply E2tm. assumption.
  - destruct (E1tm H) as (_ & C1 & _). destruct (E2tm H) as (_ & C2 & _). lia.
  - apply E1tm; assumption.
  - apply E2tm; [assumption|]. rewrite E1v. assumption.
Qed.

(** C5: when the same valid frame arrives twice in a row and no new run is
    marked in between, the first copy being a new detection, one new-ID
    notification is raised in total; with an absence timeout greater than 0
    the absence timer is restarted by both copies. *)
Theorem C5_repeated_frame_notifies_once (raw : list Z) (s : State) :
  let id := hex_string (id_bytes (data_bits raw)) in
  let timeout := g_RFID_AbsentDetectTimeout (rfid s) in
  let hdl := l_hdlRFID_AbsentDetect (rfid s) in
  valid_frame (RFID_Type (l_pRFID_Cfg (rfid s))) (data_bits raw) ->
  l_State (rfid s) = 0 ->
  length (w (rfid s)) = 14%nat ->
  is_fresh id s = true ->
  exists s1 s2,
    RFID_Decode_stream bc raw s = Ok s1 /\
    RFID_Decode_stream bc raw s1 = Ok s2 /\
    RFID_Decode_stream bc (raw ++ raw) s = Ok s2 /\
    count_events is_NewID (trace (hw s1))
    = S (count_events is_NewID (trace (hw s))) /\
    count_events is_NewID (trace (hw s2))
    = S (count_events is_NewID (trace (hw s))) /\
    (0 < timeout ->
     last_event s1 = Some (EvTimerStart hdl timeout) /\
     last_event s2 = Some (EvTimerStart hdl timeout) /\
     (count_events (is_TimerStart hdl timeout) (trace (hw s2))
      >= count_events (is_TimerStart hdl timeout) (trace (hw s)) + 2)%nat /\
     (valid_hdl hdl s = true ->
      countdown hdl s1 = Some timeout /\ countdown hdl s2 = Some timeout)).
Proof.
  intros id timeout hdl Hv H0 Hlen Hfresh.
  destruct (repeated_frame_effect raw s Hv H0 Hlen) as
    (s1 & s2 & E1 & E2 & C1 & C2 & _ & _ & Htm).
  fold id in C1. rewrite Hfresh in C1.
  exists s1, s2. repeat split; try assumption.
  - rewrite RFID_Decode_stream_app, E1. exact E2.
  - rewrite C1. lia.
  - rewrite C2, C1. lia.
  - apply Htm. assumption.
  - apply Htm. assumption.
  - apply Htm. assumption.
  - apply Htm; assumption.
  - apply Htm; assumption.
Qed.

End FrameTheorems.

(** The frames of the samples are well formed. *)
Lemma frame_SR_well_formed : well_formed_SR (data_bits frame_SR).
Proof. repeat split. Qed.

Lemma short_range_frame_decoded_witness :
  exists s',
    RFID_Decode_stream build_alarm frame_SR s_newrun = Ok s' /\
    count_events is_NewID (trace (hw s'))
    = S (count_events is_NewID (trace (hw s_newrun))) /\
    l_flgNewID (rfid s') = true /\
    g_Transponder (rfid s') = hex_string (id_bytes (data_bits frame_SR)) /\
    String.length (g_Transponder (rfid s')) = 16%nat /\
    parse_hex (g_Transponder (rfid s')) = Some (id_bytes (data_bits frame_SR)) /\
    l_State (rfid s') = 0.
Proof.
  apply (short_range_frame_decoded build_alarm frame_SR s_newrun);
    [reflexivity|reflexivity|reflexivity|reflexivity|exact frame_SR_well_formed].
Defined.

Lemma C5_witness :
  exists s1 s2,
    RFID_Decode_stream build_alarm frame_SR s_newrun = Ok s1 /\
    RFID_Decode_stream build_alarm frame_SR s1 = Ok s2 /\
    RFID_Decode_stream build_alarm (frame_SR ++ frame_SR) s_newrun = Ok s2 /\
    count_events is_NewID (trace (hw s1))
    = S (count_events is_NewID (trace (hw s_newrun))) /\
    count_events is_NewID (trace (hw s2))
    = S (count_events is_NewID (trace (hw s_newrun))) /\
    (0 < 5 ->
     last_event s1 = Some (EvTimerStart 8 5) /\
     last_event s2 = Some (EvTimerStart 8 5) /\
     (count_events (is_TimerStart 8 5) (trace (hw s2))
      >= count_events (is_TimerStart 8 5) (trace (hw s_newrun)) + 2)%nat /\
     (valid_hdl 8 s_newrun = true ->
      countdown 8 s1 = Some 5 /\ countdown 8 s2 = Some 5)).
Proof.
  apply (C5_repeated_frame_notifies_once build_alarm frame_SR s_newrun);
    [left; split; [reflexivity|exact frame_SR_well_formed]
    |reflexivity|reflexivity|reflexivity].
Defined.

Lemma C10_witness :
  (forall pre post, frame_SR = pre ++ post ->
     exists s', RFID_Decode_stream build_alarm pre s_idle = Ok s' /\
                0 <= l_State (rfid s') <= 13 /\
                length (w (rfid s')) = 14%nat) /\
  (forall r, exists s',
     RFID_Decode build_alarm r s_idle = Ok s' /\
     0 <= l_State (rfid s') <= 13 /\
     (restarts (RFID_Type (l_pRFID_Cfg (rfid s_idle))) (l_State (rfid s_idle))
               (Z.land r 0xFF) ->
      l_State (rfid s') = 0)).
Proof.
  apply (C10_decoder_index_stays_in_buffer build_alarm frame_SR s_idle);
    [cbn; lia|reflexivity].
Defined.

(** ** AlarmPowerControl(): which output, which direction *)

Section Alarms.
Variable bc : Build.

Ltac decide_geb :=
  repeat match goal with
         | |- context [?a >=? ?b] =>
             rewrite (Z.geb_leb a b);
             destruct (Z.leb_spec b a); try (exfalso; lia)
         end.

Lemma alarm_target_arith (alarmNum : Z) :
  FIRST_POWER_ALARM bc <= alarmNum <= LAST_POWER_ALARM bc ->
  alarm_pwrOut bc alarmNum = ((alarmNum - FIRST_POWER_ALARM bc) / 5) mod 3 /\
  alarm_pwrState bc alarmNum
  = negb (15 <=? alarmNum - FIRST_POWER_ALARM bc).
Proof.
  unfold LAST_POWER_ALARM. intros H.
  set (k := alarmNum - FIRST_POWER_ALARM bc).
  assert (Hk : 0 <= k < 30) by (unfold k; lia).
  assert (Ha : alarmNum = FIRST_POWER_ALARM bc + k) by (unfold k; lia).
  clearbody k. subst alarmNum.
  unfold alarm_pwrOut, alarm_pwrState, ALARM_BATT_OFF_TIME_1,
    ALARM_UA2_OFF_TIME_1, ALARM_UA1_OFF_TIME_1, ALARM_BATT_ON_TIME_1,
    ALARM_UA2_ON_TIME_1, PWR_OUT_BATT, PWR_OUT_UA2, PWR_OUT_UA1, PWR_OFF, PWR_ON.
  assert (Hq : k / 5 = 0 /\ k < 5 \/ k / 5 = 1 /\ 5 <= k < 10 \/
               k / 5 = 2 /\ 10 <= k < 15 \/ k / 5 = 3 /\ 15 <= k < 20 \/
               k / 5 = 4 /\ 20 <= k < 25 \/ k / 5 = 5 /\ 25 <= k).
  { pose proof (Z.div_mod k 5 ltac:(lia)).
    pose proof (Z.mod_pos_bound k 5 ltac:(lia)). lia. }
  destruct (Z.leb_spec 15 k);
    destruct Hq as [[-> ?]|[[-> ?]|[[-> ?]|[[-> ?]|[[-> ?]|[-> ?]]]]]];
    try (exfalso; lia); decide_geb; split; reflexivity.
Qed.

(** C8: for every id of the thirty power alarms AlarmPowerControl() derives
    the direction OFF exactly from the first OFF id of UA1 on, and the power
    output whose group of five ids contains the id: the pair that the entry
    of [l_CfgVarList] with the index of the alarm names. *)
Theorem C8_alarm_attribution (alarmNum : Z) :
  FIRST_POWER_ALARM bc <= alarmNum <= LAST_POWER_ALARM bc ->
  (alarm_pwrState bc alarmNum = PWR_OFF <-> ALARM_UA1_OFF_TIME_1 bc <= alarmNum) /\
  alarm_pwrOut bc alarmNum = ((alarmNum - FIRST_POWER_ALARM bc) / 5) mod 3 /\
  exists name,
    l_CfgVarList_times !! Z.to_nat (alarmNum - FIRST_POWER_ALARM bc) = Some name /\
    time_var_target name
    = Some (alarm_pwrOut bc alarmNum, alarm_pwrState bc alarmNum).
Proof.
  intros H. destruct (alarm_target_arith alarmNum H) as [Ho Hs].
  split; [|split; [exact Ho|]].
  - rewrite Hs. unfold ALARM_UA1_OFF_TIME_1, PWR_OFF.
    destruct (Z.leb_spec 15 (alarmNum - FIRST_POWER_ALARM bc)); cbn [negb];
      split; intros; try lia; try discriminate; reflexivity.
  - rewrite Ho, Hs. unfold LAST_POWER_ALARM in H.
    set (k := alarmNum - FIRST_POWER_ALARM bc).
    assert (Hk : 0 <= k < 30) by (unfold k; lia). clearbody k.
    assert (Hc : exists n : nat, (n < 30)%nat /\ k = Z.of_nat n)
      by (exists (Z.to_nat k); lia).
    destruct Hc as (n & Hn & ->). rewrite Nat2Z.id.
    do 30 (destruct n as [|n]; [eexists; split; reflexivity|]).
    lia.
Qed.

End Alarms.

Lemma C8_witness :
  (alarm_pwrState build_alarm 25 = PWR_OFF <-> ALARM_UA1_OFF_TIME_1 build_alarm <= 25) /\
  alarm_pwrOut build_alarm 25 = ((25 - FIRST_POWER_ALARM build_alarm) / 5) mod 3 /\
  exists name,
    l_CfgVarList_times !! Z.to_nat (25 - FIRST_POWER_ALARM build_alarm) = Some name /\
    time_var_target name
    = Some (alarm_pwrOut build_alarm 25, alarm_pwrState build_alarm 25).
Proof.
  apply (C8_alarm_attribution build_alarm 25).
  unfold LAST_POWER_ALARM, ALARM_BATT_OFF_TIME_1. simpl. lia.
Defined.

(** ** VerifyConfiguration() *)

Lemma nth_upd_Z_other {A} (d : A) (l : list A) (i j : Z) (v : A) :
  i <> j -> nth_Z d (upd_Z l i v) j = nth_Z d l j.
Proof. intros. apply nth_upd_Z_ne. congruence. Qed.

Lemma verify_rail_other (i j : Z) (s : State) :
  i <> j ->
  nth_Z 0 (g_PwrInterval (ctrl (verify_rail j s))) i
  = nth_Z 0 (g_PwrInterval (ctrl s)) i /\
  nth_Z 0 (g_On_Duration (ctrl (verify_rail j s))) i
  = nth_Z 0 (g_On_Duration (ctrl s)) i /\
  cfg_warnings i (verify_rail j s) = cfg_warnings i s /\
  length (g_PwrInterval (ctrl (verify_rail j s))) = length (g_PwrInterval (ctrl s)) /\
  length (g_On_Duration (ctrl (verify_rail j s))) = length (g_On_Duration (ctrl s)).
Proof.
  intros Hij. unfold verify_rail, cfg_warnings, LogError.
  assert (Hb : (j =? i) = false) by lia.
  repeat match goal with
         | |- context [if ?c then _ else _] => destruct c
         end;
    ssimpl; cbn [count_events is_CfgWarning]; rewrite ?Hb, ?length_upd_Z;
    rewrite ?nth_upd_Z_other by congruence; auto.
Qed.

Lemma verify_rail_same (i : Z) (s : State) :
  0 <= i < Z.of_nat (length (g_PwrInterval (ctrl s))) ->
  0 <= i < Z.of_nat (length (g_On_Duration (ctrl s))) ->
  let interval := nth_Z 0 (g_PwrInterval (ctrl s)) i in
  let duration := nth_Z 0 (g_On_Duration (ctrl s)) i in
  let s' := verify_rail i s in
  length (g_PwrInterval (ctrl s')) = length (g_PwrInterval (ctrl s)) /\
  length (g_On_Duration (ctrl s')) = length (g_On_Duration (ctrl s)) /\
  (cycling_accepted interval duration ->
   nth_Z 0 (g_PwrInterval (ctrl s')) i = interval /\
   nth_Z 0 (g_On_Duration (ctrl s')) i = duration /\
   cfg_warnings i s' = cfg_warnings i s) /\
  (~ cycling_accepted interval duration ->
   nth_Z 0 (g_PwrInterval (ctrl s')) i = -1 /\
   nth_Z 0 (g_On_Duration (ctrl s')) i = -1 /\
   cfg_warnings i s' = S (cfg_warnings i s)).
Proof.
  intros Hi Hd. cbv zeta.
  unfold verify_rail, cfg_warnings, LogError, cycling_accepted,
    MIN_VAL_INTERVAL, MIN_VAL_ON_DURATION, MIN_VAL_OFF_DURATION.
  set (interval := nth_Z 0 (g_PwrInterval (ctrl s)) i).
  set (duration := nth_Z 0 (g_On_Duration (ctrl s)) i).
  assert (Hb : (i =? i) = true) by lia.
  destruct (Z.leb_spec interval 0);
    [|destruct (Z.ltb_spec interval 10);
      [|destruct (Z.ltb_spec duration 5);
        [|destruct (Z.ltb_spec (interval - duration) 5)]]];
    ssimpl; cbn [count_events is_CfgWarning]; rewrite ?Hb, ?length_upd_Z;
    rewrite ?nth_upd_Z_eq by (ssimpl; rewrite ?length_upd_Z; lia);
    (split; [reflexivity|split; [reflexivity|]]);
    (split; intros Hc; [|try (exfalso; apply Hc; lia)]);
    try (exfalso; lia); auto.
Qed.

(** C7 (as the code has it): VerifyConfiguration() returns for every
    configuration; it leaves the cycling values of a power output alone, and
    logs no warning for it, exactly when the interval is zero or negative or
    interval, on duration and off duration reach their minimum values of 10,
    5 and 5 seconds; otherwise it logs one warning for the output and sets
    both its interval and its on duration to -1. *)
Theorem C7_verify_configuration (i : Z) (s : State) :
  0 <= i < 3 ->
  length (g_PwrInterval (ctrl s)) = 3%nat ->
  length (g_On_Duration (ctrl s)) = 3%nat ->
  let interval := nth_Z 0 (g_PwrInterval (ctrl s)) i in
  let duration := nth_Z 0 (g_On_Duration (ctrl s)) i in
  let s' := VerifyConfiguration s in
  (cycling_accepted interval duration ->
   nth_Z 0 (g_PwrInterval (ctrl s')) i = interval /\
   nth_Z 0 (g_On_Duration (ctrl s')) i = duration /\
   cfg_warnings i s' = cfg_warnings i s) /\
  (~ cycling_accepted interval duration ->
   nth_Z 0 (g_PwrInterval (ctrl s')) i = -1 /\
   nth_Z 0 (g_On_Duration (ctrl s')) i = -1 /\
   cfg_warnings i s' = S (cfg_warnings i s)).
Proof.
  intros Hi HI HD. cbv zeta.
  assert (Htail : forall t : State,
    nth_Z 0 (g_PwrInterval (ctrl (VerifyConfiguration s))) i
    = nth_Z 0 (g_PwrInterval (ctrl (foldl (fun s i => verify_rail i s) s [0; 1; 2]))) i /\
    nth_Z 0 (g_On_Duration (ctrl (VerifyConfiguration s))) i
    = nth_Z 0 (g_On_Duration (ctrl (foldl (fun s i => verify_rail i s) s [0; 1; 2]))) i /\
    cfg_warnings i (VerifyConfiguration s)
    = cfg_warnings i (foldl (fun s i => verify_rail i s) s [0; 1; 2])).
  { intros _. unfold VerifyConfiguration, cfg_warnings, LogError.
    repeat match goal with
           | |- context [if ?c then _ else _] => destruct c
           end; ssimpl; auto. }
  destruct (Htail s) as (-> & -> & ->). clear Htail.
  cbn [foldl].
  set (s0 := s) in *.
  set (s1 := verify_rail 0 s0).
  set (s2 := verify_rail 1 s1).
  set (s3 := verify_rail 2 s2).
  assert (H0 : i = 0 \/ i = 1 \/ i = 2) by lia.
  destruct H0 as [-> | [-> | ->]].
  - destruct (verify_rail_same 0 s0) as (L1 & L2 & A & R); [lia|lia|].
    destruct (verify_rail_other 0 1 s1) as (E1 & E2 & E3 & _); [lia|].
    destruct (verify_rail_other 0 2 s2) as (F1 & F2 & F3 & _); [lia|].
    fold s1 in A, R, E1, E2, E3 |- *. fold s2 in E1, E2, E3, F1, F2, F3 |- *.
    fold s3 in F1, F2, F3 |- *.
    rewrite F1, F2, F3, E1, E2, E3. split; assumption.
  - destruct (verify_rail_other 1 0 s0) as (E1 & E2 & E3 & L1 & L2); [lia|].
    fold s1 in E1, E2, E3, L1, L2.
    destruct (verify_rail_same 1 s1) as (_ & _ & A & R); [lia|lia|].
    destruct (verify_rail_other 1 2 s2) as (F1 & F2 & F3 & _); [lia|].
    fold s2 in A, R, F1, F2, F3 |- *. fold s3 in F1, F2, F3 |- *.
    rewrite F1, F2, F3. rewrite E1, E2, E3 in A, R. split; assumption.
  - destruct (verify_rail_other 2 0 s0) as (E1 & E2 & E3 & L1 & L2); [lia|].
    fold s1 in E1, E2, E3, L1, L2.
    destruct (verify_rail_other 2 1 s1) as (F1 & F2 & F3 & M1 & M2); [lia|].
    fold s2 in F1, F2, F3, M1, M2.
    destruct (verify_rail_same 2 s2) as (_ & _ & A & R); [lia|lia|].
    fold s3 in A, R |- *.
    rewrite F1, F2, F3, E1, E2, E3 in A, R. split; assumption.
Qed.

Lemma C7_witness :
  (cycling_accepted 7 5 ->
   nth_Z 0 (g_PwrInterval (ctrl (VerifyConfiguration s_short_interval))) 0 = 7 /\
   nth_Z 0 (g_On_Duration (ctrl (VerifyConfiguration s_short_interval))) 0 = 5 /\
   cfg_warnings 0 (VerifyConfiguration s_short_interval)
   = cfg_warnings 0 s_short_interval) /\
  (~ cycling_accepted 7 5 ->
   nth_Z 0 (g_PwrInterval (ctrl (VerifyConfiguration s_short_interval))) 0 = -1 /\
   nth_Z 0 (g_On_Duration (ctrl (VerifyConfiguration s_short_interval))) 0 = -1 /\
   cfg_warnings 0 (VerifyConfiguration s_short_interval)
   = S (cfg_warnings 0 s_short_interval)).
Proof.
  apply (C7_verify_configuration 0 s_short_interval);
    [lia | reflexivity | reflexivity].
Defined.

(** C7, counterexample to the acceptance test as the claim words it: for the
    interval -1, which is neither zero nor at least 10 seconds,
    VerifyConfiguration() logs no warning. *)
Lemma C7_counterexample :
  let interval := nth_Z 0 (g_PwrInterval (ctrl s_invalidated)) 0 in
  let duration := nth_Z 0 (g_On_Duration (ctrl s_invalidated)) 0 in
  ~ (interval = 0 \/
     (MIN_VAL_INTERVAL <= interval /\ MIN_VAL_ON_DURATION <= duration /\
      MIN_VAL_OFF_DURATION <= interval - duration)) /\
  trace (hw (VerifyConfiguration s_invalidated)) = trace (hw s_invalidated) /\
  cfg_warnings 0 (VerifyConfiguration s_invalidated) = cfg_warnings 0 s_invalidated.
Proof.
  cbv zeta. split; [|split; reflexivity].
  vm_compute. intros [H | [H _]]; [discriminate | apply H; reflexivity].
Qed.

(** ** One power output and its interval timer, seen through [view] *)








Section RailView.
Variable bc : Build.
Variables r h : Z.
Hypothesis Hh : 0 <= h.






End RailView.


(** ** Functions that leave the output and its interval timer alone *)





Ltac split_ifs :=
  repeat match goal with
         | |- context [if ?c then _ else _] => destruct c eqn:?
         end.

Section Others.
Variable bc : Build.
Variables r h : Z.



(** *** The RFID reader, supplied by another output *)







End Others.

(** ** The tick of the timers, seen from one cycled output *)

Section Tick.
Variable bc : Build.
Variables r h : Z.







End Tick.

Section Seconds.
Variable bc : Build.
Variables r h : Z.







End Seconds.

(** ** Power cycling *)



Section Cycle.
Variable bc : Build.
Variables r h : Z.




End Cycle.

Section CycleTheorem.
Variable bc : Build.


End CycleTheorem.



(** ** PowerOutput() *)

Lemma pwrPin_sTimerStart (h c : Z) (s : State) :
  pwrPin (hw (sTimerStart h c s)) = pwrPin (hw s).
Proof. unfold sTimerStart. cbv zeta. split_ifs; reflexivity. Qed.

Lemma pwrPin_sTimerCancel (h : Z) (s : State) :
  pwrPin (hw (sTimerCancel h s)) = pwrPin (hw s).
Proof. unfold sTimerCancel. cbv zeta. split_ifs; reflexivity. Qed.

Lemma powerFail_sTimerStart (h c : Z) (s : State) :
  powerFail (hw (sTimerStart h c s)) = powerFail (hw s).
Proof. unfold sTimerStart. cbv zeta. split_ifs; reflexivity. Qed.

Lemma powerFail_sTimerCancel (h : Z) (s : State) :
  powerFail (hw (sTimerCancel h s)) = powerFail (hw s).
Proof. unfold sTimerCancel. cbv zeta. split_ifs; reflexivity. Qed.

Ltac pins :=
  repeat (ssimpl;
          rewrite ?pwrPin_sTimerStart, ?pwrPin_sTimerCancel,
            ?powerFail_sTimerStart, ?powerFail_sTimerCancel).

Section PowerOutputs.
Variable bc : Build.

(** The pins after PowerOutput(): that of the output as requested, unless
    power fail refuses to switch it on; the others as before. *)
Lemma PowerOutput_pins (r : Z) (e : bool) (s : State) :
  0 <= r < NUM_PWR_OUT -> length (pwrPin (hw s)) = 3%nat ->
  pwrPin (hw (PowerOutput bc r e s))
  = if e && IsPowerFail s then pwrPin (hw s) else upd_Z (pwrPin (hw s)) r e.
Proof.
  intros Hr Hlen. unfold PowerOutput, IsPowerFail.
  destruct (e && powerFail (hw s)); [reflexivity|].
  destruct (Z.eqb_spec r PWR_OUT_NONE); [unfold PWR_OUT_NONE, NONE in *; lia|].
  destruct (Z.ltb_spec r 0); [lia|].
  destruct (Z.leb_spec NUM_PWR_OUT r); [lia|]. cbn [orb].
  destruct (Bool.eqb (nth_Z false (pwrPin (hw s)) r) e) eqn:Epin.
  - apply Bool.eqb_prop in Epin. rewrite <- Epin.
    unfold nth_Z, upd_Z. destruct (Z.ltb_spec r 0); [lia|].
    destruct (pwrPin (hw s) !! Z.to_nat r) eqn:El.
    + cbn. symmetry. apply list_insert_id. exact El.
    + apply lookup_ge_None in El. unfold NUM_PWR_OUT in *. lia.
  - unfold ifdef_LOGGING, Log, DisplayUpdate. cbv zeta. split_ifs; pins; reflexivity.
Qed.

Lemma PowerOutput_powerFail (r : Z) (e : bool) (s : State) :
  powerFail (hw (PowerOutput bc r e s)) = powerFail (hw s).
Proof.
  unfold PowerOutput, IsPowerFail, ifdef_LOGGING, Log, LogError, DisplayUpdate.
  cbv zeta. split_ifs; pins; reflexivity.
Qed.

Lemma PowerOutput_length (r : Z) (e : bool) (s : State) :
  length (pwrPin (hw (PowerOutput bc r e s))) = length (pwrPin (hw s)).
Proof.
  unfold PowerOutput, IsPowerFail, ifdef_LOGGING, Log, LogError, DisplayUpdate.
  cbv zeta. split_ifs; pins; rewrite ?length_upd_Z; reflexivity.
Qed.

(** Nothing happens when the output is in the requested state. *)
Lemma PowerOutput_same_state (r : Z) (e : bool) (s : State) :
  0 <= r < NUM_PWR_OUT -> nth_Z false (pwrPin (hw s)) r = e ->
  PowerOutput bc r e s = s.
Proof.
  intros Hr Hp. unfold PowerOutput.
  destruct (e && IsPowerFail s); [reflexivity|].
  destruct (r =? PWR_OUT_NONE); [reflexivity|].
  destruct (Z.ltb_spec r 0); [lia|].
  destruct (Z.leb_spec NUM_PWR_OUT r); [lia|]. cbn [orb].
  rewrite Hp, Bool.eqb_reflx. reflexivity.
Qed.

(** The last thing PowerOutput() does when it switches is to ask for an
    update of the display. *)
Lemma PowerOutput_switches (r : Z) (e : bool) (s : State) :
  0 <= r < NUM_PWR_OUT -> nth_Z false (pwrPin (hw s)) r = negb e ->
  e && IsPowerFail s = false ->
  last_event (PowerOutput bc r e s) = Some (EvDisplayUpdate UPD_POWERSTATUS).
Proof.
  intros Hr Hp Hpf. unfold PowerOutput. rewrite Hpf.
  destruct (Z.eqb_spec r PWR_OUT_NONE); [unfold PWR_OUT_NONE, NONE in *; lia|].
  destruct (Z.ltb_spec r 0); [lia|].
  destruct (Z.leb_spec NUM_PWR_OUT r); [lia|]. cbn [orb].
  rewrite Hp. destruct e; reflexivity.
Qed.

(** C2: while power fail is asserted PowerOutput(r, PWR_ON) returns the
    state it was given, for every [r]; PowerOutput(r, PWR_OFF) leaves the
    output off, having switched it (the request to update the display is its
    last event) if it was on, and a second PowerOutput(r, PWR_OFF) changes
    nothing. *)
Theorem C2_power_fail_guard (r : Z) (s : State) :
  IsPowerFail s = true ->
  PWR_OUT_NONE <= r < NUM_PWR_OUT ->
  length (pwrPin (hw s)) = 3%nat ->
  let s' := PowerOutput bc r PWR_OFF s in
  PowerOutput bc r PWR_ON s = s /\
  IsPowerOutputOn r s' = false /\
  (IsPowerOutputOn r s = true ->
   s' <> s /\ last_event s' = Some (EvDisplayUpdate UPD_POWERSTATUS)) /\
  PowerOutput bc r PWR_OFF s' = s'.
Proof.
  intros Hpf Hr Hlen. cbv zeta.
  split.
  { unfold PowerOutput. rewrite Hpf. reflexivity. }
  destruct (Z.eq_dec r PWR_OUT_NONE) as [->|Hne].
  { assert (E : PowerOutput bc PWR_OUT_NONE PWR_OFF s = s) by reflexivity.
    rewrite !E. split; [reflexivity|].
    split; [intros Habs; vm_compute in Habs; discriminate Habs | reflexivity]. }
  assert (Hr' : 0 <= r < NUM_PWR_OUT) by (unfold PWR_OUT_NONE, NONE in *; lia).
  assert (Hon : forall X, IsPowerOutputOn r X = nth_Z false (pwrPin (hw X)) r).
  { intros X. unfold IsPowerOutputOn.
    destruct (Z.eqb_spec r PWR_OUT_NONE); [contradiction|]. reflexivity. }
  assert (Hoff : nth_Z false (pwrPin (hw (PowerOutput bc r PWR_OFF s))) r = false).
  { rewrite (PowerOutput_pins r PWR_OFF s Hr' Hlen). cbn [andb PWR_OFF].
    apply nth_upd_Z_eq. unfold NUM_PWR_OUT in *. lia. }
  rewrite !Hon. split; [exact Hoff|]. split.
  - intros Hwas. split.
    + intros E. rewrite E in Hoff. congruence.
    + apply PowerOutput_switches; [exact Hr'|exact Hwas|reflexivity].
  - apply PowerOutput_same_state; [exact Hr'|exact Hoff].
Qed.

End PowerOutputs.

Lemma C2_witness :
  PowerOutput build_alarm PWR_OUT_UA1 PWR_ON s_power_fail = s_power_fail /\
  IsPowerOutputOn PWR_OUT_UA1
    (PowerOutput build_alarm PWR_OUT_UA1 PWR_OFF s_power_fail) = false /\
  (IsPowerOutputOn PWR_OUT_UA1 s_power_fail = true ->
   PowerOutput build_alarm PWR_OUT_UA1 PWR_OFF s_power_fail <> s_power_fail /\
   last_event (PowerOutput build_alarm PWR_OUT_UA1 PWR_OFF s_power_fail)
   = Some (EvDisplayUpdate UPD_POWERSTATUS)) /\
  PowerOutput build_alarm PWR_OUT_UA1 PWR_OFF
    (PowerOutput build_alarm PWR_OUT_UA1 PWR_OFF s_power_fail)
  = PowerOutput build_alarm PWR_OUT_UA1 PWR_OFF s_power_fail.
Proof.
  apply (C2_power_fail_guard build_alarm PWR_OUT_UA1 s_power_fail);
    [reflexivity | vm_compute; split; [discriminate | reflexivity] | reflexivity].
Defined.

(** ** Calibration *)

Lemma sTimerCancel_ctrl (h : Z) (s : State) : ctrl (sTimerCancel h s) = ctrl s.
Proof. unfold sTimerCancel. cbv zeta. split_ifs; reflexivity. Qed.

Lemma sTimerCancel_menu (h : Z) (s : State) : menu (sTimerCancel h s) = menu s.
Proof. unfold sTimerCancel. cbv zeta. split_ifs; reflexivity. Qed.

Lemma sTimerCancel_rfid (h : Z) (s : State) : rfid (sTimerCancel h s) = rfid s.
Proof. unfold sTimerCancel. cbv zeta. split_ifs; reflexivity. Qed.

Lemma DisplayTimerCancel_ctrl (s : State) : ctrl (DisplayTimerCancel s) = ctrl s.
Proof.
  unfold DisplayTimerCancel. split_ifs; [apply sTimerCancel_ctrl|reflexivity].
Qed.

Lemma DisplayTimerCancel_menu (s : State) : menu (DisplayTimerCancel s) = menu s.
Proof.
  unfold DisplayTimerCancel. split_ifs; [apply sTimerCancel_menu|reflexivity].
Qed.

Section Calibration.
Variable bc : Build.

(** X27: for UA1 and UA2, when the reference voltage of the output is 0 the
    SET key does not calibrate: MenuCalibrateOutput() returns the key code,
    and the mV and mA dividers and the calibration marks are those of
    before. *)
Theorem zero_voltage_reference_refused (arg : Z) (s : State) :
  arg = PWR_OUT_UA1 \/ arg = PWR_OUT_UA2 ->
  length (g_UA_Calib_mV (menu s)) = 2%nat ->
  nth_Z 0 (g_UA_Calib_mV (menu s)) (arg - PWR_OUT_UA1) = 0 ->
  exists s',
    MenuCalibrateOutput bc KEYCODE_SET_RELEASE arg s
    = Ok (KEYCODE_SET_RELEASE, s') /\
    l_mV_Divider (ctrl s') = l_mV_Divider (ctrl s) /\
    l_mA_Divider (ctrl s') = l_mA_Divider (ctrl s) /\
    l_flgCalibration (menu s') = l_flgCalibration (menu s).
Proof.
  intros Harg Hlen Href.
  exists (DisplayTimerCancel (set_l_PwrOut arg s)).
  split.
  - unfold MenuCalibrateOutput. cbv zeta. unfold read_Z.
    rewrite DisplayTimerCancel_menu. ssimpl. rewrite Hlen.
    assert (Hidx : (0 <=? arg - PWR_OUT_UA1) && (arg - PWR_OUT_UA1 <? Z.of_nat 2)
                   = true)
      by (unfold PWR_OUT_UA1, PWR_OUT_UA2 in *; destruct Harg; subst; reflexivity).
    rewrite Hidx. cbn [bind]. rewrite Href. reflexivity.
  - rewrite DisplayTimerCancel_ctrl, DisplayTimerCancel_menu. ssimpl. auto.
Qed.

(** Without a guard of its own a zero reference is a division by zero. *)
Lemma Calibrate_zero_reference (output : Z) (s : State) :
  0 <= output -> 2 * output + 1 < Z.of_nat (length (l_ADC_Value (ctrl s))) ->
  CalibrateVoltage output 0 s = Undefined DivideByZero /\
  CalibrateCurrent output 0 s = Undefined DivideByZero.
Proof.
  intros H0 H1. unfold CalibrateVoltage, CalibrateCurrent, read_Z. cbv zeta.
  destruct (Z.leb_spec 0 (output * 2)); [|lia].
  destruct (Z.ltb_spec (output * 2) (Z.of_nat (length (l_ADC_Value (ctrl s)))));
    [|lia].
  destruct (Z.leb_spec 0 (output * 2 + 1)); [|lia].
  destruct (Z.ltb_spec (output * 2 + 1) (Z.of_nat (length (l_ADC_Value (ctrl s)))));
    [|lia].
  cbn [andb bind]. unfold udiv32. cbn [Z.eqb bind]. auto.
Qed.

End Calibration.

Lemma zero_voltage_reference_refused_witness :
  exists s',
    MenuCalibrateOutput build_alarm KEYCODE_SET_RELEASE PWR_OUT_UA2
      s_no_current_reference
    = Ok (KEYCODE_SET_RELEASE, s') /\
    l_mV_Divider (ctrl s') = l_mV_Divider (ctrl s_no_current_reference) /\
    l_mA_Divider (ctrl s') = l_mA_Divider (ctrl s_no_current_reference) /\
    l_flgCalibration (menu s') = l_flgCalibration (menu s_no_current_reference).
Proof.
  apply (zero_voltage_reference_refused build_alarm PWR_OUT_UA2 s_no_current_reference);
    [right; reflexivity | reflexivity | reflexivity].
Defined.

(** ** Switching the RFID reader off *)

Lemma reader_part_sTimerCancel (h : Z) (s : State) :
  reader_part (sTimerCancel h s) = reader_part s.
Proof. unfold sTimerCancel. cbv zeta. split_ifs; reflexivity. Qed.

Lemma reader_part_sTimerStart (h c : Z) (s : State) :
  reader_part (sTimerStart h c s) = reader_part s.
Proof. unfold sTimerStart. cbv zeta. split_ifs; reflexivity. Qed.

Lemma reader_up_part (s s' : State) :
  reader_part s' = reader_part s -> reader_up s' = reader_up s.
Proof.
  unfold reader_part, reader_up, IsPowerOutputOn. intros H.
  injection H as H1 H2 H3 H4 H5 H6 H7. rewrite H1, H2, H3, H4, H7. reflexivity.
Qed.

Lemma no_reason_to_wait_part (s s' : State) :
  reader_part s' = reader_part s -> no_reason_to_wait s' = no_reason_to_wait s.
Proof.
  unfold reader_part, no_reason_to_wait. intros H.
  injection H as H1 H2 H3 H4 H5 H6 H7. rewrite H5, H6. reflexivity.
Qed.

Lemma reader_up_not_down (s : State) : reader_up s = true -> reader_down s = false.
Proof.
  unfold reader_up, reader_down. intros H.
  destruct (l_flgRFID_IsOn (rfid s)); [reflexivity|discriminate H].
Qed.

Section ReaderOff.
Variable bc : Build.

Lemma PowerOutput_rfid (r : Z) (e : bool) (s : State) :
  rfid (PowerOutput bc r e s) = rfid s.
Proof.
  unfold PowerOutput, ifdef_LOGGING, Log, LogError, DisplayUpdate. cbv zeta.
  split_ifs;
    repeat (ssimpl; rewrite ?sTimerCancel_rfid, ?sTimerStart_rfid); reflexivity.
Qed.

Lemma RFID_PowerOff_down (s : State) :
  PWR_OUT_NONE <= RFID_PwrOut (l_pRFID_Cfg (rfid s)) < NUM_PWR_OUT ->
  length (pwrPin (hw s)) = 3%nat ->
  reader_down (set_l_flgRFID_IsOn false (RFID_PowerOff bc s)) = true.
Proof.
  intros Hr Hlen.
  assert (Hp : IsPowerOutputOn (RFID_PwrOut (l_pRFID_Cfg (rfid s)))
                 (PowerOutput bc (RFID_PwrOut (l_pRFID_Cfg (rfid s))) PWR_OFF s)
               = false).
  { unfold IsPowerOutputOn.
    destruct (Z.eqb_spec (RFID_PwrOut (l_pRFID_Cfg (rfid s))) PWR_OUT_NONE);
      [reflexivity|].
    rewrite PowerOutput_pins;
      [|unfold PWR_OUT_NONE, NONE in *; lia|exact Hlen].
    cbn [andb PWR_OFF]. apply nth_upd_Z_eq.
    unfold PWR_OUT_NONE, NONE, NUM_PWR_OUT in *. lia. }
  pose proof (PowerOutput_rfid (RFID_PwrOut (l_pRFID_Cfg (rfid s))) PWR_OFF s)
    as Hcfg.
  unfold reader_down, RFID_PowerOff, ifdef_LOGGING, Log. cbv zeta.
  unfold IsPowerOutputOn in *.
  destruct (LOGGING bc); ssimpl; rewrite Hcfg; rewrite Hp; reflexivity.
Qed.

Lemma reader_down_part (s s' : State) :
  reader_part s' = reader_part s -> reader_down s' = reader_down s.
Proof.
  unfold reader_part, reader_down, IsPowerOutputOn. intros H.
  injection H as H1 H2 H3 H4 H5 H6 H7. rewrite H1, H2, H3, H4, H7. reflexivity.
Qed.

Lemma no_reason_to_wait_iff (s : State) :
  no_reason_to_wait s = true <->
  g_RFID_AbsentDetectTimeout (rfid s) = 0 \/ g_Transponder (rfid s) = EmptyString.
Proof.
  unfold no_reason_to_wait. rewrite orb_true_iff, Z.eqb_eq.
  destruct (g_Transponder (rfid s)); cbn; intuition congruence.
Qed.

(** The prologue of RFID_Disable() and of RFID_Check(): only timers are
    cancelled. *)
Lemma cancel_AbsentDetect_part (s : State) :
  reader_part (cancel_AbsentDetect s) = reader_part s /\
  rfid (cancel_AbsentDetect s) = rfid s.
Proof.
  unfold cancel_AbsentDetect.
  split_ifs; rewrite ?reader_part_sTimerCancel, ?sTimerCancel_rfid; auto.
Qed.

Lemma reader_part_lengths (s s' : State) :
  reader_part s' = reader_part s ->
  length (pwrPin (hw s')) = length (pwrPin (hw s)) /\
  l_pRFID_Cfg (rfid s') = l_pRFID_Cfg (rfid s) /\
  l_flgRFID_IsOn (rfid s') = l_flgRFID_IsOn (rfid s).
Proof.
  unfold reader_part. intros H.
  injection H as H1 H2 H3 H4 H5 H6 H7. rewrite H1, H4, H7. auto.
Qed.

(** The three ways of RFID_Disable() for a reader that is to be on. *)
Lemma RFID_Disable_cases (s : State) :
  l_flgRFID_On (rfid s) = true ->
  exists sc,
    reader_part sc = reader_part s /\ l_flgRFID_On (rfid sc) = false /\
    RFID_Disable bc s
    = if no_reason_to_wait s then
        if l_flgRFID_IsOn (rfid s)
        then set_l_flgRFID_IsOn false (RFID_PowerOff bc sc)
        else sc
      else sc.
Proof.
  intros Hon. unfold RFID_Disable. cbv zeta.
  match goal with
  | |- context [if l_flgRFID_On (rfid ?X) then _ else _] => set (sa := X)
  end.
  assert (Ha : reader_part sa = reader_part s /\
               l_flgRFID_On (rfid sa) = l_flgRFID_On (rfid s)).
  { unfold sa, if_LIGHT_BARRIER.
    split_ifs; rewrite ?reader_part_sTimerCancel, ?sTimerCancel_rfid; auto. }
  destruct Ha as [Ha Ha']. rewrite Ha', Hon.
  match goal with
  | |- context [if no_reason_to_wait ?X then _ else _] => set (sb := X)
  end.
  assert (Hb : reader_part sb = reader_part s /\ l_flgRFID_On (rfid sb) = false).
  { unfold sb, if_LIGHT_BARRIER.
    split_ifs; rewrite ?reader_part_sTimerCancel, ?sTimerCancel_rfid;
      (split; [exact Ha|reflexivity]). }
  destruct Hb as [Hb Hb'].
  rewrite (no_reason_to_wait_part _ _ Hb).
  destruct (cancel_AbsentDetect_part sb) as [Hc Hc'].
  rewrite Hc'. destruct (reader_part_lengths _ _ Hb) as (_ & _ & ->).
  destruct (no_reason_to_wait s).
  - exists (cancel_AbsentDetect sb).
    split; [congruence|]. split; [rewrite Hc'; exact Hb'|reflexivity].
  - unfold ifdef_LOGGING, Log.
    split_ifs; eexists; (split; [|split; [|reflexivity]]);
      first [exact Hb | exact Hb'].
Qed.

(** The service loop and a reader that is to be off but still on. *)
Lemma RFID_Check_off (s : State) :
  l_flgRFID_On (rfid s) = false -> l_flgRFID_IsOn (rfid s) = true ->
  exists sc,
    reader_part sc = reader_part s /\
    reader_part (RFID_Check bc s)
    = reader_part (if no_reason_to_wait s
                   then set_l_flgRFID_IsOn false (RFID_PowerOff bc sc) else s).
Proof.
  intros Hon His. unfold RFID_Check. cbv zeta. rewrite Hon, His.
  destruct (cancel_AbsentDetect_part s) as [Hc _].
  exists (cancel_AbsentDetect s). split; [exact Hc|].
  unfold ControlUpdateID, DisplayUpdate, ifdef_LOGGING, Log.
  split_ifs; reflexivity.
Qed.

Lemma TransponderAbsent_effect (hdl : Z) (s : State) :
  g_Transponder (rfid (TransponderAbsent bc hdl s)) = EmptyString /\
  no_reason_to_wait (TransponderAbsent bc hdl s) = true /\
  l_flgRFID_On (rfid (TransponderAbsent bc hdl s)) = l_flgRFID_On (rfid s) /\
  l_flgRFID_IsOn (rfid (TransponderAbsent bc hdl s)) = l_flgRFID_IsOn (rfid s) /\
  reader_up (TransponderAbsent bc hdl s) = reader_up s /\
  pwrPin (hw (TransponderAbsent bc hdl s)) = pwrPin (hw s) /\
  l_pRFID_Cfg (rfid (TransponderAbsent bc hdl s)) = l_pRFID_Cfg (rfid s).
Proof.
  unfold TransponderAbsent, ifdef_LOGGING, Log, DisplayUpdate, no_reason_to_wait,
    reader_up, IsPowerOutputOn.
  cbv zeta.
  destruct (RFID_DISPLAY_UPDATE_WHEN_ABSENT bc), (LOGGING bc);
    ssimpl; cbn [is_EOS]; rewrite ?orb_true_r; repeat split; reflexivity.
Qed.

End ReaderOff.

Section DeferredOff.
Variable bc : Build.

(** C6: RFID_Disable() for a reader that is on takes power and UART down at
    once exactly when absence detection is not configured or no transponder
    is stored.  Otherwise the reader stays up, also over the passes of
    RFID_Check(), until TransponderAbsent() has cleared the stored ID: the
    next RFID_Check() takes it down. *)
Theorem C6_deferred_power_off (s : State) :
  l_flgRFID_On (rfid s) = true -> reader_up s = true ->
  PWR_OUT_NONE <= RFID_PwrOut (l_pRFID_Cfg (rfid s)) < NUM_PWR_OUT ->
  length (pwrPin (hw s)) = 3%nat ->
  let s1 := RFID_Disable bc s in
  (reader_down s1 = true <->
   g_RFID_AbsentDetectTimeout (rfid s) = 0 \/
   g_Transponder (rfid s) = EmptyString) /\
  (~ (g_RFID_AbsentDetectTimeout (rfid s) = 0 \/
      g_Transponder (rfid s) = EmptyString) ->
   reader_up s1 = true /\ reader_up (RFID_Check bc s1) = true /\
   forall hdl,
     g_Transponder (rfid (TransponderAbsent bc hdl s1)) = EmptyString /\
     reader_up (TransponderAbsent bc hdl s1) = true /\
     reader_down (RFID_Check bc (TransponderAbsent bc hdl s1)) = true).
Proof.
  intros Hon Hup Hr Hlen. cbv zeta.
  rewrite <- no_reason_to_wait_iff.
  destruct (RFID_Disable_cases bc s Hon) as (sc & Hsc & Hoff & Hd).
  assert (His : l_flgRFID_IsOn (rfid s) = true).
  { unfold reader_up in Hup. destruct (l_flgRFID_IsOn (rfid s));
      [reflexivity|discriminate Hup]. }
  rewrite His in Hd.
  destruct (reader_part_lengths _ _ Hsc) as (Lc & Cc & Ic).
  destruct (no_reason_to_wait s) eqn:Hnw; rewrite Hd.
  - split; [|intros H; exfalso; apply H; reflexivity].
    split; [reflexivity|]. intros _.
    apply RFID_PowerOff_down; [rewrite Cc; exact Hr|rewrite Lc; exact Hlen].
  - assert (Hupc : reader_up sc = true)
      by (rewrite (reader_up_part _ _ Hsc); exact Hup).
    split.
    { rewrite (reader_up_not_down _ Hupc). split; intros H; discriminate H. }
    intros _. split; [exact Hupc|].
    assert (Hisc : l_flgRFID_IsOn (rfid sc) = true) by (rewrite Ic; exact His).
    assert (Hnwc : no_reason_to_wait sc = false)
      by (rewrite (no_reason_to_wait_part _ _ Hsc); exact Hnw).
    split.
    { destruct (RFID_Check_off bc sc Hoff Hisc) as (sd & Hsd & Hck).
      rewrite Hnwc in Hck. rewrite (reader_up_part _ _ Hck). exact Hupc. }
    intros hdl.
    destruct (TransponderAbsent_effect bc hdl sc)
      as (Ht & Hnwt & Hont & Hist & Hupt & Hpt & Hct).
    split; [exact Ht|]. split; [rewrite Hupt; exact Hupc|].
    destruct (RFID_Check_off bc (TransponderAbsent bc hdl sc))
      as (sd & Hsd & Hck); [rewrite Hont; exact Hoff|rewrite Hist; exact Hisc|].
    rewrite Hnwt in Hck. rewrite (reader_down_part _ _ Hck).
    destruct (reader_part_lengths _ _ Hsd) as (Ld & Cd & _).
    apply RFID_PowerOff_down.
    + rewrite Cd, Hct, Cc. exact Hr.
    + rewrite Ld, Hpt, Lc. exact Hlen.
Qed.

End DeferredOff.

Lemma C6_witness :
  (reader_down (RFID_Disable build_alarm s_transponder) = true <->
   g_RFID_AbsentDetectTimeout (rfid s_transponder) = 0 \/
   g_Transponder (rfid s_transponder) = EmptyString) /\
  (~ (g_RFID_AbsentDetectTimeout (rfid s_transponder) = 0 \/
      g_Transponder (rfid s_transponder) = EmptyString) ->
   reader_up (RFID_Disable build_alarm s_transponder) = true /\
   reader_up (RFID_Check build_alarm (RFID_Disable build_alarm s_transponder))
   = true /\
   forall hdl,
     g_Transponder
       (rfid (TransponderAbsent build_alarm hdl
                (RFID_Disable build_alarm s_transponder))) = EmptyString /\
     reader_up (TransponderAbsent build_alarm hdl
                  (RFID_Disable build_alarm s_transponder)) = true /\
     reader_down
       (RFID_Check build_alarm
          (TransponderAbsent build_alarm hdl
             (RFID_Disable build_alarm s_transponder))) = true).
Proof.
  apply (C6_deferred_power_off build_alarm s_transponder);
    [reflexivity | reflexivity
    | vm_compute; split; [discriminate | reflexivity] | reflexivity].
Defined.

(** ** The calibration data in the EEPROM emulation *)

Lemma word_join (x : Z) : x mod 256 + 256 * (x / 256) = x.
Proof. pose proof (Z.div_mod x 256 ltac:(lia)). lia. Qed.

Lemma land_0xFFFF (x : Z) : Z.land x 0xFFFF = x mod 65536.
Proof. change 0xFFFF with (Z.ones 16). rewrite Z.land_ones by lia. reflexivity. Qed.

Lemma halves_of_uint32 (x : Z) :
  0 <= x < 2 ^ 32 ->
  join_halves (Z.land (Z.shiftr x 16) 0xFFFF) (Z.land x 0xFFFF) = x.
Proof.
  intros Hx. unfold join_halves, wrap32.
  rewrite !land_0xFFFF, Z.shiftr_div_pow2, Z.shiftl_mul_pow2 by lia.
  change (2 ^ 16) with 65536. change (2 ^ 32) with 4294967296 in *.
  pose proof (Z.div_mod x 65536 ltac:(lia)).
  pose proof (Z.mod_pos_bound x 65536 ltac:(lia)).
  assert (0 <= x / 65536 < 65536)
    by (split; [apply Z.div_pos; lia | apply Z.div_lt_upper_bound; lia]).
  rewrite (Z.mod_small (x / 65536) 65536) by lia.
  rewrite (Z.mod_small (x / 65536 * 65536)) by lia.
  rewrite Z.mod_small by lia. lia.
Qed.

Section Block.
Variable bc : Build.

(** WriteCalibrationData() fills the block with the ten variables. *)
Lemma WriteCalibrationData_image (s : State) :
  length (eeprom (hw s)) = EE_BLOCK_SIZE ->
  eeprom (hw (WriteCalibrationData bc s))
  = block_image (calibration_words (dividers s)).
Proof.
  intros Hlen. unfold WriteCalibrationData, ifdef_LOGGING, Log, EE_Write.
  cbv zeta. unfold dividers, calibration_words.
  set (mV0 := nth_Z 0 (l_mV_Divider (ctrl s)) 0).
  set (mA0 := nth_Z 0 (l_mA_Divider (ctrl s)) 0).
  set (mV1 := nth_Z 0 (l_mV_Divider (ctrl s)) 1).
  set (mA1 := nth_Z 0 (l_mA_Divider (ctrl s)) 1).
  destruct (LOGGING bc); ssimpl;
    destruct (eeprom (hw s)) as [|b0 l]; try discriminate Hlen;
    do 19 (destruct l as [|? l]; try discriminate Hlen);
    destruct l; try discriminate Hlen; reflexivity.
Qed.

Lemma EE_Read_image (k : nat) (ws : list Z) (t : State) :
  eeprom (hw t) = block_image ws -> EE_Read k t = nth k ws 0.
Proof.
  unfold EE_Read. intros ->. revert ws.
  induction k as [|k IH]; intros [|x ws]; try reflexivity.
  - cbn. apply word_join.
  - replace (2 * S k)%nat with (S (S (2 * k))) by lia.
    replace (S (S (2 * k)) + 1)%nat with (S (S (2 * k + 1))) by lia.
    cbn [block_image flat_map word_bytes app nth lookup list_lookup].
    destruct k; apply IH.
Qed.

Ltac reads_of t :=
  repeat match goal with
         | |- context [EE_Read ?k ?X] =>
             lazymatch X with
             | t => fail
             | _ => change (EE_Read k X) with (EE_Read k t)
             end
         end.

Ltac divider_entries HmV HmA :=
  repeat first
    [ rewrite nth_upd_Z_ne by lia
    | rewrite nth_upd_Z_eq by (rewrite ?length_upd_Z, ?HmV, ?HmA; lia) ].

(** ReadCalibrationData() on a block of ten variables. *)
Lemma ReadCalibrationData_block (ws : list Z) (t : State) :
  eeprom (hw t) = block_image ws ->
  length (l_mV_Divider (ctrl t)) = 2%nat ->
  length (l_mA_Divider (ctrl t)) = 2%nat ->
  length ws = 10%nat ->
  dividers (ReadCalibrationData bc t)
  = default unity_dividers (block_dividers ws).
Proof.
  intros Himg HmV HmA Hws.
  destruct ws as [|m ws]; try discriminate Hws.
  do 9 (destruct ws as [|? ws]; try discriminate Hws).
  destruct ws; try discriminate Hws.
  unfold ReadCalibrationData, ifdef_LOGGING, Log, set_default_dividers.
  cbv zeta.
  destruct (LOGGING bc); reads_of t;
    rewrite !(EE_Read_image _ _ t Himg);
    unfold ee_magic, ee_ua1mV_h, ee_ua1mV_l, ee_ua1mA_h, ee_ua1mA_l,
      ee_ua2mV_h, ee_ua2mV_l, ee_ua2mA_h, ee_ua2mA_l, ee_chksum;
    cbn [nth block_dividers];
    destruct (m =? MAGIC_ID); cbn [andb];
    try match goal with
        | |- context [negb (?a =? ?b)] => destruct (a =? b)
        end;
    cbn [negb default from_option id]; unfold dividers, unity_dividers;
    ssimpl; divider_entries HmV HmA; reflexivity.
Qed.

End Block.

(** *** Round trip and corruption *)

Lemma wrap16_chain (m w1 w2 w3 w4 w5 w6 w7 w8 : Z) :
  wrap16 (wrap16 (wrap16 (wrap16 (wrap16 (wrap16 (wrap16 (wrap16
    (m + w1) + w2) + w3) + w4) + w5) + w6) + w7) + w8)
  = (m + w1 + w2 + w3 + w4 + w5 + w6 + w7 + w8) mod 65536.
Proof.
  unfold wrap16. change (2 ^ 16) with 65536.
  rewrite (Zplus_mod_idemp_l (m + w1) w2).
  rewrite (Zplus_mod_idemp_l (m + w1 + w2) w3).
  rewrite (Zplus_mod_idemp_l (m + w1 + w2 + w3) w4).
  rewrite (Zplus_mod_idemp_l (m + w1 + w2 + w3 + w4) w5).
  rewrite (Zplus_mod_idemp_l (m + w1 + w2 + w3 + w4 + w5) w6).
  rewrite (Zplus_mod_idemp_l (m + w1 + w2 + w3 + w4 + w5 + w6) w7).
  rewrite (Zplus_mod_idemp_l (m + w1 + w2 + w3 + w4 + w5 + w6 + w7) w8).
  reflexivity.
Qed.

Lemma sum_mod_differs (S a b : Z) :
  0 <= a < 65536 -> 0 <= b < 65536 -> a <> b ->
  (S + a) mod 65536 <> (S + b) mod 65536.
Proof.
  intros Ha Hb Hne E.
  pose proof (Z.div_mod (S + a) 65536 ltac:(lia)).
  pose proof (Z.div_mod (S + b) 65536 ltac:(lia)).
  lia.
Qed.

Lemma block_dividers_written (d : Z * Z * Z * Z) :
  (let '(mV0, mA0, mV1, mA1) := d in
   0 <= mV0 < 2 ^ 32 /\ 0 <= mA0 < 2 ^ 32 /\
   0 <= mV1 < 2 ^ 32 /\ 0 <= mA1 < 2 ^ 32) ->
  block_dividers (calibration_words d) = Some d.
Proof.
  destruct d as [[[mV0 mA0] mV1] mA1]. intros (H0 & H1 & H2 & H3).
  unfold calibration_words, block_dividers. cbv zeta.
  rewrite Z.eqb_refl, Z.eqb_refl. cbn [andb].
  rewrite !halves_of_uint32 by assumption. reflexivity.
Qed.

Lemma calibration_words_range (d : Z * Z * Z * Z) :
  Forall (fun x => 0 <= x < 65536) (calibration_words d).
Proof.
  destruct d as [[[mV0 mA0] mV1] mA1]. unfold calibration_words. cbv zeta.
  rewrite wrap16_chain, !land_0xFFFF.
  repeat (apply Forall_cons; split;
          [first [apply Z.mod_pos_bound; lia | unfold MAGIC_ID; lia]|]).
  apply Forall_nil. trivial.
Qed.

(** One variable changed. *)
Lemma block_dividers_changed (d : Z * Z * Z * Z) (k : nat) (x : Z) :
  (k < 10)%nat -> 0 <= x < 65536 -> nth k (calibration_words d) 0 <> x ->
  block_dividers (<[k := x]> (calibration_words d)) = None.
Proof.
  destruct d as [[[mV0 mA0] mV1] mA1]. intros Hk Hx Hne.
  pose proof (calibration_words_range (mV0, mA0, mV1, mA1)) as Hr.
  unfold calibration_words in *. cbv zeta in *.
  rewrite wrap16_chain in *.
  repeat match goal with
         | H : Forall _ (_ :: _) |- _ =>
             apply Forall_cons in H; destruct H as [? H]
         end.
  set (w1 := Z.land (Z.shiftr mV0 16) 65535) in *.
  set (w2 := Z.land mV0 65535) in *.
  set (w3 := Z.land (Z.shiftr mA0 16) 65535) in *.
  set (w4 := Z.land mA0 65535) in *.
  set (w5 := Z.land (Z.shiftr mV1 16) 65535) in *.
  set (w6 := Z.land mV1 65535) in *.
  set (w7 := Z.land (Z.shiftr mA1 16) 65535) in *.
  set (w8 := Z.land mA1 65535) in *.
  destruct k as [|k].
  { cbn in Hne |- *. destruct (Z.eqb_spec x MAGIC_ID); [congruence|reflexivity]. }
  do 8 (destruct k as [|k];
        [ cbn [nth] in Hne; cbn [insert list_insert block_dividers];
          rewrite Z.eqb_refl, wrap16_chain; cbn [andb];
          match goal with
          | |- (if ?a =? ?b then _ else _) = None =>
              destruct (Z.eqb_spec a b) as [E|E]; [exfalso|reflexivity]
          end;
          revert E;
          match goal with
          | |- ?a mod _ = ?b mod _ -> False =>
              replace a with ((a - x) + x) by lia;
              match type of Hne with
              | ?w <> x => replace b with ((a - x) + w) by lia
              end
          end;
          apply sum_mod_differs; [assumption|assumption|congruence] |]).
  destruct k as [|k]; [|lia].
  cbn [nth] in Hne. cbn [insert list_insert block_dividers].
  rewrite Z.eqb_refl, wrap16_chain. cbn [andb].
  match goal with
  | |- (if ?a =? ?b then _ else _) = None =>
      destruct (Z.eqb_spec a b) as [E|E]; [congruence|reflexivity]
  end.
Qed.

Lemma div2_SS (j : nat) : (S (S j) / 2 = S (j / 2))%nat.
Proof.
  replace (S (S j)) with (1 * 2 + j)%nat by lia.
  rewrite Nat.div_add_l by lia. lia.
Qed.

(** One byte of the image changed is one variable changed. *)
Lemma block_image_changed (ws : list Z) (i : nat) (b : Z) :
  Forall (fun x => 0 <= x < 65536) ws -> 0 <= b < 256 ->
  (i < 2 * length ws)%nat -> block_image ws !! i <> Some b ->
  exists x,
    0 <= x < 65536 /\ nth (i / 2) ws 0 <> x /\
    <[i := b]> (block_image ws) = block_image (<[(i / 2)%nat := x]> ws).
Proof.
  intros Hr Hb. revert i.
  induction Hr as [|w ws Hw Hr IH]; intros i Hi Hne; [cbn in Hi; lia|].
  pose proof (Z.div_mod w 256 ltac:(lia)) as Hdm.
  pose proof (Z.mod_pos_bound w 256 ltac:(lia)) as Hmb.
  assert (Hq : 0 <= w / 256 < 256)
    by (split; [apply Z.div_pos; lia | apply Z.div_lt_upper_bound; lia]).
  destruct i as [|[|j]].
  - exists (b + 256 * (w / 256)).
    split; [lia|]. split.
    + cbn in Hne |- *. intros E. apply Hne. f_equal. lia.
    + cbn.
      rewrite <- (Z.mod_unique (b + 256 * (w / 256)) 256 (w / 256) b) by lia.
      rewrite <- (Z.div_unique (b + 256 * (w / 256)) 256 (w / 256) b) by lia.
      reflexivity.
  - exists (w mod 256 + 256 * b).
    split; [lia|]. split.
    + cbn in Hne |- *. intros E. apply Hne. f_equal. lia.
    + cbn.
      rewrite <- (Z.mod_unique (w mod 256 + 256 * b) 256 b (w mod 256)) by lia.
      rewrite <- (Z.div_unique (w mod 256 + 256 * b) 256 b (w mod 256)) by lia.
      reflexivity.
  - destruct (IH j) as (x & Hx & Hn & E).
    + cbn [length] in Hi. lia.
    + exact Hne.
    + exists x. split; [exact Hx|].
      rewrite div2_SS.
      split; [exact Hn|].
      unfold block_image in *. cbn. do 2 f_equal. exact E.
Qed.

Lemma dividers_ok_inv (s : State) :
  dividers_ok s = true ->
  length (l_mV_Divider (ctrl s)) = 2%nat /\
  length (l_mA_Divider (ctrl s)) = 2%nat /\
  (let '(mV0, mA0, mV1, mA1) := dividers s in
   0 <= mV0 < 2 ^ 32 /\ 0 <= mA0 < 2 ^ 32 /\
   0 <= mV1 < 2 ^ 32 /\ 0 <= mA1 < 2 ^ 32).
Proof.
  unfold dividers_ok, dividers. intros H.
  repeat (apply andb_prop in H; let H' := fresh "H" in destruct H as [H H']).
  apply Nat.eqb_eq in H.
  match goal with H : (_ =? _)%nat = true |- _ => apply Nat.eqb_eq in H end.
  destruct (l_mV_Divider (ctrl s)) as [|a [|b [|]]]; try discriminate.
  destruct (l_mA_Divider (ctrl s)) as [|c [|e [|]]]; try discriminate.
  change (nth_Z 0 [a; b] 0) with a. change (nth_Z 0 [a; b] 1) with b.
  change (nth_Z 0 [c; e] 0) with c. change (nth_Z 0 [c; e] 1) with e.
  cbn in *. unfold is_uint32 in *.
  repeat match goal with
         | H : _ && _ = true |- _ =>
             apply andb_prop in H; let H' := fresh "H" in destruct H as [H H']
         end.
  change (2 ^ 32) with 4294967296 in *. lia.
Qed.

Section RoundTrip.
Variable bc : Build.

(** C9: ReadCalibrationData() on the image that WriteCalibrationData() has
    stored gives the four dividers that were written; on that image with one
    byte changed it gives the unity dividers [1 << 16] for all four. *)
Theorem C9_calibration_block (s t : State) :
  length (eeprom (hw s)) = EE_BLOCK_SIZE -> dividers_ok s = true ->
  length (l_mV_Divider (ctrl t)) = 2%nat ->
  length (l_mA_Divider (ctrl t)) = 2%nat ->
  let image := eeprom (hw (WriteCalibrationData bc s)) in
  (eeprom (hw t) = image ->
   dividers (ReadCalibrationData bc t) = dividers s) /\
  (forall (i : nat) (b : Z),
     (i < EE_BLOCK_SIZE)%nat -> 0 <= b < 256 -> image !! i <> Some b ->
     eeprom (hw t) = <[i := b]> image ->
     dividers (ReadCalibrationData bc t) = unity_dividers).
Proof.
  intros Hlen Hok HmV HmA. cbv zeta.
  rewrite (WriteCalibrationData_image bc s Hlen).
  destruct (dividers_ok_inv s Hok) as (_ & _ & Hrange).
  assert (Hws : length (calibration_words (dividers s)) = 10%nat)
    by (destruct (dividers s) as [[[? ?] ?] ?]; reflexivity).
  split.
  - intros Himg.
    rewrite (ReadCalibrationData_block bc _ t Himg HmV HmA Hws).
    rewrite (block_dividers_written (dividers s) Hrange). reflexivity.
  - intros i b Hi Hb Hne Himg.
    destruct (block_image_changed (calibration_words (dividers s)) i b)
      as (x & Hx & Hn & E);
      [apply calibration_words_range|exact Hb
      |rewrite Hws; unfold EE_BLOCK_SIZE in Hi; lia|exact Hne|].
    rewrite E in Himg.
    assert (Hk : (i / 2 < 10)%nat)
      by (apply Nat.Div0.div_lt_upper_bound; unfold EE_BLOCK_SIZE in Hi; lia).
    rewrite (ReadCalibrationData_block bc _ t Himg HmV HmA)
      by (rewrite length_insert; exact Hws).
    rewrite (block_dividers_changed _ _ _ Hk Hx Hn). reflexivity.
Qed.

End RoundTrip.

Lemma C9_witness :
  dividers (ReadCalibrationData build_alarm
              (WriteCalibrationData build_alarm s_calibrated))
  = dividers s_calibrated /\
  dividers (ReadCalibrationData build_alarm
              (set_eeprom
                 (<[7%nat := 255]>
                    (eeprom (hw (WriteCalibrationData build_alarm s_calibrated))))
                 s_calibrated))
  = unity_dividers.
Proof.
  split.
  - apply (C9_calibration_block build_alarm s_calibrated
             (WriteCalibrationData build_alarm s_calibrated));
      reflexivity.
  - apply (proj2 (C9_calibration_block build_alarm s_calibrated
                    (set_eeprom
                       (<[7%nat := 255]>
                          (eeprom (hw (WriteCalibrationData build_alarm
                                         s_calibrated))))
                       s_calibrated)
                    ltac:(reflexivity) ltac:(reflexivity)
                    ltac:(reflexivity) ltac:(reflexivity)) 7%nat 255);
      [unfold EE_BLOCK_SIZE; lia | lia | vm_compute; discriminate | reflexivity].
Defined.

(** * Further properties *)

(** ** RFID_Decode(): the three ways a word is dealt with *)

Ltac position_cases k Hk :=
  let H := fresh in
  assert (H : k = 0 \/ k = 1 \/ k = 2 \/ k = 3 \/ k = 4 \/ k = 5 \/ k = 6 \/
              k = 7 \/ k = 8 \/ k = 9 \/ k = 10 \/ k = 11 \/ k = 12 \/ k = 13)
    by lia;
  clear Hk;
  repeat (destruct H as [H|H]; [subst k|]); [..|subst k].

Section DecoderShape.
Variable bc : Build.

Ltac found_dec :=
  eexists; split; [reflexivity|]; split; [reflexivity|];
  ssimpl; rewrite ?length_upd_Z; repeat split; auto.

Lemma RFID_Decode_SR_violation_shape r d s :
  RFID_Type (l_pRFID_Cfg (rfid s)) = RFID_TYPE_SR ->
  0 <= d_State d <= 4 ->
  length (d_w d) = 14%nat ->
  Z.land r 0xFF <> nth_Z 0 v_prefix (d_State d) ->
  exists s',
    RFID_Decode bc r (with_dec d s) = Ok s' /\
    s' = with_dec (dec_of s') s /\
    l_State (rfid s') = 0 /\
    g_FERR_Cnt (rfid s') = ferr_after r (d_FERR d) /\
    g_PERR_Cnt (rfid s') = perr_after r (d_PERR d) /\
    length (w (rfid s')) = 14%nat.
Proof.
  intros Ht Hk Hlen Hpre. unfold RFID_Decode.
  rewrite count_errors_with_dec.
  destruct d as [k x wv c f p]. cbn [d_State d_w d_xorsum d_crc d_FERR d_PERR] in *.
  unfold store_w.
  assert (HL : Z.of_nat (length wv) = 14) by lia.
  assert (Hk' : 0 <= k <= 13) by lia.
  position_cases k Hk'; try (exfalso; lia); cbn; rewrite HL; cbn; rewrite Ht;
    cbn;
    match goal with
    | |- context [Z.land r 255 =? ?v] =>
        destruct (Z.eqb_spec (Z.land r 255) v) as [E|E];
        [exfalso; apply Hpre; exact E|]
    end;
    found_dec; rewrite length_insert; exact Hlen.
Qed.

Lemma RFID_Decode_restart_shape r d s :
  let type := RFID_Type (l_pRFID_Cfg (rfid s)) in
  0 <= d_State d <= 13 ->
  length (d_w d) = 14%nat ->
  (type = RFID_TYPE_LR /\
   ((d_State d = 0 /\ Z.land r 0xFF <> 0x54) \/ 11 <= d_State d))
  \/ (type <> RFID_TYPE_SR /\ type <> RFID_TYPE_LR) ->
  exists s',
    RFID_Decode bc r (with_dec d s) = Ok s' /\
    s' = with_dec (dec_of s') s /\
    l_State (rfid s') = 0 /\
    g_FERR_Cnt (rfid s') = ferr_after r (d_FERR d) /\
    g_PERR_Cnt (rfid s') = perr_after r (d_PERR d) /\
    length (w (rfid s')) = 14%nat.
Proof.
  intros type Hk Hlen Hc. unfold RFID_Decode.
  rewrite count_errors_with_dec.
  destruct d as [k x wv c f p].
  cbn [d_State d_w d_xorsum d_crc d_FERR d_PERR] in *.
  unfold store_w. ssimpl.
  assert (HL : Z.of_nat (length wv) = 14) by lia. rewrite HL.
  replace ((0 <=? k) && (k <? 14)) with true
    by (symmetry; apply andb_true_iff; split; [apply Z.leb_le|apply Z.ltb_lt]; lia).
  ssimpl. fold type.
  destruct Hc as [[Ht Hc]|[Hn1 Hn2]].
  - rewrite Ht.
    change (RFID_TYPE_LR =? RFID_TYPE_SR) with false.
    change (RFID_TYPE_LR =? RFID_TYPE_LR) with true. cbv iota.
    unfold decode_LR. ssimpl.
    destruct Hc as [[-> Hb]|Hge].
    + change (0 =? 0) with true. cbv iota.
      apply Z.eqb_neq in Hb. rewrite Hb. cbn [negb]. found_dec.
    + assert (H : k = 11 \/ k = 12 \/ k = 13) by lia.
      destruct H as [->|[->| ->]]; found_dec.
  - apply Z.eqb_neq in Hn1, Hn2. rewrite Hn1, Hn2. found_dec.
Qed.

(** A word either only moves the decoder, or ends a frame with an error
    message, or ends a frame with its ID received; the error counters follow
    the error flags of the word in each case. *)
Lemma RFID_Decode_shape r s :
  0 <= l_State (rfid s) <= 13 ->
  length (w (rfid s)) = 14%nat ->
  exists d,
    d_FERR d = ferr_after r (g_FERR_Cnt (rfid s)) /\
    d_PERR d = perr_after r (g_PERR_Cnt (rfid s)) /\
    length (d_w d) = 14%nat /\
    (RFID_Decode bc r s = Ok (with_dec d s) \/
     (exists msg,
        RFID_Decode bc r s = Ok (set_l_State 0 (LogError msg (with_dec d s)))) \/
     RFID_Decode bc r s = Ok (ID_received bc (with_dec d s))).
Proof.
  intros Hk Hlen.
  replace (RFID_Decode bc r s) with (RFID_Decode bc r (with_dec (dec_of s) s))
    by (rewrite with_dec_of; reflexivity).
  set (d := dec_of s).
  assert (Hkd : 0 <= d_State d <= 13) by exact Hk.
  assert (Hld : length (d_w d) = 14%nat) by exact Hlen.
  change (g_FERR_Cnt (rfid s)) with (d_FERR d).
  change (g_PERR_Cnt (rfid s)) with (d_PERR d).
  clearbody d. clear Hk Hlen.
  set (type := RFID_Type (l_pRFID_Cfg (rfid s))).
  set (b := Z.land r 0xFF).
  assert (Hlast : length (d_w (dec_last r d)) = 14%nat)
    by (cbn [dec_last d_w]; rewrite length_upd_Z; exact Hld).
  assert (Hshape : forall d',
    (exists d1, RFID_Decode bc r (with_dec d s) = Ok (with_dec d1 s) /\
       d_State d1 = d' /\ d_FERR d1 = ferr_after r (d_FERR d) /\
       d_PERR d1 = perr_after r (d_PERR d) /\ length (d_w d1) = 14%nat) ->
    exists d0,
      d_FERR d0 = ferr_after r (d_FERR d) /\
      d_PERR d0 = perr_after r (d_PERR d) /\
      length (d_w d0) = 14%nat /\
      (RFID_Decode bc r (with_dec d s) = Ok (with_dec d0 s) \/
       (exists msg,
          RFID_Decode bc r (with_dec d s)
          = Ok (set_l_State 0 (LogError msg (with_dec d0 s)))) \/
       RFID_Decode bc r (with_dec d s) = Ok (ID_received bc (with_dec d0 s)))).
  { intros d' (d1 & E & _ & F & P & L). exists d1. auto. }
  destruct (Z.eq_dec type RFID_TYPE_SR) as [Hsr|Hnsr].
  - destruct (Z.le_gt_cases (d_State d) 12) as [Hle|Hgt].
    + destruct (Z.le_gt_cases (d_State d) 4) as [Hpre|Hpay].
      * destruct (Z.eq_dec b (nth_Z 0 v_prefix (d_State d))) as [Hm|Hm].
        -- apply (Hshape (d_State d + 1)). exists (dec_SR_step r d).
           rewrite RFID_Decode_SR_advance by (try assumption; try lia; auto).
           cbn [dec_SR_step d_State d_FERR d_PERR d_w]. rewrite length_upd_Z. auto.
        -- apply (Hshape 0).
           destruct (RFID_Decode_SR_violation_shape r d s Hsr ltac:(lia) Hld Hm)
             as (s1 & E & S & A & B & C & D).
           exists (dec_of s1). rewrite <- S. auto.
      * apply (Hshape (d_State d + 1)). exists (dec_SR_step r d).
        rewrite RFID_Decode_SR_advance by (try assumption; try lia).
        cbn [dec_SR_step d_State d_FERR d_PERR d_w]. rewrite length_upd_Z. auto.
    + exists (dec_last r d). split; [reflexivity|]. split; [reflexivity|].
      split; [exact Hlast|].
      rewrite RFID_Decode_SR_last by (try assumption; lia).
      destruct (_ =? d_xorsum d); [right; right; reflexivity|].
      right; left. eexists. reflexivity.
  - destruct (Z.eq_dec type RFID_TYPE_LR) as [Hlr|Hnlr].
    + destruct (Z.eq_dec (d_State d) 0) as [H0|Hn0].
      * destruct (Z.eq_dec b 0x54) as [Hm|Hm].
        -- apply (Hshape 1). exists (dec_LR_step r d).
           rewrite RFID_Decode_LR_advance by (try assumption; try lia; auto).
           cbn [dec_LR_step d_State d_FERR d_PERR d_w]. rewrite length_upd_Z.
           rewrite H0. auto.
        -- apply (Hshape 0).
           destruct (RFID_Decode_restart_shape r d s Hkd Hld)
             as (s1 & E & S & A & B & C & D);
             [left; split; [exact Hlr|left; split; assumption]|].
           exists (dec_of s1). rewrite <- S. auto.
      * destruct (Z.le_gt_cases (d_State d) 9) as [Hle|Hgt].
        -- apply (Hshape (d_State d + 1)). exists (dec_LR_step r d).
           rewrite RFID_Decode_LR_advance by (try assumption; try lia).
           cbn [dec_LR_step d_State d_FERR d_PERR d_w]. rewrite length_upd_Z. auto.
        -- destruct (Z.eq_dec (d_State d) 10) as [H10|Hn10].
           ++ exists (dec_last r d). split; [reflexivity|]. split; [reflexivity|].
              split; [exact Hlast|].
              rewrite RFID_Decode_LR_last by assumption.
              destruct (_ =? d_crc d); [right; right; reflexivity|].
              right; left. eexists. reflexivity.
           ++ apply (Hshape 0).
              destruct (RFID_Decode_restart_shape r d s Hkd Hld)
                as (s1 & E & S & A & B & C & D);
                [left; split; [exact Hlr|right; lia]|].
              exists (dec_of s1). rewrite <- S. auto.
    + apply (Hshape 0).
      destruct (RFID_Decode_restart_shape r d s Hkd Hld)
        as (s1 & E & S & A & B & C & D); [right; split; assumption|].
      exists (dec_of s1). rewrite <- S. auto.
Qed.

End DecoderShape.

(** ** RFID_Decode(): what it leaves alone *)

Section DecoderFrame.
Variable bc : Build.

Lemma ID_received_outside (s : State) :
  outside_decoder (ID_received bc s) = outside_decoder s /\
  g_FERR_Cnt (rfid (ID_received bc s)) = g_FERR_Cnt (rfid s) /\
  g_PERR_Cnt (rfid (ID_received bc s)) = g_PERR_Cnt (rfid s).
Proof.
  unfold ID_received, if_LIGHT_BARRIER, restart_DetectTimeout, raise_NewID,
    sTimerStart, outside_decoder.
  cbv zeta.
  split_ifs; ssimpl; rewrite ?length_alter; repeat split; reflexivity.
Qed.

(** X1: The decoder works on its own variables, the stored ID with its flags,
    its timers and the log: whatever word arrives, the control module, the
    menu, the pins and the power state of the reader are as before; the error
    counters count the error flags of the word. *)
Theorem RFID_Decode_leaves_rest (r : Z) (s : State) :
  0 <= l_State (rfid s) <= 13 ->
  length (w (rfid s)) = 14%nat ->
  exists s',
    RFID_Decode bc r s = Ok s' /\
    outside_decoder s' = outside_decoder s /\
    g_FERR_Cnt (rfid s')
    = (if negb (Z.land r USART_RXDATAX_FERR =? 0)
       then wrap16 (g_FERR_Cnt (rfid s) + 1) else g_FERR_Cnt (rfid s)) /\
    g_PERR_Cnt (rfid s')
    = (if negb (Z.land r USART_RXDATAX_PERR =? 0)
       then wrap16 (g_PERR_Cnt (rfid s) + 1) else g_PERR_Cnt (rfid s)).
Proof.
  intros Hk Hlen.
  destruct (RFID_Decode_shape bc r s Hk Hlen) as (d & Hf & Hp & Hl & [E|[[msg E]|E]]);
    rewrite E; eexists; (split; [reflexivity|]).
  - split; [reflexivity|]. split; [exact Hf|exact Hp].
  - split; [reflexivity|]. split; [exact Hf|exact Hp].
  - destruct (ID_received_outside (with_dec d s)) as (-> & -> & ->).
    split; [reflexivity|]. split; [exact Hf|exact Hp].
Qed.

(** X2: A byte that violates the prefix of a Short Range frame restarts the
    state machine and does nothing else: no message, no ID, no timer. *)
Theorem prefix_violation_restarts (r : Z) (s : State) :
  RFID_Type (l_pRFID_Cfg (rfid s)) = RFID_TYPE_SR ->
  0 <= l_State (rfid s) <= 4 ->
  length (w (rfid s)) = 14%nat ->
  Z.land r 0xFF <> nth_Z 0 v_prefix (l_State (rfid s)) ->
  exists s',
    RFID_Decode bc r s = Ok s' /\
    l_State (rfid s') = 0 /\
    hw s' = hw s /\
    g_Transponder (rfid s') = g_Transponder (rfid s) /\
    l_flgNewID (rfid s') = l_flgNewID (rfid s) /\
    l_flgNewRun (rfid s') = l_flgNewRun (rfid s).
Proof.
  intros Ht Hk Hlen Hb.
  destruct (RFID_Decode_SR_violation_shape bc r (dec_of s) s Ht Hk Hlen Hb)
    as (s' & E & S & E0 & _).
  rewrite with_dec_of in E. exists s'. split; [exact E|].
  split; [exact E0|]. rewrite S. repeat split; reflexivity.
Qed.

(** X3: With a reader type that is neither Short Range nor Long Range the
    words received move nothing but the buffer and the error counters. *)
Theorem unknown_reader_type_ignored (raw : list Z) (s : State) :
  RFID_Type (l_pRFID_Cfg (rfid s)) <> RFID_TYPE_SR ->
  RFID_Type (l_pRFID_Cfg (rfid s)) <> RFID_TYPE_LR ->
  0 <= l_State (rfid s) <= 13 ->
  length (w (rfid s)) = 14%nat ->
  exists s',
    RFID_Decode_stream bc raw s = Ok s' /\
    (raw <> [] -> l_State (rfid s') = 0) /\
    hw s' = hw s /\
    g_Transponder (rfid s') = g_Transponder (rfid s) /\
    l_flgNewID (rfid s') = l_flgNewID (rfid s) /\
    l_flgNewRun (rfid s') = l_flgNewRun (rfid s).
Proof.
  revert s. induction raw as [|r raw IH]; intros s Hsr Hlr Hk Hlen.
  - exists s. repeat split; try reflexivity. intros H. contradiction.
  - destruct (RFID_Decode_restart_shape bc r (dec_of s) s Hk Hlen)
      as (s1 & E & S & E0 & _ & _ & L1); [right; split; assumption|].
    rewrite with_dec_of in E.
    assert (Hc : l_pRFID_Cfg (rfid s1) = l_pRFID_Cfg (rfid s))
      by (rewrite S; reflexivity).
    destruct (IH s1) as (s2 & E2 & Z2 & H2 & T2 & N2 & R2);
      [rewrite Hc; assumption|rewrite Hc; assumption|rewrite E0; lia|exact L1|].
    exists s2. cbn [RFID_Decode_stream]. rewrite E. cbn [bind].
    split; [exact E2|]. split.
    + intros _. destruct raw as [|r' raw'].
      * cbn in E2. injection E2 as <-. exact E0.
      * apply Z2. discriminate.
    + rewrite H2, T2, N2, R2, S. repeat split; reflexivity.
Qed.

End DecoderFrame.

Lemma prefix_violation_restarts_witness :
  exists s',
    RFID_Decode build_alarm 0x41 s_newrun = Ok s' /\
    l_State (rfid s') = 0 /\
    hw s' = hw s_newrun /\
    g_Transponder (rfid s') = g_Transponder (rfid s_newrun) /\
    l_flgNewID (rfid s') = l_flgNewID (rfid s_newrun) /\
    l_flgNewRun (rfid s') = l_flgNewRun (rfid s_newrun).
Proof.
  apply (prefix_violation_restarts build_alarm 0x41 s_newrun);
    [reflexivity | vm_compute; split; discriminate | reflexivity
    | vm_compute; discriminate].
Defined.

Lemma RFID_Decode_leaves_rest_witness :
  exists s',
    RFID_Decode build_alarm 0x800E s_newrun = Ok s' /\
    outside_decoder s' = outside_decoder s_newrun /\
    g_FERR_Cnt (rfid s')
    = (if negb (Z.land 0x800E USART_RXDATAX_FERR =? 0)
       then wrap16 (g_FERR_Cnt (rfid s_newrun) + 1)
       else g_FERR_Cnt (rfid s_newrun)) /\
    g_PERR_Cnt (rfid s')
    = (if negb (Z.land 0x800E USART_RXDATAX_PERR =? 0)
       then wrap16 (g_PERR_Cnt (rfid s_newrun) + 1)
       else g_PERR_Cnt (rfid s_newrun)).
Proof.
  apply (RFID_Decode_leaves_rest build_alarm 0x800E s_newrun);
    [vm_compute; split; discriminate | reflexivity].
Defined.

Lemma unknown_reader_type_ignored_witness :
  exists s',
    RFID_Decode_stream build_alarm frame_SR s_no_reader = Ok s' /\
    (frame_SR <> [] -> l_State (rfid s') = 0) /\
    hw s' = hw s_no_reader /\
    g_Transponder (rfid s') = g_Transponder (rfid s_no_reader) /\
    l_flgNewID (rfid s') = l_flgNewID (rfid s_no_reader) /\
    l_flgNewRun (rfid s') = l_flgNewRun (rfid s_no_reader).
Proof.
  apply (unknown_reader_type_ignored build_alarm frame_SR s_no_reader);
    [vm_compute; discriminate | vm_compute; discriminate
    | vm_compute; split; discriminate | reflexivity].
Defined.

(** ** RFID_Decode(): frames with a wrong checksum, and the IDs of the two
    frame formats *)

Section FrameFacts.
Variable bc : Build.

(** A Short Range frame with the right prefix and a wrong checksum ends in
    the error message of the state 13. *)
Lemma SR_frame_rejected (raw : list Z) (s : State) :
  RFID_Type (l_pRFID_Cfg (rfid s)) = RFID_TYPE_SR ->
  l_State (rfid s) = 0 ->
  length (w (rfid s)) = 14%nat ->
  length raw = 14%nat ->
  take 5 (data_bits raw) = v_prefix ->
  data_bits raw !! 13%nat <> Some (foldl Z.lxor 0 (take 13 (data_bits raw))) ->
  exists d msg,
    RFID_Decode_stream bc raw s = Ok (set_l_State 0 (LogError msg (with_dec d s))).
Proof.
  intros Ht H0 Hlen Hl Hpre Hsum.
  destruct (length_14_inv raw Hl)
    as (r0 & r1 & r2 & r3 & r4 & r5 & r6 & r7 & r8 & r9 & r10 & r11 & r12 & r13 & ->).
  set (rs := [r0; r1; r2; r3; r4; r5; r6; r7; r8; r9; r10; r11; r12]).
  change [r0; r1; r2; r3; r4; r5; r6; r7; r8; r9; r10; r11; r12; r13]
    with (rs ++ [r13]) in *.
  set (d0 := dec_of s).
  assert (Hd0 : d_State d0 = 0) by exact H0.
  assert (Hw0 : length (d_w d0) = 14%nat) by exact Hlen.
  replace (RFID_Decode_stream bc (rs ++ [r13]) s)
    with (RFID_Decode_stream bc (rs ++ [r13]) (with_dec d0 s))
    by (unfold d0; rewrite with_dec_of; reflexivity).
  rewrite RFID_Decode_stream_app.
  rewrite (RFID_Decode_stream_SR_advance bc rs d0 s Ht); try assumption; try lia.
  2:{ rewrite Hd0. cbn [length rs]. lia. }
  2:{ intros i r Hi Hle. rewrite Hd0 in *. rewrite Z.add_0_l in *.
      cbn [take data_bits map app rs] in Hpre.
      injection Hpre as E0 E1 E2 E3 E4.
      destruct i as [|[|[|[|[|i]]]]]; try lia;
        cbn [rs lookup] in Hi; injection Hi as <-; assumption. }
  cbn [bind RFID_Decode_stream].
  set (d13 := dec_SR_run rs d0).
  assert (Hs13 : d_State d13 = 13).
  { unfold d13. rewrite dec_SR_run_State, Hd0. reflexivity. }
  assert (Hw13 : length (d_w d13) = 14%nat).
  { unfold d13. rewrite dec_SR_run_length. exact Hw0. }
  assert (Hx13 : d_xorsum d13 <> Z.land r13 0xFF).
  { unfold d13, rs. rewrite dec_SR_run_xorsum by exact Hd0.
    intros E. apply Hsum.
    change (Some (Z.land r13 255) = Some (foldl Z.lxor 0 (data_bits rs))).
    f_equal. symmetry. exact E. }
  rewrite RFID_Decode_SR_last by assumption.
  destruct (_ =? d_xorsum d13) eqn:E;
    [exfalso; apply Hx13; symmetry; apply Z.eqb_eq; exact E|].
  cbn [bind]. eexists. eexists. reflexivity.
Qed.

(** The same for a Long Range frame with a wrong CRC. *)
Lemma LR_frame_rejected (raw : list Z) (s : State) :
  RFID_Type (l_pRFID_Cfg (rfid s)) = RFID_TYPE_LR ->
  l_State (rfid s) = 0 ->
  length (w (rfid s)) = 14%nat ->
  length raw = 11%nat ->
  data_bits raw !! 0%nat = Some 0x54 ->
  LR_recv_crc (data_bits raw) <> foldl crc_update 0 (take 8 (drop 1 (data_bits raw))) ->
  exists d msg,
    RFID_Decode_stream bc raw s = Ok (set_l_State 0 (LogError msg (with_dec d s))).
Proof.
  intros Ht H0 Hlen Hl Hpre Hsum.
  destruct (length_11_inv raw Hl)
    as (r0 & r1 & r2 & r3 & r4 & r5 & r6 & r7 & r8 & r9 & r10 & ->).
  set (rs := [r0; r1; r2; r3; r4; r5; r6; r7; r8; r9]).
  change [r0; r1; r2; r3; r4; r5; r6; r7; r8; r9; r10] with (rs ++ [r10]) in *.
  set (d0 := dec_of s).
  assert (Hd0 : d_State d0 = 0) by exact H0.
  assert (Hw0 : length (d_w d0) = 14%nat) by exact Hlen.
  replace (RFID_Decode_stream bc (rs ++ [r10]) s)
    with (RFID_Decode_stream bc (rs ++ [r10]) (with_dec d0 s))
    by (unfold d0; rewrite with_dec_of; reflexivity).
  rewrite RFID_Decode_stream_app.
  rewrite (RFID_Decode_stream_LR_advance bc rs d0 s Ht); try assumption; try lia.
  2:{ rewrite Hd0. cbn [length rs]. lia. }
  2:{ intros _ r Hr. cbn [rs lookup] in Hr. injection Hr as <-.
      cbn [data_bits map app rs lookup] in Hpre. injection Hpre as Hpre.
      exact Hpre. }
  cbn [bind RFID_Decode_stream].
  set (d10 := dec_LR_run rs d0).
  assert (Hs10 : d_State d10 = 10).
  { unfold d10. rewrite dec_LR_run_State, Hd0. reflexivity. }
  assert (Hw10 : length (d_w d10) = 14%nat).
  { unfold d10. rewrite dec_LR_run_length. exact Hw0. }
  assert (Hst : forall i : nat, (i < 10)%nat ->
            d_w d10 !! i = data_bits (rs ++ [r10]) !! i).
  { intros i Hi.
    pose proof (dec_LR_run_stored rs d0 i) as Hst.
    rewrite Hd0 in Hst. change (Z.to_nat 0 + i)%nat with i in Hst.
    fold d10 in Hst. rewrite Hst.
    - unfold data_bits. rewrite !list_lookup_fmap.
      rewrite lookup_app_l by (cbn [length rs]; lia). reflexivity.
    - lia.
    - rewrite Hw0. cbn [length rs]. lia.
    - cbn [length rs]. lia. }
  assert (Hfin : forall k, 0 <= k <= 10 ->
            nth_Z 0 (d_w (dec_last r10 d10)) k = nth_Z 0 (data_bits (rs ++ [r10])) k).
  { intros k Hk. apply nth_Z_lookup; [lia|].
    cbn [dec_last d_w]. rewrite Hs10. unfold upd_Z.
    change (10 <? 0) with false. cbv iota.
    destruct (Z.eq_dec k 10) as [->|Hne].
    - rewrite list_lookup_insert_eq by (rewrite Hw10; cbn; lia). reflexivity.
    - rewrite list_lookup_insert_ne by lia. apply Hst. lia. }
  assert (Hc10 : LR_recv_crc (d_w (dec_last r10 d10)) <> d_crc d10).
  { unfold LR_recv_crc. rewrite !Hfin by lia.
    unfold d10, rs. rewrite dec_LR_run_crc by exact Hd0.
    exact Hsum. }
  rewrite RFID_Decode_LR_last by assumption.
  destruct (_ =? d_crc d10) eqn:E;
    [exfalso; apply Hc10; apply Z.eqb_eq; exact E|].
  cbn [bind]. eexists. eexists. reflexivity.
Qed.

(** X4: A frame whose last byte does not fit is discarded: one error message is
    logged, the state machine restarts, and neither the stored ID, nor the
    flags of a new ID or a new run, nor a timer is touched. *)
Theorem wrong_checksum_discards_frame (raw : list Z) (s : State) :
  l_State (rfid s) = 0 ->
  length (w (rfid s)) = 14%nat ->
  (RFID_Type (l_pRFID_Cfg (rfid s)) = RFID_TYPE_SR /\
   length raw = 14%nat /\ take 5 (data_bits raw) = v_prefix /\
   data_bits raw !! 13%nat <> Some (foldl Z.lxor 0 (take 13 (data_bits raw))))
  \/
  (RFID_Type (l_pRFID_Cfg (rfid s)) = RFID_TYPE_LR /\
   length raw = 11%nat /\ data_bits raw !! 0%nat = Some 0x54 /\
   LR_recv_crc (data_bits raw)
   <> foldl crc_update 0 (take 8 (drop 1 (data_bits raw)))) ->
  exists s' msg,
    RFID_Decode_stream bc raw s = Ok s' /\
    l_State (rfid s') = 0 /\
    trace (hw s') = EvLogError msg :: trace (hw s) /\
    timers (hw s') = timers (hw s) /\
    g_Transponder (rfid s') = g_Transponder (rfid s) /\
    l_flgNewID (rfid s') = l_flgNewID (rfid s) /\
    l_flgNewRun (rfid s') = l_flgNewRun (rfid s).
Proof.
  intros H0 Hlen [(Ht & Hl & Hp & Hx)|(Ht & Hl & Hp & Hx)].
  - destruct (SR_frame_rejected raw s Ht H0 Hlen Hl Hp Hx) as (d & msg & E).
    rewrite E. eexists. exists msg. split; [reflexivity|].
    repeat split; reflexivity.
  - destruct (LR_frame_rejected raw s Ht H0 Hlen Hl Hp Hx) as (d & msg & E).
    rewrite E. eexists. exists msg. split; [reflexivity|].
    repeat split; reflexivity.
Qed.

Lemma id_bytes_LR (frame : list Z) :
  length frame = 11%nat -> id_bytes frame = rev (LR_payload frame).
Proof.
  intros H. destruct (length_11_inv frame H)
    as (a0 & a1 & a2 & a3 & a4 & a5 & a6 & a7 & a8 & a9 & a10 & ->).
  reflexivity.
Qed.

Lemma id_bytes_SR (frame : list Z) :
  length frame = 14%nat -> take 5 frame = v_prefix ->
  id_bytes frame = SR_id_payload frame ++ [0x05; 0x00; 0x11; 0x00].
Proof.
  intros H Hp. destruct (length_14_inv frame H)
    as (a0 & a1 & a2 & a3 & a4 & a5 & a6 & a7 & a8 & a9 & a10 & a11 & a12 & a13 & ->).
  cbn [take] in Hp. injection Hp as -> -> -> -> ->. reflexivity.
Qed.

(** X5: A well-formed Long Range frame ('T', eight payload bytes, the CRC of the
    payload) received with a new run marked: one new-ID notification, the ID
    is the payload in reverse order in 16 hexadecimal digits, the state
    machine is back at 0. *)
Theorem long_range_frame_decoded (raw : list Z) (s : State) :
  l_State (rfid s) = 0 -> l_flgNewRun (rfid s) = true ->
  RFID_Type (l_pRFID_Cfg (rfid s)) = RFID_TYPE_LR ->
  length (w (rfid s)) = 14%nat ->
  well_formed_LR (data_bits raw) ->
  exists s',
    RFID_Decode_stream bc raw s = Ok s' /\
    count_events is_NewID (trace (hw s'))
    = S (count_events is_NewID (trace (hw s))) /\
    l_flgNewID (rfid s') = true /\
    g_Transponder (rfid s') = hex_string (rev (LR_payload (data_bits raw))) /\
    parse_hex (g_Transponder (rfid s')) = Some (rev (LR_payload (data_bits raw))) /\
    l_State (rfid s') = 0.
Proof.
  intros H0 Hnr Ht Hlen Hwf.
  destruct (frame_effect bc raw s) as (s' & E & E0 & _ & _ & _ & _ & _ & ET & _ & EN & EC & _);
    [right; split; assumption|exact H0|exact Hlen|].
  assert (Hfresh : is_fresh (hex_string (id_bytes (data_bits raw))) s = true)
    by (unfold is_fresh; rewrite Hnr; reflexivity).
  rewrite Hfresh in ET, EN, EC.
  rewrite id_bytes_LR in ET by (destruct Hwf as [Hl _]; exact Hl).
  exists s'. split; [exact E|]. split; [rewrite EC; lia|].
  split; [exact EN|]. split; [exact ET|]. split; [|exact E0].
  rewrite ET. apply parse_hex_hex_string.
  rewrite <- id_bytes_LR by (destruct Hwf as [Hl _]; exact Hl).
  apply id_bytes_range.
Qed.

(** X6: The ID of a Short Range frame is made of the first four payload bytes
    in reverse order, followed by the prefix bytes 05 00 11 00: the last
    four payload bytes do not enter it. *)
Theorem short_range_id_layout (raw : list Z) (s : State) :
  l_State (rfid s) = 0 -> l_flgNewRun (rfid s) = true ->
  RFID_Type (l_pRFID_Cfg (rfid s)) = RFID_TYPE_SR ->
  length (w (rfid s)) = 14%nat ->
  well_formed_SR (data_bits raw) ->
  exists s',
    RFID_Decode_stream bc raw s = Ok s' /\
    g_Transponder (rfid s')
    = (hex_string (SR_id_payload (data_bits raw)) ++ "05001100")%string.
Proof.
  intros H0 Hnr Ht Hlen Hwf.
  destruct (frame_effect bc raw s) as (s' & E & _ & _ & _ & _ & _ & _ & ET & _);
    [left; split; assumption|exact H0|exact Hlen|].
  assert (Hfresh : is_fresh (hex_string (id_bytes (data_bits raw))) s = true)
    by (unfold is_fresh; rewrite Hnr; reflexivity).
  rewrite Hfresh in ET. destruct Hwf as (Hl & Hp & _).
  rewrite (id_bytes_SR _ Hl Hp) in ET.
  exists s'. split; [exact E|]. rewrite ET.
  destruct (length_14_inv _ Hl)
    as (a0 & a1 & a2 & a3 & a4 & a5 & a6 & a7 & a8 & a9 & a10 & a11 & a12 & a13 & ->).
  reflexivity.
Qed.

End FrameFacts.

(** X7: The rendering of the ID can be read back: the sixteen characters are
    upper-case hexadecimal digits, two for each of the bytes [w[8]] down to
    [w[1]]. *)
Theorem hex_id_round_trip (wv : list Z) :
  Forall (fun b => 0 <= b < 256) wv ->
  parse_hex (hex_id wv) = Some (id_bytes wv) /\
  String.length (hex_id wv) = 16%nat.
Proof.
  intros Hw. rewrite hex_id_id_bytes. split.
  - apply parse_hex_hex_string. unfold id_bytes. cbn [map].
    assert (Hn : forall k, 0 <= nth_Z 0 wv k < 256).
    { intros k. unfold nth_Z. destruct (k <? 0); [lia|].
      destruct (wv !! Z.to_nat k) as [b|] eqn:E; cbn; [|lia].
      exact (Forall_lookup_1 _ _ _ _ Hw E). }
    repeat (apply Forall_cons; split; [apply Hn|]). apply Forall_nil. exact I.
  - rewrite length_hex_string. reflexivity.
Qed.

Lemma wrong_checksum_discards_frame_witness :
  exists s' msg,
    RFID_Decode_stream build_alarm frame_LR_bad_crc s_long_range = Ok s' /\
    l_State (rfid s') = 0 /\
    trace (hw s') = EvLogError msg :: trace (hw s_long_range) /\
    timers (hw s') = timers (hw s_long_range) /\
    g_Transponder (rfid s') = g_Transponder (rfid s_long_range) /\
    l_flgNewID (rfid s') = l_flgNewID (rfid s_long_range) /\
    l_flgNewRun (rfid s') = l_flgNewRun (rfid s_long_range).
Proof.
  apply (wrong_checksum_discards_frame build_alarm frame_LR_bad_crc s_long_range);
    [reflexivity | reflexivity |].
  right. split; [reflexivity|]. split; [reflexivity|]. split; [reflexivity|].
  vm_compute. discriminate.
Defined.

Lemma long_range_frame_decoded_witness :
  exists s',
    RFID_Decode_stream build_alarm frame_LR s_long_range = Ok s' /\
    count_events is_NewID (trace (hw s'))
    = S (count_events is_NewID (trace (hw s_long_range))) /\
    l_flgNewID (rfid s') = true /\
    g_Transponder (rfid s') = hex_string (rev (LR_payload (data_bits frame_LR))) /\
    parse_hex (g_Transponder (rfid s'))
    = Some (rev (LR_payload (data_bits frame_LR))) /\
    l_State (rfid s') = 0.
Proof.
  apply (long_range_frame_decoded build_alarm frame_LR s_long_range);
    [reflexivity | reflexivity | reflexivity | reflexivity |].
  split; [reflexivity|]. split; reflexivity.
Defined.

Lemma short_range_id_layout_witness :
  exists s',
    RFID_Decode_stream build_alarm frame_SR s_newrun = Ok s' /\
    g_Transponder (rfid s')
    = (hex_string (SR_id_payload (data_bits frame_SR)) ++ "05001100")%string.
Proof.
  apply (short_range_id_layout build_alarm frame_SR s_newrun);
    [reflexivity | reflexivity | reflexivity | reflexivity |].
  split; [reflexivity|]. split; reflexivity.
Defined.

Lemma hex_id_round_trip_witness :
  parse_hex (hex_id frame_SR) = Some (id_bytes frame_SR) /\
  String.length (hex_id frame_SR) = 16%nat.
Proof.
  apply (hex_id_round_trip frame_SR).
  repeat (apply Forall_cons; split; [lia|]). apply Forall_nil. exact I.
Defined.

(** ** Control.c: power outputs, configuration, measuring *)

Lemma sTimerStart_menu (h c : Z) (s : State) : menu (sTimerStart h c s) = menu s.
Proof. unfold sTimerStart. cbv zeta. split_ifs; reflexivity. Qed.

Section ControlFacts.
Variable bc : Build.

(** X8: ControlPowerFailHandler() leaves none of the power outputs UA1, UA2
    and BATT on, whatever was on before ([r] is of the enumeration PWR_OUT:
    PWR_OUT_NONE or one of the three outputs). *)
Theorem ControlPowerFailHandler_all_off (r : Z) (s : State) :
  PWR_OUT_NONE <= r < NUM_PWR_OUT ->
  length (pwrPin (hw s)) = 3%nat ->
  IsPowerOutputOn r (ControlPowerFailHandler bc s) = false /\
  powerFail (hw (ControlPowerFailHandler bc s)) = powerFail (hw s).
Proof.
  intros Hr Hlen. unfold ControlPowerFailHandler. cbv zeta. cbn [foldl].
  set (s0 := ifdef_LOGGING bc (Log Msg_SwitchingAllOff) s).
  assert (H0 : pwrPin (hw s0) = pwrPin (hw s) /\ powerFail (hw s0) = powerFail (hw s))
    by (unfold s0, ifdef_LOGGING, Log; destruct (LOGGING bc); split; reflexivity).
  destruct H0 as [H0 F0].
  set (s1 := PowerOutput bc 0 PWR_OFF s0).
  set (s2 := PowerOutput bc 1 PWR_OFF s1).
  assert (L0 : length (pwrPin (hw s0)) = 3%nat) by (rewrite H0; exact Hlen).
  assert (L1 : length (pwrPin (hw s1)) = 3%nat)
    by (unfold s1; rewrite PowerOutput_length; exact L0).
  assert (L2 : length (pwrPin (hw s2)) = 3%nat)
    by (unfold s2; rewrite PowerOutput_length; exact L1).
  split.
  - unfold IsPowerOutputOn. destruct (r =? PWR_OUT_NONE); [reflexivity|].
    rewrite PowerOutput_pins by (unfold NUM_PWR_OUT; lia || exact L2).
    unfold s2. rewrite PowerOutput_pins by (unfold NUM_PWR_OUT; lia || exact L1).
    unfold s1. rewrite PowerOutput_pins by (unfold NUM_PWR_OUT; lia || exact L0).
    cbn [andb PWR_OFF].
    destruct (pwrPin (hw s0)) as [|p0 [|p1 [|p2 [|]]]]; try discriminate L0.
    unfold nth_Z, upd_Z. cbn [Z.ltb Z.compare].
    destruct (r <? 0); [reflexivity|].
    destruct (Z.to_nat r) as [|[|[|n]]]; reflexivity.
  - rewrite PowerOutput_powerFail. unfold s2. rewrite PowerOutput_powerFail.
    unfold s1. rewrite PowerOutput_powerFail. exact F0.
Qed.

(** X9: PowerOutput() for one output never moves the pin of another output,
    and has no business with the RFID module or the menu. *)
Theorem PowerOutput_one_pin (r r' : Z) (e : bool) (s : State) :
  0 <= r < NUM_PWR_OUT -> length (pwrPin (hw s)) = 3%nat -> r' <> r ->
  IsPowerOutputOn r' (PowerOutput bc r e s) = IsPowerOutputOn r' s /\
  rfid (PowerOutput bc r e s) = rfid s /\
  menu (PowerOutput bc r e s) = menu s /\
  powerFail (hw (PowerOutput bc r e s)) = powerFail (hw s).
Proof.
  intros Hr Hlen Hne. split; [|split; [apply PowerOutput_rfid|split]].
  - unfold IsPowerOutputOn. destruct (r' =? PWR_OUT_NONE); [reflexivity|].
    rewrite (PowerOutput_pins bc r e s Hr Hlen).
    destruct (e && IsPowerFail s); [reflexivity|].
    apply nth_upd_Z_ne. congruence.
  - unfold PowerOutput, ifdef_LOGGING, Log, LogError, DisplayUpdate. cbv zeta.
    split_ifs;
      repeat (ssimpl; rewrite ?sTimerCancel_menu, ?sTimerStart_menu);
      reflexivity.
  - apply PowerOutput_powerFail.
Qed.

End ControlFacts.

(** *** VerifyConfiguration() *)

Lemma verify_rail_accepted (i : Z) (s : State) :
  cycling_accepted (nth_Z 0 (g_PwrInterval (ctrl s)) i)
                   (nth_Z 0 (g_On_Duration (ctrl s)) i) ->
  verify_rail i s = s.
Proof.
  unfold cycling_accepted, verify_rail, MIN_VAL_INTERVAL, MIN_VAL_ON_DURATION,
    MIN_VAL_OFF_DURATION.
  intros H. cbv zeta.
  destruct (Z.leb_spec (nth_Z 0 (g_PwrInterval (ctrl s)) i) 0); [reflexivity|].
  destruct (Z.ltb_spec (nth_Z 0 (g_PwrInterval (ctrl s)) i) 10);
    [exfalso; lia|].
  destruct (Z.ltb_spec (nth_Z 0 (g_On_Duration (ctrl s)) i) 5);
    [exfalso; lia|].
  destruct (Z.ltb_spec (nth_Z 0 (g_PwrInterval (ctrl s)) i
                        - nth_Z 0 (g_On_Duration (ctrl s)) i) 5);
    [exfalso; lia|].
  reflexivity.
Qed.

Lemma verify_rail_settles (i : Z) (s : State) :
  0 <= i < Z.of_nat (length (g_PwrInterval (ctrl s))) ->
  0 <= i < Z.of_nat (length (g_On_Duration (ctrl s))) ->
  cycling_accepted (nth_Z 0 (g_PwrInterval (ctrl (verify_rail i s))) i)
                   (nth_Z 0 (g_On_Duration (ctrl (verify_rail i s))) i).
Proof.
  intros Hi Hd.
  destruct (verify_rail_same i s Hi Hd) as (_ & _ & Hacc & Hrej).
  set (interval := nth_Z 0 (g_PwrInterval (ctrl s)) i) in *.
  set (duration := nth_Z 0 (g_On_Duration (ctrl s)) i) in *.
  assert (Hdec : cycling_accepted interval duration \/
                 ~ cycling_accepted interval duration).
  { unfold cycling_accepted, MIN_VAL_INTERVAL, MIN_VAL_ON_DURATION,
      MIN_VAL_OFF_DURATION. lia. }
  destruct Hdec as [Ha|Hn].
  - destruct (Hacc Ha) as (-> & -> & _). exact Ha.
  - destruct (Hrej Hn) as (-> & -> & _). left. lia.
Qed.

Lemma verify_rail_keeps (i j : Z) (s : State) :
  i <> j ->
  cycling_accepted (nth_Z 0 (g_PwrInterval (ctrl s)) i)
                   (nth_Z 0 (g_On_Duration (ctrl s)) i) ->
  cycling_accepted (nth_Z 0 (g_PwrInterval (ctrl (verify_rail j s))) i)
                   (nth_Z 0 (g_On_Duration (ctrl (verify_rail j s))) i).
Proof.
  intros Hne Ha. destruct (verify_rail_other i j s Hne) as (-> & -> & _).
  exact Ha.
Qed.

(** X10: VerifyConfiguration() leaves a configuration that it accepts: every
    power output has an accepted cycling configuration, the scan duration is
    within its limits, and a second run changes nothing and logs nothing. *)
Theorem VerifyConfiguration_settles (s : State) :
  length (g_PwrInterval (ctrl s)) = 3%nat ->
  length (g_On_Duration (ctrl s)) = 3%nat ->
  let s' := VerifyConfiguration s in
  (forall i, 0 <= i < 3 ->
     cycling_accepted (nth_Z 0 (g_PwrInterval (ctrl s')) i)
                      (nth_Z 0 (g_On_Duration (ctrl s')) i)) /\
  MIN_SCAN_DURATION <= l_ScanDuration (ctrl s') <= MAX_SCAN_DURATION /\
  VerifyConfiguration s' = s'.
Proof.
  intros HI HD. cbv zeta.
  set (s1 := verify_rail 0 s).
  set (s2 := verify_rail 1 s1).
  set (s3 := verify_rail 2 s2).
  destruct (verify_rail_same 0 s) as (I1 & D1 & _); [lia|lia|]. fold s1 in I1, D1.
  destruct (verify_rail_same 1 s1) as (I2 & D2 & _); [lia|lia|]. fold s2 in I2, D2.
  assert (A0 : cycling_accepted (nth_Z 0 (g_PwrInterval (ctrl s3)) 0)
                                (nth_Z 0 (g_On_Duration (ctrl s3)) 0)).
  { unfold s3, s2. apply verify_rail_keeps; [lia|].
    apply verify_rail_keeps; [lia|]. apply verify_rail_settles; lia. }
  assert (A1 : cycling_accepted (nth_Z 0 (g_PwrInterval (ctrl s3)) 1)
                                (nth_Z 0 (g_On_Duration (ctrl s3)) 1)).
  { unfold s3. apply verify_rail_keeps; [lia|].
    apply verify_rail_settles; lia. }
  assert (A2 : cycling_accepted (nth_Z 0 (g_PwrInterval (ctrl s3)) 2)
                                (nth_Z 0 (g_On_Duration (ctrl s3)) 2)).
  { apply verify_rail_settles; lia. }
  assert (Hfold : forall t,
            g_PwrInterval (ctrl t) = g_PwrInterval (ctrl s3) ->
            g_On_Duration (ctrl t) = g_On_Duration (ctrl s3) ->
            foldl (fun s i => verify_rail i s) t [0; 1; 2] = t).
  { intros t EI ED. cbn [foldl].
    rewrite (verify_rail_accepted 0 t) by (rewrite EI, ED; exact A0).
    rewrite (verify_rail_accepted 1 t) by (rewrite EI, ED; exact A1).
    apply verify_rail_accepted. rewrite EI, ED. exact A2. }
  assert (Hv : VerifyConfiguration s
               = (let scan := l_ScanDuration (ctrl s3) in
                  if scan <? MIN_SCAN_DURATION
                  then set_l_ScanDuration MIN_SCAN_DURATION
                         (LogError (Msg_Cfg_ScanTooSmall scan) s3)
                  else if scan >? MAX_SCAN_DURATION
                       then set_l_ScanDuration MAX_SCAN_DURATION
                              (LogError (Msg_Cfg_ScanTooLong scan) s3)
                       else s3)) by reflexivity.
  rewrite Hv. cbv zeta. unfold MIN_SCAN_DURATION, MAX_SCAN_DURATION.
  destruct (Z.ltb_spec (l_ScanDuration (ctrl s3)) 52) as [Hlt|Hge];
    [|destruct (Z.gtb_spec (l_ScanDuration (ctrl s3)) 2200) as [Hgt|Hle]].
  - split; [|split].
    + intros i Hi. assert (i = 0 \/ i = 1 \/ i = 2) as [->|[->| ->]] by lia;
        assumption.
    + ssimpl. lia.
    + unfold VerifyConfiguration. cbv zeta. rewrite Hfold by reflexivity.
      ssimpl. reflexivity.
  - split; [|split].
    + intros i Hi. assert (i = 0 \/ i = 1 \/ i = 2) as [->|[->| ->]] by lia;
        assumption.
    + ssimpl. lia.
    + unfold VerifyConfiguration. cbv zeta. rewrite Hfold by reflexivity.
      ssimpl. reflexivity.
  - split; [|split].
    + intros i Hi. assert (i = 0 \/ i = 1 \/ i = 2) as [->|[->| ->]] by lia;
        assumption.
    + lia.
    + unfold VerifyConfiguration. cbv zeta. rewrite Hfold by reflexivity.
      unfold MIN_SCAN_DURATION, MAX_SCAN_DURATION.
      destruct (Z.ltb_spec (l_ScanDuration (ctrl s3)) 52); [exfalso; lia|].
      destruct (Z.gtb_spec (l_ScanDuration (ctrl s3)) 2200); [exfalso; lia|].
      reflexivity.
Qed.

(** *** MeasureStop() *)

(** X11: The follow-up timer of a measuring facility disables it and takes its
    two channels out of the scan; with no channel left the ADC is stopped.
    No power output is touched. *)
Theorem MeasureStop_stops (m hdl : Z) (s : State) :
  let dflt := Build_MEASURE_DEF NONE 0 0 0 0 0 in
  let md := nth_Z dflt (l_MeasureDef (ctrl s)) m in
  let s' := MeasureStop hdl s in
  (m = 0 \/ m = 1 /\ hdlFollowUpTime (nth_Z dflt (l_MeasureDef (ctrl s)) 0) <> hdl) ->
  hdlFollowUpTime md = hdl ->
  length (measPin (hw s)) = 2%nat ->
  0 <= ChanU md -> 0 <= ChanI md ->
  nth_Z true (measPin (hw s')) m = false /\
  Z.testbit (l_ADC_ActiveChanMask (ctrl s')) (ChanU md) = false /\
  Z.testbit (l_ADC_ActiveChanMask (ctrl s')) (ChanI md) = false /\
  (forall k, k <> ChanU md -> k <> ChanI md ->
     Z.testbit (l_ADC_ActiveChanMask (ctrl s')) k
     = Z.testbit (l_ADC_ActiveChanMask (ctrl s)) k) /\
  l_flgADC_On (ctrl s')
  = (if l_ADC_ActiveChanMask (ctrl s') =? 0 then false else l_flgADC_On (ctrl s)) /\
  pwrPin (hw s') = pwrPin (hw s) /\
  timers (hw s') = timers (hw s).
Proof.
  intros dflt md s' Hm Hh Hlen HU HI. subst s'. unfold MeasureStop. cbv zeta.
  fold dflt.
  assert (Hpick :
    (if hdlFollowUpTime (nth_Z dflt (l_MeasureDef (ctrl s)) 0) =? hdl then Some 0
     else if hdlFollowUpTime (nth_Z dflt (l_MeasureDef (ctrl s)) 1) =? hdl
          then Some 1 else None) = Some m).
  { destruct Hm as [->|[-> Hne]].
    - fold md. rewrite Hh, Z.eqb_refl. reflexivity.
    - apply Z.eqb_neq in Hne. rewrite Hne. fold md. rewrite Hh, Z.eqb_refl.
      reflexivity. }
  rewrite Hpick. fold md.
  set (mask := Z.clearbit (Z.clearbit (l_ADC_ActiveChanMask (ctrl s)) (ChanU md))
                          (ChanI md)).
  assert (HbU : Z.testbit mask (ChanU md) = false).
  { unfold mask. rewrite Z.clearbit_eqb by assumption.
    destruct (Z.eq_dec (ChanI md) (ChanU md)) as [E|E].
    - rewrite E, Z.eqb_refl, andb_false_r. reflexivity.
    - rewrite Z.clearbit_eq by assumption. reflexivity. }
  assert (HbI : Z.testbit mask (ChanI md) = false)
    by (unfold mask; apply Z.clearbit_eq; assumption).
  assert (Hoth : forall k, k <> ChanU md -> k <> ChanI md ->
            Z.testbit mask k = Z.testbit (l_ADC_ActiveChanMask (ctrl s)) k).
  { intros k H1 H2. unfold mask.
    rewrite !Z.clearbit_neq by congruence. reflexivity. }
  assert (Hidx : 0 <= m < Z.of_nat (length (measPin (hw s))))
    by (rewrite Hlen; destruct Hm as [->|[-> _]]; lia).
  change (l_ADC_ActiveChanMask (ctrl (set_l_ADC_ActiveChanMask mask s)))
    with mask.
  destruct (mask =? 0) eqn:E0;
    (split; [apply nth_upd_Z_eq; exact Hidx|]);
    (split; [exact HbU|]); (split; [exact HbI|]); (split; [exact Hoth|]);
    (split; [|split; reflexivity]).
  - change (false = (if mask =? 0 then false else l_flgADC_On (ctrl s))).
    rewrite E0. reflexivity.
  - change (l_flgADC_On (ctrl s)
            = (if mask =? 0 then false else l_flgADC_On (ctrl s))).
    rewrite E0. reflexivity.
Qed.

Lemma MeasureStop_unknown_handle (hdl : Z) (s : State) :
  let dflt := Build_MEASURE_DEF NONE 0 0 0 0 0 in
  hdlFollowUpTime (nth_Z dflt (l_MeasureDef (ctrl s)) 0) <> hdl ->
  hdlFollowUpTime (nth_Z dflt (l_MeasureDef (ctrl s)) 1) <> hdl ->
  MeasureStop hdl s = s.
Proof.
  intros dflt H0 H1. unfold MeasureStop. cbv zeta. fold dflt.
  apply Z.eqb_neq in H0, H1. rewrite H0, H1. reflexivity.
Qed.

Lemma ControlPowerFailHandler_all_off_witness :
  IsPowerOutputOn PWR_OUT_UA2 (ControlPowerFailHandler build_alarm s_outputs_on)
  = false /\
  powerFail (hw (ControlPowerFailHandler build_alarm s_outputs_on))
  = powerFail (hw s_outputs_on).
Proof.
  apply (ControlPowerFailHandler_all_off build_alarm PWR_OUT_UA2 s_outputs_on);
    [vm_compute; split; [discriminate | reflexivity] | reflexivity].
Defined.

Lemma PowerOutput_one_pin_witness :
  IsPowerOutputOn PWR_OUT_UA2
    (PowerOutput build_alarm PWR_OUT_UA1 PWR_OFF s_outputs_on)
  = IsPowerOutputOn PWR_OUT_UA2 s_outputs_on /\
  rfid (PowerOutput build_alarm PWR_OUT_UA1 PWR_OFF s_outputs_on)
  = rfid s_outputs_on /\
  menu (PowerOutput build_alarm PWR_OUT_UA1 PWR_OFF s_outputs_on)
  = menu s_outputs_on /\
  powerFail (hw (PowerOutput build_alarm PWR_OUT_UA1 PWR_OFF s_outputs_on))
  = powerFail (hw s_outputs_on).
Proof.
  apply (PowerOutput_one_pin build_alarm PWR_OUT_UA1 PWR_OUT_UA2 PWR_OFF
           s_outputs_on);
    [vm_compute; split; [discriminate | reflexivity] | reflexivity
    | vm_compute; discriminate].
Defined.

Lemma VerifyConfiguration_settles_witness :
  (forall i, 0 <= i < 3 ->
     cycling_accepted
       (nth_Z 0 (g_PwrInterval (ctrl (VerifyConfiguration s_unverified))) i)
       (nth_Z 0 (g_On_Duration (ctrl (VerifyConfiguration s_unverified))) i)) /\
  MIN_SCAN_DURATION <= l_ScanDuration (ctrl (VerifyConfiguration s_unverified))
  <= MAX_SCAN_DURATION /\
  VerifyConfiguration (VerifyConfiguration s_unverified)
  = VerifyConfiguration s_unverified.
Proof.
  apply (VerifyConfiguration_settles s_unverified); reflexivity.
Defined.

Lemma MeasureStop_stops_witness :
  let dflt := Build_MEASURE_DEF NONE 0 0 0 0 0 in
  let md := nth_Z dflt (l_MeasureDef (ctrl s_outputs_on)) 1 in
  let s' := MeasureStop 1 s_outputs_on in
  nth_Z true (measPin (hw s')) 1 = false /\
  Z.testbit (l_ADC_ActiveChanMask (ctrl s')) (ChanU md) = false /\
  Z.testbit (l_ADC_ActiveChanMask (ctrl s')) (ChanI md) = false /\
  (forall k, k <> ChanU md -> k <> ChanI md ->
     Z.testbit (l_ADC_ActiveChanMask (ctrl s')) k
     = Z.testbit (l_ADC_ActiveChanMask (ctrl s_outputs_on)) k) /\
  l_flgADC_On (ctrl s')
  = (if l_ADC_ActiveChanMask (ctrl s') =? 0
     then false else l_flgADC_On (ctrl s_outputs_on)) /\
  pwrPin (hw s') = pwrPin (hw s_outputs_on) /\
  timers (hw s') = timers (hw s_outputs_on).
Proof.
  apply (MeasureStop_stops 1 1 s_outputs_on);
    [right; split; [reflexivity | vm_compute; discriminate] | reflexivity
    | reflexivity | vm_compute; discriminate | vm_compute; discriminate].
Defined.

(** ** RFID.c: power management of the reader *)

Lemma usart_sTimerStart (h c : Z) (s : State) :
  usartClock (hw (sTimerStart h c s)) = usartClock (hw s) /\
  usartRxPin (hw (sTimerStart h c s)) = usartRxPin (hw s).
Proof. unfold sTimerStart. cbv zeta. split_ifs; split; reflexivity. Qed.

Lemma usart_sTimerCancel (h : Z) (s : State) :
  usartClock (hw (sTimerCancel h s)) = usartClock (hw s) /\
  usartRxPin (hw (sTimerCancel h s)) = usartRxPin (hw s).
Proof. unfold sTimerCancel. cbv zeta. split_ifs; split; reflexivity. Qed.

Ltac through_timers :=
  repeat (ssimpl;
          rewrite ?sTimerCancel_rfid, ?sTimerStart_rfid,
            ?pwrPin_sTimerStart, ?pwrPin_sTimerCancel,
            ?powerFail_sTimerStart, ?powerFail_sTimerCancel,
            ?(fun h c s => proj1 (usart_sTimerStart h c s)),
            ?(fun h c s => proj2 (usart_sTimerStart h c s)),
            ?(fun h s => proj1 (usart_sTimerCancel h s)),
            ?(fun h s => proj2 (usart_sTimerCancel h s))).

Section ReaderPower.
Variable bc : Build.

Lemma PowerOutput_usart (r : Z) (e : bool) (s : State) :
  usartClock (hw (PowerOutput bc r e s)) = usartClock (hw s) /\
  usartRxPin (hw (PowerOutput bc r e s)) = usartRxPin (hw s).
Proof.
  unfold PowerOutput, ifdef_LOGGING, Log, LogError, DisplayUpdate. cbv zeta.
  split_ifs; through_timers; split; reflexivity.
Qed.

Lemma PowerOutput_other_pin (r r' : Z) (e : bool) (s : State) :
  r' <> r ->
  nth_Z false (pwrPin (hw (PowerOutput bc r e s))) r'
  = nth_Z false (pwrPin (hw s)) r'.
Proof.
  intros Hne.
  unfold PowerOutput, ifdef_LOGGING, Log, LogError, DisplayUpdate. cbv zeta.
  split_ifs; through_timers; rewrite ?nth_upd_Z_ne by congruence; reflexivity.
Qed.

Lemma RFID_PowerOff_rfid (s : State) :
  rfid (RFID_PowerOff bc s) = rfid (set_l_State 0 s).
Proof.
  unfold RFID_PowerOff, ifdef_LOGGING, Log. cbv zeta.
  destruct (LOGGING bc); ssimpl; rewrite PowerOutput_rfid; reflexivity.
Qed.

Lemma RFID_PowerOn_rfid (s : State) :
  rfid (RFID_PowerOn bc s)
  = rfid (if l_flgRFID_Activate (rfid s) then set_l_State 0 s else s).
Proof.
  unfold RFID_PowerOn, uartSetup, ifdef_LOGGING, Log. cbv zeta.
  destruct (l_flgRFID_Activate (rfid s)); [|reflexivity].
  destruct (LOGGING bc); ssimpl; rewrite PowerOutput_rfid; reflexivity.
Qed.

Lemma RFID_PowerOff_other_pin (r : Z) (s : State) :
  r <> RFID_PwrOut (l_pRFID_Cfg (rfid s)) ->
  nth_Z false (pwrPin (hw (RFID_PowerOff bc s))) r = nth_Z false (pwrPin (hw s)) r.
Proof.
  intros Hne. unfold RFID_PowerOff, ifdef_LOGGING, Log. cbv zeta.
  destruct (LOGGING bc); ssimpl; apply PowerOutput_other_pin; exact Hne.
Qed.

Lemma RFID_PowerOn_other_pin (r : Z) (s : State) :
  r <> RFID_PwrOut (l_pRFID_Cfg (rfid s)) ->
  nth_Z false (pwrPin (hw (RFID_PowerOn bc s))) r = nth_Z false (pwrPin (hw s)) r.
Proof.
  intros Hne. unfold RFID_PowerOn, uartSetup, ifdef_LOGGING, Log. cbv zeta.
  destruct (l_flgRFID_Activate (rfid s)); [|reflexivity].
  destruct (LOGGING bc); ssimpl; rewrite PowerOutput_other_pin by exact Hne;
    reflexivity.
Qed.

Ltac other_pins Hne :=
  repeat first
    [ progress through_timers
    | rewrite RFID_PowerOff_other_pin by (through_timers; exact Hne)
    | rewrite RFID_PowerOn_other_pin by (through_timers; exact Hne) ];
  reflexivity.

(** X12: The routines of the RFID module switch the power output of the reader
    and no other. *)
Theorem RFID_switches_its_output_only (r : Z) (s : State) :
  r <> RFID_PwrOut (l_pRFID_Cfg (rfid s)) ->
  IsPowerOutputOn r (RFID_Enable bc s) = IsPowerOutputOn r s /\
  IsPowerOutputOn r (RFID_Disable bc s) = IsPowerOutputOn r s /\
  IsPowerOutputOn r (RFID_Check bc s) = IsPowerOutputOn r s /\
  IsPowerOutputOn r (RFID_PowerFailHandler bc s) = IsPowerOutputOn r s.
Proof.
  intros Hne. unfold IsPowerOutputOn.
  destruct (r =? PWR_OUT_NONE); [repeat split; reflexivity|].
  split; [|split; [|split]].
  - unfold RFID_Enable, if_LIGHT_BARRIER. cbv zeta. split_ifs; other_pins Hne.
  - unfold RFID_Disable, if_LIGHT_BARRIER, ifdef_LOGGING, Log, cancel_AbsentDetect.
    cbv zeta. split_ifs; other_pins Hne.
  - unfold RFID_Check, ControlUpdateID, DisplayUpdate, ifdef_LOGGING, Log,
      cancel_AbsentDetect.
    cbv zeta. split_ifs; other_pins Hne.
  - unfold RFID_PowerFailHandler, if_LIGHT_BARRIER. cbv zeta.
    split_ifs; other_pins Hne.
Qed.

End ReaderPower.

Section ReaderStates.
Variable bc : Build.

(** X13: On power fail the reader is switched off at once, also while a
    transponder is present: RFID_PowerFailHandler() does not wait for the
    absence detection. *)
Theorem RFID_PowerFailHandler_down (s : State) :
  PWR_OUT_NONE <= RFID_PwrOut (l_pRFID_Cfg (rfid s)) < NUM_PWR_OUT ->
  length (pwrPin (hw s)) = 3%nat ->
  let s' := RFID_PowerFailHandler bc s in
  IsRFID_Enabled s' = false /\
  l_flgRFID_IsOn (rfid s') = false /\
  (l_flgRFID_IsOn (rfid s) = true -> reader_down s' = true) /\
  g_Transponder (rfid s') = g_Transponder (rfid s).
Proof.
  intros Hr Hlen. cbv zeta. unfold RFID_PowerFailHandler, IsRFID_Enabled.
  cbv zeta.
  match goal with
  | |- context [set_l_flgRFID_On false ?X] => set (sa := X)
  end.
  assert (Ha : reader_part sa = reader_part s /\ rfid sa = rfid s).
  { unfold sa, if_LIGHT_BARRIER.
    split_ifs; rewrite ?reader_part_sTimerCancel, ?sTimerCancel_rfid; auto. }
  destruct Ha as [Ha Ra].
  destruct (reader_part_lengths _ _ Ha) as (La & Ca & Ia).
  change (l_flgRFID_IsOn (rfid (set_l_flgRFID_On false sa)))
    with (l_flgRFID_IsOn (rfid sa)).
  rewrite Ia.
  destruct (l_flgRFID_IsOn (rfid s)).
  - split; [ssimpl; rewrite RFID_PowerOff_rfid; reflexivity|].
    split; [reflexivity|]. split.
    + intros _. apply RFID_PowerOff_down.
      * change (l_pRFID_Cfg (rfid (set_l_flgRFID_On false sa)))
          with (l_pRFID_Cfg (rfid sa)). rewrite Ca. exact Hr.
      * change (pwrPin (hw (set_l_flgRFID_On false sa))) with (pwrPin (hw sa)).
        rewrite La. exact Hlen.
    + ssimpl. rewrite RFID_PowerOff_rfid. ssimpl. rewrite Ra. reflexivity.
  - split; [reflexivity|]. split; [exact Ia|].
    split; [intros H; discriminate H|]. ssimpl. rewrite Ra. reflexivity.
Qed.

End ReaderStates.

Lemma no_reason_to_wait_rfid (s s' : State) :
  rfid s = rfid s' -> no_reason_to_wait s = no_reason_to_wait s'.
Proof. unfold no_reason_to_wait. intros ->. reflexivity. Qed.

Section ReaderOn.
Variable bc : Build.

Lemma RFID_PowerOn_effect (s : State) :
  l_flgRFID_Activate (rfid s) = true ->
  0 <= RFID_PwrOut (l_pRFID_Cfg (rfid s)) < NUM_PWR_OUT ->
  length (pwrPin (hw s)) = 3%nat ->
  rfid (RFID_PowerOn bc s) = rfid (set_l_State 0 s) /\
  usartClock (hw (RFID_PowerOn bc s)) = true /\
  usartRxPin (hw (RFID_PowerOn bc s)) = true /\
  nth_Z false (pwrPin (hw (RFID_PowerOn bc s))) (RFID_PwrOut (l_pRFID_Cfg (rfid s)))
  = (if IsPowerFail s
     then nth_Z false (pwrPin (hw s)) (RFID_PwrOut (l_pRFID_Cfg (rfid s)))
     else true).
Proof.
  intros Ha Hr Hlen. split.
  { rewrite RFID_PowerOn_rfid, Ha. reflexivity. }
  unfold RFID_PowerOn, uartSetup, ifdef_LOGGING, Log. cbv zeta. rewrite Ha.
  destruct (LOGGING bc); ssimpl;
    match goal with
    | |- context [PowerOutput bc ?r ?e ?X] =>
        destruct (PowerOutput_usart bc r e X) as [-> ->];
        rewrite (PowerOutput_pins bc r e X) by (ssimpl; assumption)
    end;
    unfold IsPowerFail; ssimpl; cbn [andb PWR_ON];
    (split; [reflexivity|]); (split; [reflexivity|]);
    destruct (powerFail (hw s)); try reflexivity;
    apply nth_upd_Z_eq; unfold NUM_PWR_OUT in *; lia.
Qed.

(** X14: RFID_Enable() only marks the reader; the next RFID_Check() powers it:
    UART clock and Rx pin are on, the decoder starts at 0 with a new run
    marked.  The power output of the reader is switched on unless power
    fail is asserted: then the output stays as it was, while the reader is
    marked as powered all the same. *)
Theorem RFID_Enable_then_Check (s : State) :
  l_flgRFID_Activate (rfid s) = true ->
  l_flgRFID_IsOn (rfid s) = false ->
  0 <= RFID_PwrOut (l_pRFID_Cfg (rfid s)) < NUM_PWR_OUT ->
  length (pwrPin (hw s)) = 3%nat ->
  let rail := RFID_PwrOut (l_pRFID_Cfg (rfid s)) in
  let s' := RFID_Check bc (RFID_Enable bc s) in
  IsPowerOutputOn rail (RFID_Enable bc s) = IsPowerOutputOn rail s /\
  IsRFID_Enabled s' = true /\
  l_flgRFID_IsOn (rfid s') = true /\
  l_flgNewRun (rfid s') = true /\
  l_State (rfid s') = 0 /\
  usartClock (hw s') = true /\ usartRxPin (hw s') = true /\
  IsPowerOutputOn rail s'
  = (if IsPowerFail s then IsPowerOutputOn rail s else true).
Proof.
  intros Ha Hoff Hr Hlen. cbv zeta.
  set (s1 := RFID_Enable bc s).
  assert (H1 : rfid s1 = rfid (set_l_flgNewRun true
                                 (set_l_flgRFID_On true
                                    (if RFID_TRIGGERED_BY_LIGHT_BARRIER bc
                                     then set_l_flgObjectPresent true s else s)))
               /\ pwrPin (hw s1) = pwrPin (hw s)
               /\ powerFail (hw s1) = powerFail (hw s)).
  { unfold s1, RFID_Enable, if_LIGHT_BARRIER. cbv zeta.
    split_ifs; through_timers; repeat split; reflexivity. }
  destruct H1 as (R1 & P1 & F1).
  assert (Hon1 : l_flgRFID_On (rfid s1) = true)
    by (rewrite R1; destruct (RFID_TRIGGERED_BY_LIGHT_BARRIER bc); reflexivity).
  assert (His1 : l_flgRFID_IsOn (rfid s1) = false)
    by (rewrite R1; destruct (RFID_TRIGGERED_BY_LIGHT_BARRIER bc); exact Hoff).
  assert (Hac1 : l_flgRFID_Activate (rfid s1) = true)
    by (rewrite R1; destruct (RFID_TRIGGERED_BY_LIGHT_BARRIER bc); exact Ha).
  assert (Hcf1 : l_pRFID_Cfg (rfid s1) = l_pRFID_Cfg (rfid s))
    by (rewrite R1; destruct (RFID_TRIGGERED_BY_LIGHT_BARRIER bc); reflexivity).
  assert (Hnr1 : l_flgNewRun (rfid s1) = true)
    by (rewrite R1; destruct (RFID_TRIGGERED_BY_LIGHT_BARRIER bc); reflexivity).
  destruct (RFID_PowerOn_effect s1 Hac1) as (R2 & U2 & X2 & P2);
    [rewrite Hcf1; exact Hr|rewrite P1; exact Hlen|].
  rewrite Hcf1 in P2. unfold IsPowerFail in P2. rewrite F1, P1 in P2.
  assert (Hne : (RFID_PwrOut (l_pRFID_Cfg (rfid s)) =? PWR_OUT_NONE) = false)
    by (unfold PWR_OUT_NONE, NONE; lia).
  unfold IsPowerOutputOn, IsRFID_Enabled, IsPowerFail. rewrite Hne, P1.
  split; [reflexivity|].
  unfold RFID_Check. cbv zeta. rewrite Hon1, His1. cbn [negb].
  unfold ControlUpdateID, DisplayUpdate, ifdef_LOGGING, Log.
  split_ifs; ssimpl; rewrite ?R2, ?U2, ?X2, ?P2; ssimpl;
    rewrite ?Hon1, ?Hnr1; repeat split; reflexivity.
Qed.

(** X15: A second pass of RFID_Check() finds nothing to do: it changes nothing
    and logs nothing. *)
Theorem RFID_Check_idempotent (s : State) :
  RFID_Check bc (RFID_Check bc s) = RFID_Check bc s.
Proof.
  assert (Hfix : forall X,
            l_flgNewID (rfid X) = false ->
            (l_flgRFID_On (rfid X) = true -> l_flgRFID_IsOn (rfid X) = true) ->
            (l_flgRFID_On (rfid X) = false -> l_flgRFID_IsOn (rfid X) = true ->
             no_reason_to_wait X = false) ->
            RFID_Check bc X = X).
  { intros X Hn H1 H2. unfold RFID_Check. cbv zeta.
    destruct (l_flgRFID_On (rfid X)) eqn:Eon.
    - rewrite (H1 eq_refl). cbn [negb]. rewrite Hn. reflexivity.
    - destruct (l_flgRFID_IsOn (rfid X)) eqn:Eis.
      + rewrite (H2 eq_refl eq_refl), Hn. reflexivity.
      + rewrite Hn. reflexivity. }
  assert (Htail : forall Y,
            let X := if l_flgNewID (rfid Y)
                     then DisplayUpdate UPD_TRANSPONDER
                            (ControlUpdateID bc (g_Transponder
                                                   (rfid (set_l_flgNewID false Y)))
                               (set_l_flgNewID false Y))
                     else Y in
            rfid X = rfid (set_l_flgNewID false Y)).
  { intros Y. cbv zeta. unfold DisplayUpdate, ControlUpdateID, ifdef_LOGGING, Log.
    destruct (l_flgNewID (rfid Y)) eqn:E.
    - destruct (LOGGING bc); reflexivity.
    - destruct Y as [h [? ? ? ? ? ? ? ? ? ? ? ? ? ? ? ? ? f ? ? ? ?] c m].
      cbn in E. subst f. reflexivity. }
  apply Hfix; unfold RFID_Check; cbv zeta;
    match goal with
    | |- context [if l_flgNewID (rfid ?Y) then _ else _] =>
        pose proof (Htail Y) as HT; cbv zeta in HT
    end.
  - rewrite HT. reflexivity.
  - rewrite HT. ssimpl.
    destruct (l_flgRFID_On (rfid s)) eqn:Eon.
    + destruct (l_flgRFID_IsOn (rfid s)) eqn:Eis; cbn [negb]; ssimpl.
      * intros _. exact Eis.
      * intros _. reflexivity.
    + destruct (l_flgRFID_IsOn (rfid s)) eqn:Eis.
      * destruct (no_reason_to_wait s); ssimpl;
          rewrite ?RFID_PowerOff_rfid; ssimpl;
          rewrite ?(proj2 (cancel_AbsentDetect_part s)); rewrite ?Eon;
          intros H; discriminate H.
      * rewrite Eon. intros H. discriminate H.
  - rewrite (no_reason_to_wait_rfid _ _ HT), HT. ssimpl.
    destruct (l_flgRFID_On (rfid s)) eqn:Eon.
    + destruct (l_flgRFID_IsOn (rfid s)) eqn:Eis; cbn [negb]; ssimpl.
      * rewrite Eon. intros H. discriminate H.
      * rewrite RFID_PowerOn_rfid.
        destruct (l_flgRFID_Activate (rfid s)); ssimpl; rewrite Eon;
          intros H; discriminate H.
    + destruct (l_flgRFID_IsOn (rfid s)) eqn:Eis.
      * destruct (no_reason_to_wait s) eqn:Enw; ssimpl.
        -- intros _ H. discriminate H.
        -- intros _ _. unfold no_reason_to_wait in *. ssimpl. exact Enw.
      * rewrite Eis. intros _ H. discriminate H.
Qed.

End ReaderOn.

(** X16: RFID_TimedDisable() (light barriers) leaves the reader enabled and
    powered and starts the timer that will switch it off after the
    configured time; the detection timeout is cancelled. *)
Theorem RFID_TimedDisable_starts_timer (s : State) :
  let h := l_hdlRFID_Off (rfid s) in
  let s' := RFID_TimedDisable s in
  valid_hdl h s = true ->
  countdown h s' = Some (g_RFID_PwrOffTimeout (rfid s)) /\
  l_flgObjectPresent (rfid s') = false /\
  IsRFID_Enabled s' = IsRFID_Enabled s /\
  reader_part s' = reader_part s /\
  last_event s' = Some (EvTimerStart h (g_RFID_PwrOffTimeout (rfid s))).
Proof.
  intros h s' Hv. subst s'. unfold RFID_TimedDisable. cbv zeta.
  set (s1 := if negb (l_hdlRFID_DetectTimeout (rfid (set_l_flgObjectPresent false s))
                      =? NONE)
             then sTimerCancel
                    (l_hdlRFID_DetectTimeout (rfid (set_l_flgObjectPresent false s)))
                    (set_l_flgObjectPresent false s)
             else set_l_flgObjectPresent false s).
  assert (H1 : rfid s1 = rfid (set_l_flgObjectPresent false s) /\
               reader_part s1 = reader_part s /\
               valid_hdl h s1 = valid_hdl h s).
  { unfold s1. split_ifs;
      rewrite ?sTimerCancel_rfid, ?reader_part_sTimerCancel;
      repeat split; try reflexivity.
    unfold valid_hdl, sTimerCancel. cbv zeta. split_ifs; ssimpl;
      rewrite ?length_alter; reflexivity. }
  destruct H1 as (R1 & P1 & V1).
  assert (Hh : l_hdlRFID_Off (rfid s1) = h) by (rewrite R1; reflexivity).
  assert (Ht : g_RFID_PwrOffTimeout (rfid s1) = g_RFID_PwrOffTimeout (rfid s))
    by (rewrite R1; reflexivity).
  rewrite Hh, Ht.
  assert (Hn : negb (h =? NONE) = true).
  { unfold valid_hdl in Hv. apply andb_true_iff in Hv as [Hv _].
    apply Z.leb_le in Hv. unfold NONE. apply negb_true_iff. lia. }
  rewrite Hn. split.
  { apply sTimerStart_countdown. rewrite V1. exact Hv. }
  unfold IsRFID_Enabled. rewrite sTimerStart_rfid, reader_part_sTimerStart, R1.
  split; [reflexivity|]. split; [reflexivity|]. split; [exact P1|].
  unfold sTimerStart, last_event. cbv zeta. split_ifs; reflexivity.
Qed.

Lemma RFID_switches_its_output_only_witness :
  IsPowerOutputOn PWR_OUT_UA1 (RFID_Enable build_alarm s_outputs_on)
  = IsPowerOutputOn PWR_OUT_UA1 s_outputs_on /\
  IsPowerOutputOn PWR_OUT_UA1 (RFID_Disable build_alarm s_outputs_on)
  = IsPowerOutputOn PWR_OUT_UA1 s_outputs_on /\
  IsPowerOutputOn PWR_OUT_UA1 (RFID_Check build_alarm s_outputs_on)
  = IsPowerOutputOn PWR_OUT_UA1 s_outputs_on /\
  IsPowerOutputOn PWR_OUT_UA1 (RFID_PowerFailHandler build_alarm s_outputs_on)
  = IsPowerOutputOn PWR_OUT_UA1 s_outputs_on.
Proof.
  apply (RFID_switches_its_output_only build_alarm PWR_OUT_UA1 s_outputs_on).
  vm_compute. discriminate.
Defined.

Lemma RFID_PowerFailHandler_down_witness :
  IsRFID_Enabled (RFID_PowerFailHandler build_alarm s_transponder) = false /\
  l_flgRFID_IsOn (rfid (RFID_PowerFailHandler build_alarm s_transponder)) = false /\
  (l_flgRFID_IsOn (rfid s_transponder) = true ->
   reader_down (RFID_PowerFailHandler build_alarm s_transponder) = true) /\
  g_Transponder (rfid (RFID_PowerFailHandler build_alarm s_transponder))
  = g_Transponder (rfid s_transponder).
Proof.
  apply (RFID_PowerFailHandler_down build_alarm s_transponder);
    [vm_compute; split; [discriminate | reflexivity] | reflexivity].
Defined.

Lemma RFID_Enable_then_Check_witness :
  let rail := RFID_PwrOut (l_pRFID_Cfg (rfid s_idle)) in
  let s' := RFID_Check build_alarm (RFID_Enable build_alarm s_idle) in
  IsPowerOutputOn rail (RFID_Enable build_alarm s_idle)
  = IsPowerOutputOn rail s_idle /\
  IsRFID_Enabled s' = true /\
  l_flgRFID_IsOn (rfid s') = true /\
  l_flgNewRun (rfid s') = true /\
  l_State (rfid s') = 0 /\
  usartClock (hw s') = true /\ usartRxPin (hw s') = true /\
  IsPowerOutputOn rail s'
  = (if IsPowerFail s_idle then IsPowerOutputOn rail s_idle else true).
Proof.
  apply (RFID_Enable_then_Check build_alarm s_idle);
    [reflexivity | reflexivity | vm_compute; split; [discriminate | reflexivity]
    | reflexivity].
Defined.

Lemma RFID_TimedDisable_starts_timer_witness :
  let h := l_hdlRFID_Off (rfid s_light_barrier) in
  let s' := RFID_TimedDisable s_light_barrier in
  countdown h s' = Some (g_RFID_PwrOffTimeout (rfid s_light_barrier)) /\
  l_flgObjectPresent (rfid s') = false /\
  IsRFID_Enabled s' = IsRFID_Enabled s_light_barrier /\
  reader_part s' = reader_part s_light_barrier /\
  last_event s'
  = Some (EvTimerStart h (g_RFID_PwrOffTimeout (rfid s_light_barrier))).
Proof.
  apply (RFID_TimedDisable_starts_timer s_light_barrier). reflexivity.
Defined.

(** * Calibration and measured values *)

Lemma requotient (a r : Z) :
  0 < r <= a ->
  r <= a / (a / r) /\
  (a / (a / r) = r <-> a mod r < a / r) /\
  (r * r <= a -> a / (a / r) = r).
Proof.
  intros [Hr Ha].
  assert (Hq : 1 <= a / r) by (apply Z.div_le_lower_bound; lia).
  pose proof (Z.div_mod a r ltac:(lia)) as E.
  pose proof (Z.mod_pos_bound a r Hr) as Hm.
  assert (Hback : a mod r < a / r -> a / (a / r) = r).
  { intros Hlt. symmetry. apply (Z.div_unique a (a / r) r (a mod r)); lia. }
  split; [apply Z.div_le_lower_bound; nia|]. split.
  - split; [|exact Hback].
    intros Heq.
    pose proof (Z.mul_succ_div_gt a (a / r) ltac:(lia)) as Hgt.
    rewrite Heq in Hgt. nia.
  - intros Hsq. apply Hback.
    assert (Hqr : r <= a / r) by (apply Z.div_le_lower_bound; lia).
    lia.
Qed.

Lemma read_Z_in (l : list Z) (i : Z) :
  0 <= i < Z.of_nat (length l) -> read_Z l i = Ok (nth_Z 0 l i).
Proof.
  intros H. unfold read_Z.
  destruct (Z.leb_spec 0 i); [|lia].
  destruct (Z.ltb_spec i (Z.of_nat (length l))); [|lia]. reflexivity.
Qed.

Lemma range_test (i n : Z) :
  0 <= i < n -> (0 <=? i) && (i <? n) = true.
Proof. intros H. apply andb_true_iff. split; [apply Z.leb_le|apply Z.ltb_lt]; lia. Qed.

(** X17: CalibrateVoltage() followed by PowerVoltage() for the same sample: the
    measured value is never below the reference; it is the reference exactly
    when the remainder of the scaled sample by the reference is below their
    quotient, which holds in particular when the square of the reference is
    within the scaled sample.  A reference above the scaled sample leaves a
    divider of 0: PowerVoltage() then divides by zero. *)
Theorem CalibrateVoltage_then_PowerVoltage (output ref : Z) (s : State) :
  0 <= output < Z.of_nat (length (l_mV_Divider (ctrl s))) ->
  output * 2 < Z.of_nat (length (l_ADC_Value (ctrl s))) ->
  0 < ref ->
  exists s',
    CalibrateVoltage output ref s = Ok s' /\
    nth_Z 0 (l_mV_Divider (ctrl s')) output = scaled_sample (output * 2) s / ref /\
    (scaled_sample (output * 2) s < ref ->
     PowerVoltage output s' = Undefined DivideByZero) /\
    (ref <= scaled_sample (output * 2) s ->
     exists v, PowerVoltage output s' = Ok v /\ ref <= v /\
               (v = ref <->
                scaled_sample (output * 2) s mod ref < scaled_sample (output * 2) s / ref) /\
               (ref * ref <= scaled_sample (output * 2) s -> v = ref)).
Proof.
  intros Ho Hi Hr. unfold CalibrateVoltage, PowerVoltage, scaled_sample. cbv zeta.
  rewrite (read_Z_in (l_ADC_Value (ctrl s))) by lia. cbn [bind].
  unfold udiv32 at 1. destruct (Z.eqb_spec ref 0); [lia|]. cbn [bind].
  rewrite (range_test _ _ Ho).
  eexists. split; [reflexivity|]. ssimpl.
  rewrite (read_Z_in (l_ADC_Value (ctrl s))) by lia. cbn [bind].
  rewrite read_Z_in by (rewrite length_upd_Z; lia). cbn [bind].
  rewrite nth_upd_Z_eq by lia.
  set (a := wrap32 (Z.shiftl (nth_Z 0 (l_ADC_Value (ctrl s)) (output * 2)) 16)).
  assert (Ha : 0 <= a) by (unfold a, wrap32; apply Z.mod_pos_bound; lia).
  split; [reflexivity|]. unfold udiv32. split.
  - intros Hlt. rewrite (Z.div_small a ref) by lia. reflexivity.
  - intros Hle.
    assert (Hq : 1 <= a / ref) by (apply Z.div_le_lower_bound; lia).
    destruct (Z.eqb_spec (a / ref) 0); [lia|].
    eexists. split; [reflexivity|]. apply requotient. lia.
Qed.

(** X18: CalibrateCurrent() followed by PowerCurrent() for the same sample: the
    measured value is never below the reference; it is the reference exactly
    when the remainder of the scaled sample by the reference is below their
    quotient, which holds in particular when the square of the reference is
    within the scaled sample.  A reference above the scaled sample leaves a
    divider of 0: PowerCurrent() then divides by zero. *)
Theorem CalibrateCurrent_then_PowerCurrent (output ref : Z) (s : State) :
  0 <= output < Z.of_nat (length (l_mA_Divider (ctrl s))) ->
  output * 2 + 1 < Z.of_nat (length (l_ADC_Value (ctrl s))) ->
  0 < ref ->
  exists s',
    CalibrateCurrent output ref s = Ok s' /\
    nth_Z 0 (l_mA_Divider (ctrl s')) output
    = scaled_sample (output * 2 + 1) s / ref /\
    (scaled_sample (output * 2 + 1) s < ref ->
     PowerCurrent output s' = Undefined DivideByZero) /\
    (ref <= scaled_sample (output * 2 + 1) s ->
     exists v, PowerCurrent output s' = Ok v /\ ref <= v /\
               (v = ref <->
                scaled_sample (output * 2 + 1) s mod ref < scaled_sample (output * 2 + 1) s / ref) /\
               (ref * ref <= scaled_sample (output * 2 + 1) s -> v = ref)).
Proof.
  intros Ho Hi Hr. unfold CalibrateCurrent, PowerCurrent, scaled_sample. cbv zeta.
  rewrite (read_Z_in (l_ADC_Value (ctrl s))) by lia. cbn [bind].
  unfold udiv32 at 1. destruct (Z.eqb_spec ref 0); [lia|]. cbn [bind].
  rewrite (range_test _ _ Ho).
  eexists. split; [reflexivity|]. ssimpl.
  rewrite (read_Z_in (l_ADC_Value (ctrl s))) by lia. cbn [bind].
  rewrite read_Z_in by (rewrite length_upd_Z; lia). cbn [bind].
  rewrite nth_upd_Z_eq by lia.
  set (a := wrap32 (Z.shiftl (nth_Z 0 (l_ADC_Value (ctrl s)) (output * 2 + 1)) 16)).
  assert (Ha : 0 <= a) by (unfold a, wrap32; apply Z.mod_pos_bound; lia).
  split; [reflexivity|]. unfold udiv32. split.
  - intros Hlt. rewrite (Z.div_small a ref) by lia. reflexivity.
  - intros Hle.
    assert (Hq : 1 <= a / ref) by (apply Z.div_le_lower_bound; lia).
    destruct (Z.eqb_spec (a / ref) 0); [lia|].
    eexists. split; [reflexivity|]. apply requotient. lia.
Qed.

(** X19: Voltage_To_ADC_Value() of the reference, after CalibrateVoltage() with a
    16-bit sample and a reference of at most 65536 mV, is the sample or one
    below it. *)
Theorem Voltage_To_ADC_Value_of_reference (output ref : Z) (s s' : State) :
  let adc := nth_Z 0 (l_ADC_Value (ctrl s)) (output * 2) in
  CalibrateVoltage output ref s = Ok s' ->
  0 <= adc < 65536 -> 0 < ref <= 65536 ->
  exists v, Voltage_To_ADC_Value output ref s' = Ok v /\ adc - 1 <= v <= adc.
Proof.
  cbv zeta. intros Hc Ha Hr. revert Hc.
  unfold CalibrateVoltage, Voltage_To_ADC_Value. cbv zeta.
  destruct (read_Z (l_ADC_Value (ctrl s)) (output * 2)) as [adc|] eqn:Ead;
    [|discriminate]. cbn [bind].
  assert (Hadc : adc = nth_Z 0 (l_ADC_Value (ctrl s)) (output * 2)).
  { unfold read_Z in Ead. destruct (_ && _) in Ead; [|discriminate].
    injection Ead as <-. reflexivity. }
  rewrite <- Hadc in Ha |- *. clear Hadc Ead.
  unfold udiv32. destruct (Z.eqb_spec ref 0); [lia|]. cbn [bind].
  destruct ((0 <=? output) && (output <? _)) eqn:Eo; [|discriminate].
  apply andb_true_iff in Eo as [Eo1 Eo2].
  apply Z.leb_le in Eo1. apply Z.ltb_lt in Eo2.
  intros H. injection H as <-. ssimpl.
  rewrite read_Z_in by (rewrite length_upd_Z; lia). cbn [bind].
  rewrite nth_upd_Z_eq by lia.
  eexists. split; [reflexivity|].
  rewrite Z.shiftl_mul_pow2 by lia. rewrite Z.shiftr_div_pow2 by lia.
  change (2 ^ 16) with 65536. unfold wrap32.
  rewrite (Z.mod_small (adc * 65536)) by lia.
  set (a := adc * 65536).
  pose proof (Z.div_mod a ref ltac:(lia)) as E.
  pose proof (Z.mod_pos_bound a ref ltac:(lia)) as Hm.
  assert (Hq : 0 <= a / ref) by (apply Z.div_pos; lia).
  rewrite Z.mod_small by nia.
  set (q := a / ref) in *.
  assert (Hp : a - 65536 < ref * q <= a) by lia.
  split.
  - apply Z.div_le_lower_bound; [lia|]. unfold a in Hp. lia.
  - apply Z.div_le_upper_bound; [lia|]. unfold a in Hp. lia.
Qed.

(** * The calibration menu *)

Section CalibrationMenu.
Variable bc : Build.

Lemma MenuCalibrateOutput_prologue (arg : Z) (s : State) :
  ctrl (DisplayTimerCancel (set_l_PwrOut arg s)) = ctrl s /\
  menu (DisplayTimerCancel (set_l_PwrOut arg s)) = menu (set_l_PwrOut arg s).
Proof. rewrite DisplayTimerCancel_ctrl, DisplayTimerCancel_menu. auto. Qed.

(** X20: The SET key with references for voltage and current: both dividers of
    the output are set from its samples, those of the other output stay,
    the output is marked as calibrated and the key is consumed. *)
Theorem MenuCalibrateOutput_calibrates (arg : Z) (s : State) :
  arg = PWR_OUT_UA1 \/ arg = PWR_OUT_UA2 ->
  length (g_UA_Calib_mV (menu s)) = 2%nat ->
  length (g_UA_Calib_mA (menu s)) = 2%nat ->
  length (l_mV_Divider (ctrl s)) = 2%nat ->
  length (l_mA_Divider (ctrl s)) = 2%nat ->
  length (l_ADC_Value (ctrl s)) = 4%nat ->
  let ref_mV := nth_Z 0 (g_UA_Calib_mV (menu s)) (arg - PWR_OUT_UA1) in
  let ref_mA := nth_Z 0 (g_UA_Calib_mA (menu s)) (arg - PWR_OUT_UA1) in
  0 < ref_mV -> 0 < ref_mA ->
  exists s',
    MenuCalibrateOutput bc KEYCODE_SET_RELEASE arg s = Ok (KEYCODE_NONE, s') /\
    nth_Z 0 (l_mV_Divider (ctrl s')) arg = scaled_sample (arg * 2) s / ref_mV /\
    nth_Z 0 (l_mA_Divider (ctrl s')) arg = scaled_sample (arg * 2 + 1) s / ref_mA /\
    nth_Z 0 (l_mV_Divider (ctrl s')) (1 - arg) = nth_Z 0 (l_mV_Divider (ctrl s)) (1 - arg) /\
    nth_Z 0 (l_mA_Divider (ctrl s')) (1 - arg) = nth_Z 0 (l_mA_Divider (ctrl s)) (1 - arg) /\
    Z.testbit (l_flgCalibration (menu s')) (arg - PWR_OUT_UA1) = true /\
    pwrPin (hw s') = pwrPin (hw s).
Proof.
  intros Harg HmV HmA HdV HdA Hadc. cbv zeta. intros HrV HrA.
  assert (Ha : 0 <= arg < 2) by (unfold PWR_OUT_UA1, PWR_OUT_UA2 in *; lia).
  unfold MenuCalibrateOutput. cbv zeta.
  destruct (MenuCalibrateOutput_prologue arg s) as [Ec Em].
  assert (Ep : pwrPin (hw (DisplayTimerCancel (set_l_PwrOut arg s))) = pwrPin (hw s)).
  { unfold DisplayTimerCancel. split_ifs; rewrite ?pwrPin_sTimerCancel; reflexivity. }
  set (s0 := DisplayTimerCancel (set_l_PwrOut arg s)) in *.
  rewrite Em. ssimpl. unfold PWR_OUT_UA1 in *. rewrite Z.sub_0_r in *.
  rewrite read_Z_in by lia. cbn [bind].
  destruct (Z.eqb_spec (nth_Z 0 (g_UA_Calib_mV (menu s)) arg) 0); [lia|].
  unfold CalibrateVoltage. cbv zeta. rewrite Ec.
  rewrite read_Z_in by lia. cbn [bind].
  unfold udiv32 at 1.
  destruct (Z.eqb_spec (nth_Z 0 (g_UA_Calib_mV (menu s)) arg) 0); [lia|]. cbn [bind].
  rewrite range_test by lia. cbn [bind]. ssimpl. rewrite Em. ssimpl.
  rewrite read_Z_in by lia. cbn [bind].
  unfold CalibrateCurrent. cbv zeta. ssimpl. rewrite Ec.
  rewrite read_Z_in by lia. cbn [bind].
  unfold udiv32.
  destruct (Z.eqb_spec (nth_Z 0 (g_UA_Calib_mA (menu s)) arg) 0); [lia|]. cbn [bind].
  rewrite range_test by lia. cbn [bind].
  eexists. split; [reflexivity|]. ssimpl. rewrite ?Ec, ?Em, ?Ep. ssimpl.
  unfold scaled_sample.
  rewrite !nth_upd_Z_eq by lia. rewrite !nth_upd_Z_ne by lia.
  repeat split.
  unfold wrap8. change 256 with (2 ^ 8).
  rewrite Z.mod_pow2_bits_low by lia.
  rewrite Z.lor_spec, Z.shiftl_spec by lia. rewrite Z.sub_diag.
  apply orb_true_r.
Qed.

(** X21: The SET key with a voltage reference and no current reference: the
    voltage reference passes the guard and CalibrateCurrent() divides by
    zero. *)
Theorem MenuCalibrateOutput_no_current_reference (arg : Z) (s : State) :
  arg = PWR_OUT_UA1 \/ arg = PWR_OUT_UA2 ->
  length (g_UA_Calib_mV (menu s)) = 2%nat ->
  length (g_UA_Calib_mA (menu s)) = 2%nat ->
  length (l_mV_Divider (ctrl s)) = 2%nat ->
  length (l_ADC_Value (ctrl s)) = 4%nat ->
  nth_Z 0 (g_UA_Calib_mV (menu s)) (arg - PWR_OUT_UA1) <> 0 ->
  nth_Z 0 (g_UA_Calib_mA (menu s)) (arg - PWR_OUT_UA1) = 0 ->
  MenuCalibrateOutput bc KEYCODE_SET_RELEASE arg s = Undefined DivideByZero.
Proof.
  intros Harg HmV HmA HdV Hadc HrV HrA.
  assert (Ha : 0 <= arg < 2) by (unfold PWR_OUT_UA1, PWR_OUT_UA2 in *; lia).
  unfold MenuCalibrateOutput. cbv zeta.
  destruct (MenuCalibrateOutput_prologue arg s) as [Ec Em].
  set (s0 := DisplayTimerCancel (set_l_PwrOut arg s)) in *.
  rewrite Em. ssimpl. unfold PWR_OUT_UA1 in *. rewrite Z.sub_0_r in *.
  rewrite read_Z_in by lia. cbn [bind].
  destruct (Z.eqb_spec (nth_Z 0 (g_UA_Calib_mV (menu s)) arg) 0); [lia|].
  unfold CalibrateVoltage. cbv zeta. rewrite Ec.
  rewrite read_Z_in by lia. cbn [bind].
  unfold udiv32 at 1.
  destruct (Z.eqb_spec (nth_Z 0 (g_UA_Calib_mV (menu s)) arg) 0); [lia|]. cbn [bind].
  rewrite range_test by lia. cbn [bind]. ssimpl. rewrite Em. ssimpl.
  rewrite read_Z_in by lia. cbn [bind]. rewrite HrA.
  unfold CalibrateCurrent. cbv zeta. ssimpl. rewrite Ec.
  rewrite read_Z_in by lia. reflexivity.
Qed.

(** X22: The keys ENTER and EXIT switch the selected output on and off and are
    handed on; ENTER is without effect on the output while power fail is
    asserted. *)
Theorem MenuCalibrateOutput_switches (arg : Z) (s : State) :
  0 <= arg < NUM_PWR_OUT -> length (pwrPin (hw s)) = 3%nat ->
  exists s_on s_off,
    MenuCalibrateOutput bc KEYCODE_MENU_ENTER arg s = Ok (KEYCODE_MENU_ENTER, s_on) /\
    MenuCalibrateOutput bc KEYCODE_MENU_EXIT arg s = Ok (KEYCODE_MENU_EXIT, s_off) /\
    IsPowerOutputOn arg s_on
    = (if IsPowerFail s then IsPowerOutputOn arg s else true) /\
    IsPowerOutputOn arg s_off = false /\
    (forall r, r <> arg -> IsPowerOutputOn r s_on = IsPowerOutputOn r s /\
                           IsPowerOutputOn r s_off = IsPowerOutputOn r s).
Proof.
  intros Ha Hlen. unfold MenuCalibrateOutput. cbv zeta.
  destruct (MenuCalibrateOutput_prologue arg s) as [Ec Em].
  assert (Ep : pwrPin (hw (DisplayTimerCancel (set_l_PwrOut arg s))) = pwrPin (hw s)
               /\ powerFail (hw (DisplayTimerCancel (set_l_PwrOut arg s)))
                  = powerFail (hw s)).
  { unfold DisplayTimerCancel.
    split_ifs; rewrite ?pwrPin_sTimerCancel, ?powerFail_sTimerCancel; auto. }
  destruct Ep as [Ep Ef].
  set (s0 := DisplayTimerCancel (set_l_PwrOut arg s)) in *.
  rewrite Em. ssimpl.
  do 2 eexists. split; [reflexivity|]. split; [reflexivity|].
  assert (Hne : (arg =? PWR_OUT_NONE) = false)
    by (unfold PWR_OUT_NONE, NONE; lia).
  unfold IsPowerOutputOn, IsPowerFail. rewrite Hne.
  rewrite !PowerOutput_pins by (try rewrite Ep; assumption).
  unfold IsPowerFail. rewrite Ep, Ef. cbn [andb PWR_ON PWR_OFF].
  split; [|split].
  - destruct (powerFail (hw s)); [reflexivity|].
    apply nth_upd_Z_eq. unfold NUM_PWR_OUT in *. lia.
  - apply nth_upd_Z_eq. unfold NUM_PWR_OUT in *. lia.
  - intros r Hr. destruct (r =? PWR_OUT_NONE); [auto|].
    destruct (powerFail (hw s)); rewrite ?nth_upd_Z_ne by congruence; auto.
Qed.

End CalibrationMenu.

(** * Timer routines of the reader, followed by the service loop *)

Section LightBarrier.
Variable bc : Build.

(** X23: The detection timeout with an object present: the next RFID_Check()
    reports the ID UNKNOWN to the control module and to the display and
    clears the notification.  An ID is then set, so the reader has a reason
    to wait exactly when absent detection is configured. *)
Theorem RFID_DetectTimeout_reports_unknown (hdl : Z) (s : State) :
  l_flgObjectPresent (rfid s) = true ->
  let s' := RFID_Check bc (RFID_DetectTimeout hdl s) in
  g_Transponder (rfid s') = "UNKNOWN"%string /\
  l_flgNewID (rfid s') = false /\
  last_event s' = Some (EvDisplayUpdate UPD_TRANSPONDER) /\
  (LOGGING bc = true ->
   In (EvLog (Msg_Transponder "UNKNOWN")) (trace (hw s'))) /\
  no_reason_to_wait s' = (g_RFID_AbsentDetectTimeout (rfid s) =? 0).
Proof.
  intros Hobj. cbv zeta. unfold RFID_DetectTimeout. rewrite Hobj.
  set (s1 := raise_NewID (set_g_Transponder "UNKNOWN" s)).
  assert (R1 : rfid s1 = rfid (set_l_flgNewID true (set_g_Transponder "UNKNOWN" s)))
    by reflexivity.
  unfold RFID_Check. cbv zeta.
  set (s2 := if l_flgRFID_On (rfid s1) then _ else _).
  assert (R2 : g_Transponder (rfid s2) = "UNKNOWN"%string /\
               l_flgNewID (rfid s2) = true /\
               g_RFID_AbsentDetectTimeout (rfid s2)
               = g_RFID_AbsentDetectTimeout (rfid s)).
  { unfold s2. split_ifs; ssimpl;
      rewrite ?RFID_PowerOn_rfid, ?RFID_PowerOff_rfid;
      try destruct (l_flgRFID_Activate (rfid s1)); ssimpl;
      rewrite ?(proj2 (cancel_AbsentDetect_part s1)), ?R1; ssimpl;
      repeat split; reflexivity. }
  destruct R2 as (T2 & N2 & A2). rewrite N2.
  unfold DisplayUpdate, ControlUpdateID, ifdef_LOGGING, Log, last_event,
    no_reason_to_wait, push_event.
  destruct (LOGGING bc); ssimpl; rewrite ?T2, ?A2;
    repeat split; try reflexivity; try discriminate;
    try (intros _; right; left; reflexivity);
    try apply orb_false_r.
Qed.

(** X24: The power-off timer of a light barrier takes the request back; the
    next RFID_Check() powers the reader down, unless a transponder is
    present and absent detection is configured: then the reader is left
    as it is. *)
Theorem SwitchRFID_Off_then_Check (hdl : Z) (s : State) :
  l_flgRFID_IsOn (rfid s) = true ->
  PWR_OUT_NONE <= RFID_PwrOut (l_pRFID_Cfg (rfid s)) < NUM_PWR_OUT ->
  length (pwrPin (hw s)) = 3%nat ->
  let s' := RFID_Check bc (SwitchRFID_Off hdl s) in
  g_flgIRQ (hw (SwitchRFID_Off hdl s)) = true /\
  (no_reason_to_wait s = true -> reader_down s' = true) /\
  (no_reason_to_wait s = false -> reader_part s' = reader_part s).
Proof.
  intros His Hr Hlen. cbv zeta. split; [reflexivity|].
  set (s1 := SwitchRFID_Off hdl s).
  assert (P1 : reader_part s1 = reader_part s) by reflexivity.
  destruct (RFID_Check_off bc s1 eq_refl His) as (sc & Pc & E).
  rewrite (no_reason_to_wait_part s s1 P1) in E.
  split; intros Hw; rewrite Hw in E.
  - rewrite (reader_down_part _ _ E).
    apply RFID_PowerOff_down.
    + replace (l_pRFID_Cfg (rfid sc)) with (l_pRFID_Cfg (rfid s)); [exact Hr|].
      pose proof (eq_trans Pc P1) as H. unfold reader_part in H.
      injection H as _ _ _ _ _ _ H. symmetry. exact H.
    + pose proof (eq_trans Pc P1) as H. unfold reader_part in H.
      injection H as _ _ _ H _ _ _. rewrite H. exact Hlen.
  - rewrite E. exact P1.
Qed.

End LightBarrier.

(** * The calibration block without its magic word *)

Section WrongMagic.
Variable bc : Build.

Lemma set_default_dividers_dividers (s : State) :
  length (l_mV_Divider (ctrl s)) = 2%nat ->
  length (l_mA_Divider (ctrl s)) = 2%nat ->
  dividers (set_default_dividers s) = unity_dividers.
Proof.
  intros HV HA. unfold set_default_dividers, dividers, unity_dividers. cbv zeta.
  ssimpl.
  rewrite !nth_upd_Z_eq by (rewrite ?length_upd_Z; lia).
  rewrite !(nth_upd_Z_ne 0 _ 0 1) by lia.
  rewrite !nth_upd_Z_eq by (rewrite ?length_upd_Z; lia).
  reflexivity.
Qed.

(** X25: ReadCalibrationData() on a block whose first word is not the magic
    word sets the four unity dividers, whatever the rest of the block
    holds, and it never writes to the block. *)
Theorem ReadCalibrationData_wrong_magic (s : State) :
  EE_Read ee_magic s <> MAGIC_ID ->
  length (l_mV_Divider (ctrl s)) = 2%nat ->
  length (l_mA_Divider (ctrl s)) = 2%nat ->
  dividers (ReadCalibrationData bc s) = unity_dividers /\
  eeprom (hw (ReadCalibrationData bc s)) = eeprom (hw s) /\
  (LOGGING bc = true ->
   last_event (ReadCalibrationData bc s) = Some (EvLog Msg_CalibrationDefaults)).
Proof.
  intros Hm HV HA. unfold ReadCalibrationData. cbv zeta.
  assert (E : EE_Read ee_magic (ifdef_LOGGING bc (Log Msg_ReadingCalibration) s)
              = EE_Read ee_magic s)
    by (unfold ifdef_LOGGING, Log; destruct (LOGGING bc); reflexivity).
  rewrite E. destruct (Z.eqb_spec (EE_Read ee_magic s) MAGIC_ID); [contradiction|].
  split; [|split].
  - apply set_default_dividers_dividers;
      unfold ifdef_LOGGING, Log; destruct (LOGGING bc); assumption.
  - unfold ifdef_LOGGING, Log; destruct (LOGGING bc); reflexivity.
  - intros HL. unfold ifdef_LOGGING. rewrite HL. reflexivity.
Qed.

End WrongMagic.

Lemma ReadCalibrationData_wrong_magic_witness :
  dividers (ReadCalibrationData build_alarm s_idle) = unity_dividers /\
  eeprom (hw (ReadCalibrationData build_alarm s_idle)) = eeprom (hw s_idle) /\
  (LOGGING build_alarm = true ->
   last_event (ReadCalibrationData build_alarm s_idle)
   = Some (EvLog Msg_CalibrationDefaults)).
Proof.
  apply (ReadCalibrationData_wrong_magic build_alarm s_idle);
    [vm_compute; discriminate | reflexivity | reflexivity].
Defined.

Lemma CalibrateVoltage_then_PowerVoltage_witness :
  exists s',
    CalibrateVoltage PWR_OUT_UA1 5000 s_idle = Ok s' /\
    nth_Z 0 (l_mV_Divider (ctrl s')) PWR_OUT_UA1
    = scaled_sample (PWR_OUT_UA1 * 2) s_idle / 5000 /\
    (scaled_sample (PWR_OUT_UA1 * 2) s_idle < 5000 ->
     PowerVoltage PWR_OUT_UA1 s' = Undefined DivideByZero) /\
    (5000 <= scaled_sample (PWR_OUT_UA1 * 2) s_idle ->
     exists v, PowerVoltage PWR_OUT_UA1 s' = Ok v /\ 5000 <= v /\
               (v = 5000 <->
                scaled_sample (PWR_OUT_UA1 * 2) s_idle mod 5000
                < scaled_sample (PWR_OUT_UA1 * 2) s_idle / 5000) /\
               (5000 * 5000 <= scaled_sample (PWR_OUT_UA1 * 2) s_idle -> v = 5000)).
Proof.
  apply (CalibrateVoltage_then_PowerVoltage PWR_OUT_UA1 5000 s_idle);
    [vm_compute; split; [discriminate | reflexivity] | reflexivity | reflexivity].
Defined.

Lemma CalibrateCurrent_then_PowerCurrent_witness :
  exists s',
    CalibrateCurrent PWR_OUT_UA1 500 s_idle = Ok s' /\
    nth_Z 0 (l_mA_Divider (ctrl s')) PWR_OUT_UA1
    = scaled_sample (PWR_OUT_UA1 * 2 + 1) s_idle / 500 /\
    (scaled_sample (PWR_OUT_UA1 * 2 + 1) s_idle < 500 ->
     PowerCurrent PWR_OUT_UA1 s' = Undefined DivideByZero) /\
    (500 <= scaled_sample (PWR_OUT_UA1 * 2 + 1) s_idle ->
     exists v, PowerCurrent PWR_OUT_UA1 s' = Ok v /\ 500 <= v /\
               (v = 500 <->
                scaled_sample (PWR_OUT_UA1 * 2 + 1) s_idle mod 500
                < scaled_sample (PWR_OUT_UA1 * 2 + 1) s_idle / 500) /\
               (500 * 500 <= scaled_sample (PWR_OUT_UA1 * 2 + 1) s_idle -> v = 500)).
Proof.
  apply (CalibrateCurrent_then_PowerCurrent PWR_OUT_UA1 500 s_idle);
    [vm_compute; split; [discriminate | reflexivity] | reflexivity | reflexivity].
Defined.

Lemma Voltage_To_ADC_Value_of_reference_witness :
  let adc := nth_Z 0 (l_ADC_Value (ctrl s_idle)) (PWR_OUT_UA1 * 2) in
  exists v, Voltage_To_ADC_Value PWR_OUT_UA1 5000 s_voltage_calibrated = Ok v /\
            adc - 1 <= v <= adc.
Proof.
  apply (Voltage_To_ADC_Value_of_reference PWR_OUT_UA1 5000 s_idle
           s_voltage_calibrated);
    [reflexivity | vm_compute; split; [discriminate | reflexivity]
    | vm_compute; split; [reflexivity | discriminate]].
Defined.

Lemma MenuCalibrateOutput_calibrates_witness :
  let ref_mV := nth_Z 0 (g_UA_Calib_mV (menu s_references))
                  (PWR_OUT_UA1 - PWR_OUT_UA1) in
  let ref_mA := nth_Z 0 (g_UA_Calib_mA (menu s_references))
                  (PWR_OUT_UA1 - PWR_OUT_UA1) in
  exists s',
    MenuCalibrateOutput build_alarm KEYCODE_SET_RELEASE PWR_OUT_UA1 s_references
    = Ok (KEYCODE_NONE, s') /\
    nth_Z 0 (l_mV_Divider (ctrl s')) PWR_OUT_UA1
    = scaled_sample (PWR_OUT_UA1 * 2) s_references / ref_mV /\
    nth_Z 0 (l_mA_Divider (ctrl s')) PWR_OUT_UA1
    = scaled_sample (PWR_OUT_UA1 * 2 + 1) s_references / ref_mA /\
    nth_Z 0 (l_mV_Divider (ctrl s')) (1 - PWR_OUT_UA1)
    = nth_Z 0 (l_mV_Divider (ctrl s_references)) (1 - PWR_OUT_UA1) /\
    nth_Z 0 (l_mA_Divider (ctrl s')) (1 - PWR_OUT_UA1)
    = nth_Z 0 (l_mA_Divider (ctrl s_references)) (1 - PWR_OUT_UA1) /\
    Z.testbit (l_flgCalibration (menu s')) (PWR_OUT_UA1 - PWR_OUT_UA1) = true /\
    pwrPin (hw s') = pwrPin (hw s_references).
Proof.
  apply (MenuCalibrateOutput_calibrates build_alarm PWR_OUT_UA1 s_references);
    [left; reflexivity | reflexivity | reflexivity | reflexivity | reflexivity
    | reflexivity | reflexivity | reflexivity].
Defined.

Lemma MenuCalibrateOutput_no_current_reference_witness :
  MenuCalibrateOutput build_alarm KEYCODE_SET_RELEASE PWR_OUT_UA1
    s_no_current_reference
  = Undefined DivideByZero.
Proof.
  apply (MenuCalibrateOutput_no_current_reference build_alarm PWR_OUT_UA1
           s_no_current_reference);
    [left; reflexivity | reflexivity | reflexivity | reflexivity | reflexivity
    | vm_compute; discriminate | reflexivity].
Defined.

Lemma MenuCalibrateOutput_switches_witness :
  exists s_on s_off,
    MenuCalibrateOutput build_alarm KEYCODE_MENU_ENTER PWR_OUT_UA2 s_idle
    = Ok (KEYCODE_MENU_ENTER, s_on) /\
    MenuCalibrateOutput build_alarm KEYCODE_MENU_EXIT PWR_OUT_UA2 s_idle
    = Ok (KEYCODE_MENU_EXIT, s_off) /\
    IsPowerOutputOn PWR_OUT_UA2 s_on
    = (if IsPowerFail s_idle then IsPowerOutputOn PWR_OUT_UA2 s_idle else true) /\
    IsPowerOutputOn PWR_OUT_UA2 s_off = false /\
    (forall r, r <> PWR_OUT_UA2 ->
               IsPowerOutputOn r s_on = IsPowerOutputOn r s_idle /\
               IsPowerOutputOn r s_off = IsPowerOutputOn r s_idle).
Proof.
  apply (MenuCalibrateOutput_switches build_alarm PWR_OUT_UA2 s_idle);
    [vm_compute; split; [discriminate | reflexivity] | reflexivity].
Defined.

Lemma RFID_DetectTimeout_reports_unknown_witness :
  let s' := RFID_Check build_default (RFID_DetectTimeout 7 s_object_present) in
  g_Transponder (rfid s') = "UNKNOWN"%string /\
  l_flgNewID (rfid s') = false /\
  last_event s' = Some (EvDisplayUpdate UPD_TRANSPONDER) /\
  (LOGGING build_default = true ->
   In (EvLog (Msg_Transponder "UNKNOWN")) (trace (hw s'))) /\
  no_reason_to_wait s'
  = (g_RFID_AbsentDetectTimeout (rfid s_object_present) =? 0).
Proof.
  apply (RFID_DetectTimeout_reports_unknown build_default 7 s_object_present).
  reflexivity.
Defined.

Lemma SwitchRFID_Off_then_Check_witness :
  let s' := RFID_Check build_default (SwitchRFID_Off 6 s_light_barrier) in
  g_flgIRQ (hw (SwitchRFID_Off 6 s_light_barrier)) = true /\
  (no_reason_to_wait s_light_barrier = true -> reader_down s' = true) /\
  (no_reason_to_wait s_light_barrier = false ->
   reader_part s' = reader_part s_light_barrier).
Proof.
  apply (SwitchRFID_Off_then_Check build_default 6 s_light_barrier);
    [reflexivity | vm_compute; split; [discriminate | reflexivity] | reflexivity].
Defined.

(** * The code at two inputs *)

(** C1: the well-formed Short Range frame [frame_SR] with the payload
    01 23 45 67 89 AB CD EF, received from state 0 with a new run marked.
    One notification is raised and the decoder returns to state 0, but the
    stored ID is 6745230105001100: the conversion loop reads w[8] down to
    w[1], which are the first four payload bytes and four bytes of the
    prefix.  The payload bytes 89 AB CD EF do not enter the ID, which is
    neither the payload in reverse order nor the payload in order. *)
Theorem C1_payload_bytes_dropped :
  well_formed_SR (data_bits frame_SR) /\
  SR_payload (data_bits frame_SR) = [0x01; 0x23; 0x45; 0x67; 0x89; 0xAB; 0xCD; 0xEF] /\
  exists s',
    RFID_Decode_stream build_alarm frame_SR s_newrun = Ok s' /\
    count_events is_NewID (trace (hw s'))
    = S (count_events is_NewID (trace (hw s_newrun))) /\
    l_State (rfid s') = 0 /\
    g_Transponder (rfid s') = "6745230105001100"%string /\
    hex_string (rev (SR_payload (data_bits frame_SR))) = "EFCDAB8967452301"%string /\
    g_Transponder (rfid s') <> hex_string (rev (SR_payload (data_bits frame_SR))) /\
    g_Transponder (rfid s') <> hex_string (SR_payload (data_bits frame_SR)).
Proof.
  split; [repeat split|]. split; [reflexivity|].
  eexists. split; [vm_compute; reflexivity|].
  split; [vm_compute; reflexivity|]. split; [reflexivity|].
  split; [reflexivity|]. split; [reflexivity|].
  split; vm_compute; discriminate.
Qed.

(** C4: the SET key in the calibration menu of UA1 with a voltage reference
    of 5000 mV and a current reference of 0.  The guard of
    MenuCalibrateOutput() looks at the voltage reference only: the voltage
    divider is overwritten by CalibrateVoltage(), and CalibrateCurrent() is
    called with the reference 0 and divides by zero.  Nothing is rejected
    and the dividers do not stay as they were. *)
Theorem C4_zero_current_reference_divides :
  let s := s_no_current_reference in
  nth_Z 0 (g_UA_Calib_mV (menu s)) (PWR_OUT_UA1 - PWR_OUT_UA1) = 5000 /\
  nth_Z 0 (g_UA_Calib_mA (menu s)) (PWR_OUT_UA1 - PWR_OUT_UA1) = 0 /\
  (exists s1,
     CalibrateVoltage PWR_OUT_UA1 5000 s = Ok s1 /\
     nth_Z 0 (l_mV_Divider (ctrl s)) PWR_OUT_UA1 = 65536 /\
     nth_Z 0 (l_mV_Divider (ctrl s1)) PWR_OUT_UA1 = 406323 /\
     CalibrateCurrent PWR_OUT_UA1 0 s1 = Undefined DivideByZero) /\
  MenuCalibrateOutput build_alarm KEYCODE_SET_RELEASE PWR_OUT_UA1 s
  = Undefined DivideByZero.
Proof.
  cbv zeta. split; [reflexivity|]. split; [reflexivity|]. split.
  - eexists. split; [vm_compute; reflexivity|].
    split; [reflexivity|]. split; reflexivity.
  - reflexivity.
Qed.
